(** * The OpenWebUI ping tool ([ping.py]): a shallow embedding and its properties

    The development follows the file top to bottom: the Python runtime
    operations the tool calls ([str.strip], [str.lower], [int(...)], the [re]
    patterns, float formatting), then the class [Tools] method by method, then
    the statements about [Tools.ping].

    Conventions.
    - A Python [str] is a [string]; a character is a code point below 256, so
      the model covers ASCII and Latin-1 text.  Sanitized targets are ASCII by
      construction; text printed by the ping utility outside Latin-1 is not
      covered.
    - A Python [int] is a [Z]; a Python [float] is a binary64 [float].
      CPython 3.11 and later refuse to convert an int of more than 4300
      digits to text, and a text of more than 4300 digits to an int:
      [PyInt.to_str] and [PyInt.int] raise [ValueError] there.  The fields of
      the TCP table are modelled for numbers within that limit
      ([PyInt.str]); they are a port that [int] has parsed, the configured
      port and attempts, and counts that the attempts bound.
    - An operation that may raise returns in [exc]; a method that talks to the
      operating system runs in the monad [M], which threads the trace of the
      calls made so far and keeps it when an exception is raised. *)

From Stdlib Require Import ZArith List String Ascii Bool Lia DecimalString.
From Stdlib Require Import PrimFloat FloatOps SpecFloat.
From Stdlib Require Uint63.
From Stdlib Require DecimalPos.
Import ListNotations.
Open Scope string_scope.
Open Scope Z_scope.

(** ** Exceptions *)

Inductive exn_class : Type :=
| ValueError
| OverflowError
| OSError
| OtherException.

(** An instance of a subclass of Python's [Exception]: its class and [str(e)]. *)
Record exn : Type := Exn { exn_cls : exn_class; exn_str : string }.

Definition exc (A : Type) : Type := (exn + A)%type.

Definition raise {A : Type} (c : exn_class) (msg : string) : exc A := inl (Exn c msg).

Definition exc_bind {A B : Type} (x : exc A) (f : A -> exc B) : exc B :=
  match x with
  | inl e => inl e
  | inr a => f a
  end.

(** [try: body / except Exception: handler] *)
Definition try_except {A : Type} (body : exc A) (handler : exn -> exc A) : exc A :=
  match body with
  | inl e => handler e
  | inr a => inr a
  end.

Definition is_ValueError (e : exn) : bool :=
  match exn_cls e with
  | ValueError => true
  | _ => false
  end.

(** [try: body / except ValueError: handler] *)
Definition try_except_ValueError {A : Type} (body : exc A) (handler : exn -> exc A) : exc A :=
  match body with
  | inl e => if is_ValueError e then handler e else inl e
  | inr a => inr a
  end.

(** ** Strings *)

Module PyStr.

Definition nl : string := String "010"%char "".

Definition code (c : ascii) : N := N_of_ascii c.

Definition in_range (lo hi c : ascii) : bool :=
  ((code lo <=? code c) && (code c <=? code hi))%N.

(** [str.isspace] on one character. *)
Definition isspace (c : ascii) : bool :=
  let n := code c in
  (((9 <=? n) && (n <=? 13)) || ((28 <=? n) && (n <=? 32)) || (n =? 133) || (n =? 160))%N.

Definition isdigit (c : ascii) : bool := in_range "0" "9" c.

Fixpoint lstrip (s : string) : string :=
  match s with
  | String c s' => if isspace c then lstrip s' else s
  | EmptyString => EmptyString
  end.

Fixpoint rstrip (s : string) : string :=
  match s with
  | String c s' =>
      match rstrip s' with
      | EmptyString => if isspace c then EmptyString else String c EmptyString
      | r => String c r
      end
  | EmptyString => EmptyString
  end.

(** [s.strip()] *)
Definition strip (s : string) : string := rstrip (lstrip s).

Definition lower_char (c : ascii) : ascii :=
  let n := code c in
  if (((65 <=? n) && (n <=? 90)) || ((192 <=? n) && (n <=? 222) && negb (n =? 215)))%N
  then ascii_of_N (n + 32) else c.

Definition upper_char (c : ascii) : ascii :=
  let n := code c in
  if (((97 <=? n) && (n <=? 122)) || ((224 <=? n) && (n <=? 254) && negb (n =? 247)))%N
  then ascii_of_N (n - 32) else c.

(** [s.lower()] *)
Fixpoint lower (s : string) : string :=
  match s with
  | String c s' => String (lower_char c) (lower s')
  | EmptyString => EmptyString
  end.

(** [s.startswith(p)] *)
Definition startswith (p s : string) : bool := String.prefix p s.

(** [k in s] *)
Fixpoint contains (k s : string) : bool :=
  startswith k s ||
  match s with
  | String _ s' => contains k s'
  | EmptyString => false
  end.

(** [s.count(c)] for a separator of one character. *)
Fixpoint count (c : ascii) (s : string) : Z :=
  match s with
  | String a s' => (if Ascii.eqb a c then 1 else 0) + count c s'
  | EmptyString => 0
  end.

(** [s[1:]] *)
Definition tail (s : string) : string :=
  match s with
  | String _ s' => s'
  | EmptyString => EmptyString
  end.

(** [s.split(sep, 1)] for a separator of one character: the text before
    the first [sep] and the text after it, or [s] alone. *)
Fixpoint split1 (sep : ascii) (s : string) : list string :=
  match s with
  | String a s' =>
      if Ascii.eqb a sep then [EmptyString; s']
      else match split1 sep s' with
           | [h; r] => [String a h; r]
           | _ => [s]
           end
  | EmptyString => [EmptyString]
  end.

(** [s.rsplit(sep, 1)] for a separator of one character: the split is at
    the last [sep]. *)
Fixpoint rsplit1 (sep : ascii) (s : string) : list string :=
  match s with
  | String a s' =>
      match rsplit1 sep s' with
      | [h; r] => [String a h; r]
      | _ => if Ascii.eqb a sep then [EmptyString; s'] else [s]
      end
  | EmptyString => [EmptyString]
  end.

(** [a, b = xs]: unpacking into two names. *)
Definition unpack2 (xs : list string) : exc (string * string) :=
  match xs with
  | [a; b] => inr (a, b)
  | [] | [_] => raise ValueError "not enough values to unpack (expected 2)"
  | _ => raise ValueError "too many values to unpack (expected 2)"
  end.

(** [sep.join(xs)] *)
Fixpoint join (sep : string) (xs : list string) : string :=
  match xs with
  | [] => EmptyString
  | [x] => x
  | x :: rest => x ++ sep ++ join sep rest
  end.

(** Truth value of a string, and [a or b] on strings. *)
Definition truthy (s : string) : bool :=
  match s with
  | EmptyString => false
  | _ => true
  end.

Definition or_else (a b : string) : string := if truthy a then a else b.

End PyStr.

(** ** Integers *)

Module PyInt.
Import PyStr.

(** The decimal text of [n]: what [str(n)] and an f-string field [{n}]
    give when they give anything. *)
Definition str (n : Z) : string := NilZero.string_of_int (Z.to_int n).

(** [sys.get_int_max_str_digits()]: CPython 3.11 and later refuse to
    convert an int of more decimal digits to text, and a text of more
    digits to an int. *)
Definition max_str_digits : Z := 4300.

(** The number of decimal digits of [n], its sign apart. *)
Definition digit_count (n : Z) : Z := Z.of_nat (String.length (str (Z.abs n))).

(** Whether [n] is within the limit. *)
Definition printable (n : Z) : bool := digit_count n <=? max_str_digits.

Definition limit_message : string :=
  "Exceeds the limit (4300 digits) for integer string conversion".

Definition limit_hint : string :=
  "; use sys.set_int_max_str_digits() to increase the limit".

(** [str(n)] as CPython 3.11 and later run it: [ValueError] beyond the
    limit. *)
Definition to_str (n : Z) : exc string :=
  if printable n then inr (str n)
  else raise ValueError (limit_message ++ limit_hint).

Definition digit_value (c : ascii) : Z := Z.of_N (code c) - 48.

(** White space that [int(...)] skips around a literal. *)
Definition is_int_space (c : ascii) : bool :=
  let n := code c in
  (((9 <=? n) && (n <=? 13)) || (n =? 32) || (n =? 133) || (n =? 160))%N.

Fixpoint skip_leading (s : string) : string :=
  match s with
  | String c s' => if is_int_space c then skip_leading s' else s
  | EmptyString => EmptyString
  end.

Fixpoint skip_trailing (s : string) : string :=
  match s with
  | String c s' =>
      match skip_trailing s' with
      | EmptyString => if is_int_space c then EmptyString else String c EmptyString
      | r => String c r
      end
  | EmptyString => EmptyString
  end.

(** The digits after the first one: a digit, or one underscore followed
    by a digit. *)
Fixpoint more_digits (acc : Z) (s : string) : option Z :=
  match s with
  | EmptyString => Some acc
  | String c s' =>
      if isdigit c then more_digits (10 * acc + digit_value c) s'
      else if Ascii.eqb c "_" then
        match s' with
        | String d s'' =>
            if isdigit d then more_digits (10 * acc + digit_value d) s'' else None
        | EmptyString => None
        end
      else None
  end.

Definition digits (s : string) : option Z :=
  match s with
  | String c s' => if isdigit c then more_digits (digit_value c) s' else None
  | EmptyString => None
  end.

Definition literal (s : string) : option Z :=
  match s with
  | String "-" s' => option_map Z.opp (digits s')
  | String "+" s' => digits s'
  | _ => digits s
  end.

(** The digits in the run of digits and single underscores in front of
    [s]; [None] when two underscores meet or the run ends with one.
    [after_underscore] tells that the character before was an underscore. *)
Fixpoint count_run (after_underscore : bool) (n : nat) (s : string) : option nat :=
  match s with
  | String c s' =>
      if isdigit c then count_run false (S n) s'
      else if Ascii.eqb c "_" then
        if after_underscore then None else count_run true n s'
      else if after_underscore then None else Some n
  | EmptyString => if after_underscore then None else Some n
  end.

(** A literal without its sign. *)
Definition unsigned (s : string) : string :=
  match s with
  | String "-" s' => s'
  | String "+" s' => s'
  | _ => s
  end.

(** The digits that [int] counts against the limit, before it looks at
    what follows them. *)
Definition counted_digits (s : string) : option nat :=
  match unsigned s with
  | String "_" _ => None
  | body => count_run false O body
  end.

(** [int(s)] for a string [s], base 10: optional white space, an optional
    sign, decimal digits that single underscores may separate, and of them
    no more than the limit. *)
Definition int (s : string) : exc Z :=
  let invalid := "invalid literal for int() with base 10: '" ++ s ++ "'" in
  let t := skip_trailing (skip_leading s) in
  match counted_digits t with
  | Some d =>
      if max_str_digits <? Z.of_nat d then
        raise ValueError
          (limit_message ++ ": value has " ++ str (Z.of_nat d) ++ " digits" ++ limit_hint)
      else
        match literal t with
        | Some n => inr n
        | None => raise ValueError invalid
        end
  | None => raise ValueError invalid
  end.

End PyInt.

(** ** Regular expressions

    The fragment of [re] that the five patterns of [Tools] use: literals,
    character classes, greedy and lazy repetition of a class, alternation,
    named groups and the end anchor, under the flags [IGNORECASE] and
    [DOTALL].  Matching is by backtracking, in the order [re] tries the
    alternatives, so the groups returned are the ones [re] returns. *)

Module Re.
Import PyStr.

Inductive cclass : Type :=
| Digit                         (* \d *)
| Space                         (* \s *)
| Dot                           (* . *)
| OneOf (cs : string)           (* the characters listed *)
| Range (lo hi : ascii)         (* lo-hi *)
| Union (a b : cclass).

Inductive regex : Type :=
| Empty
| Lit (s : string)
| Cls (k : cclass)
| Seq (r1 r2 : regex)
| Alt (r1 r2 : regex)
| Star (greedy : bool) (k : cclass)
| Group (name : string) (r : regex)
| Eol.                          (* $ *)

Record flags : Type := Flags { ignorecase : bool; dotall : bool }.

Definition no_flags : flags := Flags false false.

(** [k+], [k?] and a sequence of several parts. *)
Definition Plus (k : cclass) : regex := Seq (Cls k) (Star true k).
Definition Opt (k : cclass) : regex := Alt (Cls k) Empty.
Definition seq (rs : list regex) : regex := fold_right Seq Empty rs.

Fixpoint mem (c : ascii) (cs : string) : bool :=
  match cs with
  | String a cs' => Ascii.eqb a c || mem c cs'
  | EmptyString => false
  end.

Fixpoint in_class (f : flags) (k : cclass) (c : ascii) : bool :=
  match k with
  | Digit => isdigit c
  | Space => isspace c
  | Dot => dotall f || negb (Ascii.eqb c "010")
  | OneOf cs => mem c cs
  | Range lo hi => in_range lo hi c
  | Union a b => in_class f a c || in_class f b c
  end.

Definition class_match (f : flags) (k : cclass) (c : ascii) : bool :=
  in_class f k c ||
  (ignorecase f && (in_class f k (lower_char c) || in_class f k (upper_char c))).

Definition char_match (f : flags) (p c : ascii) : bool :=
  Ascii.eqb p c || (ignorecase f && Ascii.eqb (lower_char p) (lower_char c)).

(** The literal [p] at the start of the subject: the text it matched and
    the rest of the subject. *)
Fixpoint eat (f : flags) (p s : string) : option (string * string) :=
  match p, s with
  | EmptyString, _ => Some (EmptyString, s)
  | String a p', String c s' =>
      if char_match f a c then
        match eat f p' s' with
        | Some (m, rest) => Some (String c m, rest)
        | None => None
        end
      else None
  | String _ _, EmptyString => None
  end.

(** The named groups matched so far, the latest first. *)
Definition groups : Type := list (string * string).

Definition snoc (s : string) (c : ascii) : string := s ++ String c EmptyString.

Section Matcher.
Variable f : flags.

(** The matcher walks the subject [s]; [acc] is the text matched since
    the innermost enclosing group opened. *)
Fixpoint star_greedy (k : cclass) (cont : string -> string -> option groups)
         (s acc : string) : option groups :=
  match s with
  | String c s' =>
      if class_match f k c then
        match star_greedy k cont s' (snoc acc c) with
        | Some g => Some g
        | None => cont s acc
        end
      else cont s acc
  | EmptyString => cont s acc
  end.

Fixpoint star_lazy (k : cclass) (cont : string -> string -> option groups)
         (s acc : string) : option groups :=
  match cont s acc with
  | Some g => Some g
  | None =>
      match s with
      | String c s' => if class_match f k c then star_lazy k cont s' (snoc acc c) else None
      | EmptyString => None
      end
  end.

(** [run r s acc g cont]: match [r] at the start of [s], then continue
    with [cont] on what is left; the first success in backtracking
    order. *)
Fixpoint run (r : regex) (s acc : string) (g : groups)
         (cont : string -> string -> groups -> option groups) : option groups :=
  match r with
  | Empty => cont s acc g
  | Lit p =>
      match eat f p s with
      | Some (m, s') => cont s' (acc ++ m) g
      | None => None
      end
  | Cls k =>
      match s with
      | String c s' => if class_match f k c then cont s' (snoc acc c) g else None
      | EmptyString => None
      end
  | Seq r1 r2 => run r1 s acc g (fun s' acc' g' => run r2 s' acc' g' cont)
  | Alt r1 r2 =>
      match run r1 s acc g cont with
      | Some res => Some res
      | None => run r2 s acc g cont
      end
  | Star true k => star_greedy k (fun s' acc' => cont s' acc' g) s acc
  | Star false k => star_lazy k (fun s' acc' => cont s' acc' g) s acc
  | Group name r1 =>
      run r1 s EmptyString g (fun s' m g' => cont s' (acc ++ m) ((name, m) :: g'))
  | Eol =>
      match s with
      | EmptyString => cont s acc g
      | String "010" EmptyString => cont s acc g
      | _ => None
      end
  end.

(** [pattern.match(s)]: a match at the start of [s]. *)
Definition rmatch (r : regex) (s : string) : option groups :=
  run r s EmptyString [] (fun _ _ g => Some g).

(** [pattern.search(s)]: the match at the leftmost position that has one. *)
Fixpoint search (r : regex) (s : string) : option groups :=
  match rmatch r s with
  | Some g => Some g
  | None =>
      match s with
      | String _ s' => search r s'
      | EmptyString => None
      end
  end.
End Matcher.

(** Truth value of the result of [match] or [search]. *)
Definition matched (m : option groups) : bool :=
  match m with
  | Some _ => true
  | None => false
  end.

(** [m.group(name)] for a group that took part in the match. *)
Fixpoint group (g : groups) (name : string) : string :=
  match g with
  | (n, v) :: g' => if String.eqb n name then v else group g' name
  | [] => EmptyString
  end.

End Re.

(** ** Floats *)

Module PyFloat.

(** Round [n / d] to the nearest integer, ties to even ([0 < d]). *)
Definition round_half_even (n d : Z) : Z :=
  let q := n / d in
  let r := n mod d in
  if 2 * r <? d then q
  else if d <? 2 * r then q + 1
  else if Z.even q then q else q + 1.

(** [format(x, ".1f")]: the decimal with one fractional digit nearest to
    the exact value of [x]. *)
Definition format_1f (x : float) : string :=
  match Prim2SF x with
  | S754_nan => "nan"
  | S754_infinity s => if s then "-inf" else "inf"
  | S754_zero s => if s then "-0.0" else "0.0"
  | S754_finite s m e =>
      let tenths :=
        if 0 <=? e then 10 * Z.pos m * 2 ^ e
        else round_half_even (10 * Z.pos m) (2 ^ (- e)) in
      (if s then "-" else "") ++ PyInt.str (tenths / 10) ++ "." ++ PyInt.str (tenths mod 10)
  end.

(** [min(xs)] and [max(xs)] of a non-empty list: the first element that no
    later one beats under [<], respectively [>]. *)
Definition min (xs : list float) : float :=
  match xs with
  | [] => nan
  | x :: rest => fold_left (fun best y => if PrimFloat.ltb y best then y else best) rest x
  end.

Definition max (xs : list float) : float :=
  match xs with
  | [] => nan
  | x :: rest => fold_left (fun best y => if PrimFloat.ltb best y then y else best) rest x
  end.

(** [sum(xs)]: the additions from left to right, starting from [0].
    (CPython 3.12 and later compensate the rounding errors of the
    additions; no statement below depends on the last bits of a sum.) *)
Definition sum (xs : list float) : float := fold_left PrimFloat.add xs zero.

(** [float(n)] for a length. *)
Definition of_len (n : nat) : float := PrimFloat.of_uint63 (Uint63.of_Z (Z.of_nat n)).

End PyFloat.

(** ** The operating system

    What [Tools] asks of the system it runs on, and the monad that records
    the calls it makes. *)

(** The result of [subprocess.run]. *)
Record CompletedProcess : Type :=
  Completed { returncode : Z; stdout : string; stderr : string }.

Inductive event : Type :=
| Which (cmd : string)                             (* shutil.which(cmd) *)
| Run (cmd : list string)                          (* subprocess.run(cmd, ...) *)
| PerfCounter                                      (* time.perf_counter() *)
| Connect (host : string) (port : Z) (timeout : float)
                                                   (* socket.create_connection *)
| Close                                            (* leaving the [with] block *)
| Sleep (seconds : float).                         (* time.sleep *)

(** The answers of the system.  The clock and the network are asked several
    times in one call of [ping]: their answers depend on how many times
    they were asked before. *)
Record Env : Type := {
  shutil_which : string -> option string;
  platform_system : string;
  subprocess_run : list string -> exc CompletedProcess;
  perf_counter : nat -> float;
  create_connection : nat -> string -> Z -> float -> option exn
}.

Definition trace : Type := list event.

Definition is_Run (e : event) : bool :=
  match e with Run _ => true | _ => false end.

Definition is_Connect (e : event) : bool :=
  match e with Connect _ _ _ => true | _ => false end.

Definition is_PerfCounter (e : event) : bool :=
  match e with PerfCounter => true | _ => false end.

Definition calls (p : event -> bool) (t : trace) : nat := List.length (filter p t).

Definition emit (t : trace) (e : event) : trace := (t ++ [e])%list.

(** A computation: from the trace so far to a result, or an exception, and
    the trace extended by the calls made. *)
Definition M (A : Type) : Type := trace -> exc A * trace.

Definition ret {A : Type} (a : A) : M A := fun t => (inr a, t).

Definition bind {A B : Type} (m : M A) (k : A -> M B) : M B :=
  fun t =>
    match m t with
    | (inl e, t') => (inl e, t')
    | (inr a, t') => k a t'
    end.

Definition lift {A : Type} (x : exc A) : M A := fun t => (x, t).

(** [try: body / except Exception as e: handler e] *)
Definition try_exceptM {A : Type} (body : M A) (handler : exn -> M A) : M A :=
  fun t =>
    match body t with
    | (inl e, t') => handler e t'
    | (inr a, t') => (inr a, t')
    end.

Declare Scope M_scope.
Delimit Scope M_scope with M.
Notation "x <- m ;; k" := (bind m (fun x => k))
  (at level 61, m at next level, right associativity) : M_scope.
Notation "' p <- m ;; k" := (bind m (fun x => let p := x in k))
  (at level 61, p pattern, m at next level, right associativity) : M_scope.
Notation "m ;; k" := (bind m (fun _ => k))
  (at level 61, right associativity) : M_scope.

(** ** The class [Tools] *)

Module Tools.
Import PyStr Re.
Local Open Scope M_scope.

Record Valves : Type := {
  packet_count : Z;
  timeout_seconds : Z;
  tcp_default_port : Z;
  tcp_attempts : Z;
  tcp_timeout_seconds : float
}.

(** The class attributes of [Valves]. *)
Definition default_valves : Valves := {|
  packet_count := 4;
  timeout_seconds := 5;
  tcp_default_port := 443;
  tcp_attempts := 4;
  tcp_timeout_seconds := 2
|}.

(** "^[A-Za-z0-9\.\-:%_\[\]]+$", applied with [match], which anchors the
    pattern at the start. *)
Definition allowed_chars : cclass :=
  Union (Range "A" "Z") (Union (Range "a" "z") (Union (Range "0" "9") (OneOf ".-:%_[]"))).

Definition _ALLOWED_TARGET : regex := seq [Plus allowed_chars; Eol].

(** *** Sanitization and target parsing *)

Definition _sanitize (target : string) : option string :=
  let t := strip (or_else target "") in
  if negb (truthy t) || negb (matched (rmatch no_flags _ALLOWED_TARGET t))
  then None
  else Some t.

Definition _split_host_port (target : string) : exc (string * option Z) :=
  if startswith "[" target then
    try_except
      (exc_bind (unpack2 (split1 "]" (tail target))) (fun '(host, rest) =>
         if startswith ":" rest then
           exc_bind (PyInt.int (tail rest)) (fun p => inr (host, Some p))
         else inr (host, None)))
      (fun _ => inr (target, None))
  else if 1 <? count ":" target then inr (target, None)
  else if contains ":" target then
    exc_bind (unpack2 (rsplit1 ":" target)) (fun '(host, p) =>
      try_except_ValueError
        (exc_bind (PyInt.int p) (fun n => inr (host, Some n)))
        (fun _ => inr (target, None)))
  else inr (target, None).

Section Methods.
Variable env : Env.
Variable valves : Valves.

(** The calls to the system: each is recorded in the trace. *)
Definition which (cmd : string) : M (option string) :=
  fun t => (inr (shutil_which env cmd), emit t (Which cmd)).

Definition run_process (cmd : list string) : M CompletedProcess :=
  fun t => (subprocess_run env cmd, emit t (Run cmd)).

Definition clock : M float :=
  fun t => (inr (perf_counter env (calls is_PerfCounter t)), emit t PerfCounter).

Definition connect (host : string) (port : Z) (timeout : float) : M unit :=
  fun t =>
    (match create_connection env (calls is_Connect t) host port timeout with
     | Some e => inl e
     | None => inr tt
     end, emit t (Connect host port timeout)).

Definition close : M unit := fun t => (inr tt, emit t Close).

Definition sleep (seconds : float) : M unit := fun t => (inr tt, emit t (Sleep seconds)).

(** *** ICMP ping helpers *)

Fixpoint first_found (cands : list string) : M (option string) :=
  match cands with
  | [] => ret None
  | cand :: rest =>
      p <- which cand ;;
      match p with
      | Some path => if truthy path then ret (Some path) else first_found rest
      | None => first_found rest
      end
  end.

Definition _find_ping : M (option string) :=
  first_found ["ping"; "/bin/ping"; "/usr/bin/ping"; "/sbin/ping"; "/usr/sbin/ping"].

(** Returns [(ok, stdout, stderr)].  The command is built before the
    [try]: a count or a timeout beyond the limit of [str] raises
    [ValueError] to the caller. *)
Definition _icmp_ping (host : string) (count timeout : Z) : M (bool * string * string) :=
  ping_path <- _find_ping ;;
  match ping_path with
  | None => ret (false, "", "ping binary not found inside the container")
  | Some ping_path =>
      if negb (truthy ping_path)
      then ret (false, "", "ping binary not found inside the container")
      else
        let os_name := lower (platform_system env) in
        cmd <- lift
          (if contains "windows" os_name
           then exc_bind (PyInt.to_str count) (fun c =>
                exc_bind (PyInt.to_str (timeout * 1000)) (fun w =>
                inr [ping_path; "-n"; c; "-w"; w; host]))
           else exc_bind (PyInt.to_str count) (fun c =>
                exc_bind (PyInt.to_str timeout) (fun w =>
                inr [ping_path; "-c"; c; "-W"; w; host]))) ;;
        try_exceptM
          (proc <- run_process cmd ;;
           ret (returncode proc =? 0, stdout proc, stderr proc))
          (fun e => ret (false, "", exn_str e))
  end.

(** Parse Linux/mac output. *)

(** "(?P<tx>\d+)\s+packets\s+transmitted,\s+(?P<rx>\d+)\s+received.*?(?P<loss>\d+\.?\d*" ")%\s+packet\s+loss",
    [IGNORECASE | DOTALL] *)
Definition _re_packets_unix : flags * regex :=
  (Flags true true,
   seq [Group "tx" (Plus Digit); Plus Space; Lit "packets"; Plus Space;
        Lit "transmitted,"; Plus Space; Group "rx" (Plus Digit); Plus Space;
        Lit "received"; Star false Dot;
        Group "loss" (seq [Plus Digit; Opt (OneOf "."); Star true Digit]);
        Lit "%"; Plus Space; Lit "packet"; Plus Space; Lit "loss"]).

(** "(?:round-trip|rtt).*?=\s*(?P<min>[\d\.]+)/(?P<avg>[\d\.]+)/(?P<max>[\d\.]+)/(?P<mdev>[\d\.]+)\s*ms",
    [IGNORECASE] *)
Definition digits_dots : cclass := Union Digit (OneOf ".").

Definition _re_rtt_unix : flags * regex :=
  (Flags true false,
   seq [Alt (Lit "round-trip") (Lit "rtt"); Star false Dot; Lit "="; Star true Space;
        Group "min" (Plus digits_dots); Lit "/";
        Group "avg" (Plus digits_dots); Lit "/";
        Group "max" (Plus digits_dots); Lit "/";
        Group "mdev" (Plus digits_dots); Star true Space; Lit "ms"]).

(** Parse Windows output. *)

(** "Packets:\s*Sent\s*=\s*(?P<tx>\d+),\s*Received\s*=\s*(?P<rx>\d+),\s*Lost\s*=\s*\d+\s*\((?P<loss>\d+)%\s*loss\)",
    [IGNORECASE] *)
Definition _re_packets_win : flags * regex :=
  (Flags true false,
   seq [Lit "Packets:"; Star true Space; Lit "Sent"; Star true Space; Lit "=";
        Star true Space; Group "tx" (Plus Digit); Lit ","; Star true Space;
        Lit "Received"; Star true Space; Lit "="; Star true Space;
        Group "rx" (Plus Digit); Lit ","; Star true Space; Lit "Lost";
        Star true Space; Lit "="; Star true Space; Plus Digit; Star true Space;
        Lit "("; Group "loss" (Plus Digit); Lit "%"; Star true Space; Lit "loss)"]).

(** "Minimum\s*=\s*(?P<min>\d+)ms,\s*Maximum\s*=\s*(?P<max>\d+)ms,\s*Average\s*=\s*(?P<avg>\d+)ms",
    [IGNORECASE] *)
Definition _re_rtt_win : flags * regex :=
  (Flags true false,
   seq [Lit "Minimum"; Star true Space; Lit "="; Star true Space;
        Group "min" (Plus Digit); Lit "ms,"; Star true Space;
        Lit "Maximum"; Star true Space; Lit "="; Star true Space;
        Group "max" (Plus Digit); Lit "ms,"; Star true Space;
        Lit "Average"; Star true Space; Lit "="; Star true Space;
        Group "avg" (Plus Digit); Lit "ms"]).

(** [pattern.search(text)] for a compiled pattern. *)
Definition re_search (p : flags * regex) (text : string) : option groups :=
  search (fst p) (snd p) text.

Definition _format_icmp_table (host stdout stderr : string) : option string :=
  let text := or_else stdout "" ++ nl ++ or_else stderr "" in
  (* Prefer Unix style first *)
  let m_pkt := re_search _re_packets_unix text in
  let m_rtt := re_search _re_rtt_unix text in
  let os_name := lower (platform_system env) in
  match m_pkt with
  | Some m_pkt =>
      let tx := group m_pkt "tx" in
      let rx := group m_pkt "rx" in
      let loss := group m_pkt "loss" in
      let '(min_v, avg_v, max_v, mdev_v) :=
        match m_rtt with
        | Some m_rtt =>
            (group m_rtt "min", group m_rtt "avg", group m_rtt "max", group m_rtt "mdev")
        | None => ("-", "-", "-", "-")
        end in
      let table :=
        ["| Type | Host | Sent | Received | Loss | Min (ms) | Avg (ms) | Max (ms) | Mdev/Stddev (ms) |";
         "|---|---|---:|---:|---:|---:|---:|---:|---:|";
         "| ICMP | " ++ host ++ " | " ++ tx ++ " | " ++ rx ++ " | " ++ loss ++ "% | "
           ++ min_v ++ " | " ++ avg_v ++ " | " ++ max_v ++ " | " ++ mdev_v ++ " |"] in
      Some (join nl table)
  | None =>
      (* Windows style *)
      let m_pkt := re_search _re_packets_win text in
      let m_rtt := re_search _re_rtt_win text in
      match m_pkt with
      | Some m_pkt =>
          let tx := group m_pkt "tx" in
          let rx := group m_pkt "rx" in
          let loss := group m_pkt "loss" in
          let '(min_v, avg_v, max_v) :=
            match m_rtt with
            | Some m_rtt => (group m_rtt "min", group m_rtt "avg", group m_rtt "max")
            | None => ("-", "-", "-")
            end in
          let table :=
            ["| Type | Host | Sent | Received | Loss | Min (ms) | Avg (ms) | Max (ms) |";
             "|---|---|---:|---:|---:|---:|---:|---:|";
             "| ICMP | " ++ host ++ " | " ++ tx ++ " | " ++ rx ++ " | " ++ loss ++ "% | "
               ++ min_v ++ " | " ++ avg_v ++ " | " ++ max_v ++ " |"] in
          Some (join nl table)
      | None =>
          (* the caller treats the absence of a table as a failure to parse *)
          None
      end
  end.

(** *** TCP fallback *)

(** One turn of the loop of [_tcp_ping].  Once the connection is
    established nothing in the [try] block raises, so the handler finds
    [samples_ms] as it was before the attempt. *)
Definition tcp_attempt (host : string) (port : Z) (timeout : float)
           (samples_ms : list float) (errors : list string)
  : M (list float * list string) :=
  t0 <- clock ;;
  try_exceptM
    (connect host port timeout ;;
     t1 <- clock ;;
     let dt_ms := ((t1 - t0) * 1000)%float in
     let samples_ms := (samples_ms ++ [dt_ms])%list in
     close ;;
     sleep 0x1.999999999999ap-4 ;;
     ret (samples_ms, errors))
    (fun e => ret (samples_ms, (errors ++ [exn_str e])%list)).

(** [for _ in range(n)] around [tcp_attempt]. *)
Fixpoint tcp_loop (n : nat) (host : string) (port : Z) (timeout : float)
         (samples_ms : list float) (errors : list string)
  : M (list float * list string) :=
  match n with
  | O => ret (samples_ms, errors)
  | S n' =>
      '(samples_ms, errors) <- tcp_attempt host port timeout samples_ms errors ;;
      tcp_loop n' host port timeout samples_ms errors
  end.

Definition _tcp_ping (host : string) (port attempts : Z) (timeout : float)
  : M (list float * list string) :=
  tcp_loop (Z.to_nat attempts) host port timeout [] [].

(** The rows [| i | v |] for [enumerate(samples_ms, i)]. *)
Fixpoint attempt_rows (i : Z) (samples_ms : list float) : list string :=
  match samples_ms with
  | [] => []
  | v :: rest =>
      ("| " ++ PyInt.str i ++ " | " ++ PyFloat.format_1f v ++ " |") :: attempt_rows (i + 1) rest
  end.

(** The row [| e |] of the table of errors. *)
Definition error_row (e : string) : string := "| " ++ e ++ " |".

Definition _format_tcp_table (host : string) (port : Z) (samples_ms : list float)
           (attempts : Z) (errors : list string) : string :=
  let ok := Z.of_nat (List.length samples_ms) in
  let fail := attempts - ok in
  let '(mn, mx, avg) :=
    match samples_ms with
    | _ :: _ =>
        (PyFloat.min samples_ms, PyFloat.max samples_ms,
         (PyFloat.sum samples_ms / PyFloat.of_len (List.length samples_ms))%float)
    | [] => (nan, nan, nan)
    end in
  let summary :=
    "| TCP | " ++ host ++ " | " ++ PyInt.str port ++ " | " ++ PyInt.str attempts ++ " | "
      ++ PyInt.str ok ++ " | " ++ PyInt.str fail ++ " | " ++ PyFloat.format_1f mn ++ " | "
      ++ PyFloat.format_1f avg ++ " | " ++ PyFloat.format_1f mx ++ " |" in
  let rows :=
    ["| Type | Host | Port | Attempts | Success | Fail | Min (ms) | Avg (ms) | Max (ms) |";
     "|---|---|---:|---:|---:|---:|---:|---:|---:|";
     summary] in
  let rows :=
    if 1 <? attempts then
      (rows ++ [""; "| Attempt | Latency (ms) |"; "|---:|---:|"]
         ++ match samples_ms with
            | _ :: _ => attempt_rows 1 samples_ms
            | [] => ["| 1 | failed |"]
            end)%list
    else rows in
  let rows :=
    match errors with
    | _ :: _ =>
        (rows ++ [""; "| Errors |"; "|---|"]
           ++ map error_row (firstn 3 errors))%list
    | [] => rows
    end in
  join nl rows.

(** [x or d] for an optional integer [x]. *)
Definition or_int (x : option Z) (d : Z) : Z :=
  match x with
  | Some n => if n =? 0 then d else n
  | None => d
  end.

(** The substrings of a failure reason that send [ping] to the TCP
    fallback. *)
Definition fallback_keys : list string :=
  ["not found"; "operation not permitted"; "permission denied"; "cap_net_raw"; "icmp"].

(** Returns only a Markdown table, or an error reason string. *)
Definition ping (target : string) (count timeout : option Z) : M string :=
  match _sanitize target with
  | None => ret "Invalid target"
  | Some target =>
      if negb (truthy target) then ret "Invalid target"
      else
        '(host, port) <- lift (_split_host_port target) ;;
        let count := or_int count (packet_count valves) in
        let timeout := or_int timeout (timeout_seconds valves) in
        (* Try ICMP *)
        '(ok, out, err) <- _icmp_ping host count timeout ;;
        if (ok : bool) then
          match _format_icmp_table host out err with
          | Some table =>
              if truthy table then ret table
              else ret ("| Type | Host | Note |" ++ nl ++ "|---|---|---|" ++ nl
                          ++ "| ICMP | " ++ host ++ " | Success (unparsed output) |")
          | None =>
              (* ICMP succeeded but parsing failed: minimal success table *)
              ret ("| Type | Host | Note |" ++ nl ++ "|---|---|---|" ++ nl
                     ++ "| ICMP | " ++ host ++ " | Success (unparsed output) |")
          end
        else
          (* ICMP failed: the error may be in stderr or in stdout *)
          let icmp_reason :=
            lower (or_else (strip err) (or_else (strip out) "ICMP ping failed")) in
          if existsb (fun k => contains k icmp_reason) fallback_keys then
            (* TCP fallback *)
            let p := or_int port (tcp_default_port valves) in
            '(samples, errors) <-
              _tcp_ping host p (tcp_attempts valves) (tcp_timeout_seconds valves) ;;
            ret (_format_tcp_table host p samples (tcp_attempts valves) errors)
          else
            (* no clear ICMP-permission context: return the reason *)
            ret (or_else (strip err) (or_else (strip out) "Ping failed"))
  end.

Definition use_ping (target : string) : M string := ping target None None.

End Methods.
End Tools.

(** * Vocabulary of the statements *)

Module Spec.
Import PyStr.

(** The characters of a string. *)
Definition chars (s : string) : list ascii := list_ascii_of_string s.

Definition free_of (c : ascii) (s : string) : Prop := ~ In c (chars s).

(** The allow-list of a target: ASCII letters and digits and the seven
    characters [. - : % _ [ ]]. *)
Definition allow_listed (c : ascii) : bool :=
  in_range "A" "Z" c || in_range "a" "z" c || in_range "0" "9" c || Re.mem c ".-:%_[]".

(** Host and port of a target, case by case. *)
Inductive parses_to (t : string) : string * option Z -> Prop :=
| bracket_port (h lit : string) (n : Z) :
    t = "[" ++ h ++ "]:" ++ lit -> free_of "]" h -> PyInt.int lit = inr n ->
    parses_to t (h, Some n)
| bracket_bad_port (h lit : string) (e : exn) :
    t = "[" ++ h ++ "]:" ++ lit -> free_of "]" h -> PyInt.int lit = inl e ->
    parses_to t (t, None)
| bracket_no_port (h rest : string) :
    t = "[" ++ h ++ "]" ++ rest -> free_of "]" h -> startswith ":" rest = false ->
    parses_to t (h, None)
| bracket_open :
    startswith "[" t = true -> free_of "]" t ->
    parses_to t (t, None)
| several_colons :
    startswith "[" t = false -> 1 < count ":" t ->
    parses_to t (t, None)
| host_port (h lit : string) (n : Z) :
    startswith "[" t = false -> t = h ++ ":" ++ lit -> free_of ":" h -> free_of ":" lit ->
    PyInt.int lit = inr n ->
    parses_to t (h, Some n)
| host_bad_port (h lit : string) (e : exn) :
    startswith "[" t = false -> t = h ++ ":" ++ lit -> free_of ":" h -> free_of ":" lit ->
    PyInt.int lit = inl e ->
    parses_to t (t, None)
| no_colon :
    startswith "[" t = false -> free_of ":" t ->
    parses_to t (t, None).

(** A target in brackets: [[h]] or [[h]:p]. *)
Definition bracket_form (t : string) : bool :=
  startswith "[" t
  && match split1 "]" (tail t) with
     | [_; rest] => negb (truthy rest) || startswith ":" rest
     | _ => false
     end.

(** Whether the last character of a text is a digit. *)
Fixpoint ends_with_digit (s : string) : bool :=
  match s with
  | EmptyString => false
  | String c EmptyString => isdigit c
  | String _ s' => ends_with_digit s'
  end.

(** The failure text [ping] inspects and reports: the trimmed standard
    error if it is not empty, else the trimmed standard output. *)
Definition failure_text (out err : string) : string := or_else (strip err) (strip out).

(** The text [ping] inspects after a failed ICMP attempt: the same, or the
    words "ICMP ping failed" if both are empty. *)
Definition inspected_text (out err : string) : string :=
  or_else (strip err) (or_else (strip out) "ICMP ping failed").


(** A reason sends [ping] to the TCP fallback when its lower-cased text
    contains one of the keys. *)
Definition triggers_fallback (reason : string) : bool :=
  existsb (fun k => contains k (lower reason)) Tools.fallback_keys.

(** The port of the fallback: the port of the target unless there is none
    or it is zero, and then the configured default. *)
Definition fallback_port (port : option Z) (default : Z) : Z :=
  match port with
  | Some n => if n =? 0 then default else n
  | None => default
  end.


(** The first three lines of a TCP table, up to the port. *)
Definition tcp_table_start (host : string) (port : Z) : string :=
  "| Type | Host | Port | Attempts | Success | Fail | Min (ms) | Avg (ms) | Max (ms) |" ++ nl
  ++ "|---|---|---:|---:|---:|---:|---:|---:|---:|" ++ nl
  ++ "| TCP | " ++ host ++ " | " ++ PyInt.str port ++ " | ".

Definition is_tcp_table (host : string) (port : Z) (report : string) : Prop :=
  exists rest, report = tcp_table_start host port ++ rest.



(** The calls of one attempt of the TCP loop that is refused, and of one
    that connects. *)
Definition refused_attempt (host : string) (port : Z) (timeout : float) : trace :=
  [PerfCounter; Connect host port timeout].

Definition connected_attempt (host : string) (port : Z) (timeout : float) : trace :=
  [PerfCounter; Connect host port timeout; PerfCounter; Close; Sleep 0x1.999999999999ap-4].

(** What the network answers to [n] connection attempts, the first of
    them being attempt number [k] of the run. *)
Definition answers (env : Env) (k n : nat) (host : string) (port : Z) (timeout : float)
  : list (option exn) :=
  map (fun i => create_connection env i host port timeout) (seq k n).

Definition refusals (answers : list (option exn)) : list string :=
  flat_map (fun a => match a with Some e => [exn_str e] | None => [] end) answers.

Definition connections (answers : list (option exn)) : nat :=
  List.length (filter (fun a => match a with None => true | Some _ => false end) answers).

(** The table [ping] returns when the ping utility succeeded and its
    output was not understood. *)
Definition unparsed_table (host : string) : string :=
  "| Type | Host | Note |" ++ nl ++ "|---|---|---|" ++ nl
  ++ "| ICMP | " ++ host ++ " | Success (unparsed output) |".

(** The table for output in the POSIX format. *)
Definition posix_table (host tx rx loss min_v avg_v max_v mdev_v : string) : string :=
  "| Type | Host | Sent | Received | Loss | Min (ms) | Avg (ms) | Max (ms) | Mdev/Stddev (ms) |"
  ++ nl ++ "|---|---|---:|---:|---:|---:|---:|---:|---:|" ++ nl
  ++ "| ICMP | " ++ host ++ " | " ++ tx ++ " | " ++ rx ++ " | " ++ loss ++ "% | "
  ++ min_v ++ " | " ++ avg_v ++ " | " ++ max_v ++ " | " ++ mdev_v ++ " |".

(** The candidates of [_find_ping], in the order it asks for them. *)
Definition ping_candidates : list string :=
  ["ping"; "/bin/ping"; "/usr/bin/ping"; "/sbin/ping"; "/usr/sbin/ping"].

(** What [shutil.which] resolves a candidate to, if anything. *)
Definition resolves (env : Env) (cand : string) : option string :=
  match shutil_which env cand with
  | Some path => if truthy path then Some path else None
  | None => None
  end.

(** The command of the ICMP attempt on a system whose name contains
    "windows", and on any other system. *)
Definition windows_command (path host : string) (count timeout : Z) : list string :=
  [path; "-n"; PyInt.str count; "-w"; PyInt.str (timeout * 1000); host].

Definition posix_command (path host : string) (count timeout : Z) : list string :=
  [path; "-c"; PyInt.str count; "-W"; PyInt.str timeout; host].

Definition is_windows (env : Env) : bool := contains "windows" (lower (platform_system env)).

(** The command of the ICMP attempt for a binary at [path]. *)
Definition icmp_command (env : Env) (path host : string) (count timeout : Z) : list string :=
  if is_windows env then windows_command path host count timeout
  else posix_command path host count timeout.

(** What [str] raises beyond the limit. *)
Definition limit_error : exn := Exn ValueError (PyInt.limit_message ++ PyInt.limit_hint).

(** Whether the count and the timeout of the command are within the limit
    of [str]: the timeout in milliseconds on a system whose name contains
    "windows", in seconds on any other. *)
Definition command_printable (env : Env) (count timeout : Z) : bool :=
  PyInt.printable count
  && PyInt.printable (if is_windows env then timeout * 1000 else timeout).

(** What [_icmp_ping] makes of the answer of [subprocess.run]. *)
Definition icmp_outcome (r : exc CompletedProcess) : bool * string * string :=
  match r with
  | inr proc => (returncode proc =? 0, stdout proc, stderr proc)
  | inl e => (false, "", exn_str e)
  end.

(** The events of the TCP loop for a list of answers of the network. *)
Definition attempts_trace (host : string) (port : Z) (timeout : float)
           (answers : list (option exn)) : trace :=
  flat_map (fun a => match a with
                     | Some _ => refused_attempt host port timeout
                     | None => connected_attempt host port timeout
                     end) answers.

(** The latency samples of the TCP loop for a list of answers, the clock
    having been read [k] times before: an attempt that connects reads the
    clock twice and yields the difference in milliseconds, an attempt that
    is refused reads it once and yields nothing. *)
Fixpoint latencies (env : Env) (k : nat) (answers : list (option exn)) : list float :=
  match answers with
  | [] => []
  | None :: rest =>
      ((perf_counter env (S k) - perf_counter env k) * 1000)%float
        :: latencies env (S (S k)) rest
  | Some _ :: rest => latencies env (S k) rest
  end.

Definition is_Sleep (e : event) : bool :=
  match e with Sleep _ => true | _ => false end.

Definition is_Close (e : event) : bool :=
  match e with Close => true | _ => false end.

(** Every character of [s] satisfies [p]. *)
Fixpoint all_of (p : ascii -> bool) (s : string) : bool :=
  match s with
  | EmptyString => true
  | String c s' => p c && all_of p s'
  end.

(** [s] does not go on with a character that satisfies [p]. *)
Definition stops (p : ascii -> bool) (s : string) : bool :=
  match s with
  | EmptyString => true
  | String c _ => negb (p c)
  end.

(** A non-empty string of digits; a non-empty string of digits and dots. *)
Definition number (s : string) : bool := truthy s && all_of isdigit s.

Definition dotted (s : string) : bool :=
  truthy s && all_of (fun c => isdigit c || Ascii.eqb c ".") s.

(** The table for output in the Windows format. *)
Definition windows_table (host tx rx loss min_v avg_v max_v : string) : string :=
  "| Type | Host | Sent | Received | Loss | Min (ms) | Avg (ms) | Max (ms) |"
  ++ nl ++ "|---|---|---:|---:|---:|---:|---:|---:|" ++ nl
  ++ "| ICMP | " ++ host ++ " | " ++ tx ++ " | " ++ rx ++ " | " ++ loss ++ "% | "
  ++ min_v ++ " | " ++ avg_v ++ " | " ++ max_v ++ " |".

(** The fraction of a percentage: nothing, or a dot and digits. *)
Definition fraction (s : string) : bool :=
  match s with
  | EmptyString => true
  | String c d => Ascii.eqb c "." && all_of isdigit d
  end.

(** [s.find(k)]: where [k] first occurs in [s]. *)
Fixpoint find (k s : string) : option nat :=
  if startswith k s then Some O
  else match s with
       | String _ s' => option_map S (find k s')
       | EmptyString => None
       end.

(** The summary line and the line of round-trip times that ping of
    iputils prints. *)
Definition posix_summary (tx rx loss : string) : string :=
  tx ++ " packets transmitted, " ++ rx ++ " received, " ++ loss ++ "% packet loss".

Definition posix_times (min_v avg_v max_v mdev_v : string) : string :=
  "rtt min/avg/max/mdev = " ++ min_v ++ "/" ++ avg_v ++ "/" ++ max_v ++ "/" ++ mdev_v ++ " ms".

(** The counts of the summary line that ping of BSD and macOS prints. *)
Definition bsd_counts (tx rx : string) : string :=
  tx ++ " packets transmitted, " ++ rx ++ " packets received, ".

(** The two summary lines that ping of Windows prints. *)
Definition windows_summary (tx rx lost loss : string) : string :=
  "Packets: Sent = " ++ tx ++ ", Received = " ++ rx ++ ", Lost = " ++ lost
  ++ " (" ++ loss ++ "% loss)".

Definition windows_times (min_v max_v avg_v : string) : string :=
  "Minimum = " ++ min_v ++ "ms, Maximum = " ++ max_v ++ "ms, Average = " ++ avg_v ++ "ms".

(** A percentage: digits, then nothing or a dot and digits. *)
Definition percentage (s : string) : Prop :=
  exists whole frac, s = whole ++ frac /\ number whole = true /\ fraction frac = true.

(** What a pattern may match: [matches f r m rest g g'] when [r] matches
    the text [m] in front of [rest] and adds to the groups [g] to give
    [g']. *)
Inductive matches (f : Re.flags) : Re.regex -> string -> string -> Re.groups -> Re.groups -> Prop :=
| matches_empty (rest : string) (g : Re.groups) :
    matches f Re.Empty "" rest g g
| matches_lit (p m rest : string) (g : Re.groups) :
    Re.eat f p (m ++ rest) = Some (m, rest) ->
    matches f (Re.Lit p) m rest g g
| matches_cls (k : Re.cclass) (c : ascii) (rest : string) (g : Re.groups) :
    Re.class_match f k c = true ->
    matches f (Re.Cls k) (String c "") rest g g
| matches_seq (r1 r2 : Re.regex) (m1 m2 rest : string) (g g1 g2 : Re.groups) :
    matches f r1 m1 (m2 ++ rest) g g1 ->
    matches f r2 m2 rest g1 g2 ->
    matches f (Re.Seq r1 r2) (m1 ++ m2) rest g g2
| matches_alt_l (r1 r2 : Re.regex) (m rest : string) (g g' : Re.groups) :
    matches f r1 m rest g g' ->
    matches f (Re.Alt r1 r2) m rest g g'
| matches_alt_r (r1 r2 : Re.regex) (m rest : string) (g g' : Re.groups) :
    matches f r2 m rest g g' ->
    matches f (Re.Alt r1 r2) m rest g g'
| matches_star (greedy : bool) (k : Re.cclass) (m rest : string) (g : Re.groups) :
    all_of (Re.class_match f k) m = true ->
    matches f (Re.Star greedy k) m rest g g
| matches_group (name : string) (r : Re.regex) (m rest : string) (g g' : Re.groups) :
    matches f r m rest g g' ->
    matches f (Re.Group name r) m rest g ((name, m) :: g')
| matches_eol (rest : string) (g : Re.groups) :
    rest = "" \/ rest = nl ->
    matches f Re.Eol "" rest g g.

(** The report of [ping] after a successful ICMP attempt. *)
Definition icmp_report (env : Env) (host out err : string) : string :=
  match Tools._format_icmp_table env host out err with
  | Some table => if truthy table then table else unparsed_table host
  | None => unparsed_table host
  end.

End Spec.

(** * Scenarios *)

Module Scenario.
Import PyStr.

Definition refused : exn := Exn OSError "[Errno 111] Connection refused".


(** A Linux host whose ping exits with [rc] after printing [out] and
    [err]; every second connection is refused. *)
Definition linux (rc : Z) (out err : string) : Env := {|
  shutil_which := fun cmd => if String.eqb cmd "ping" then Some "/usr/bin/ping" else None;
  platform_system := "Linux";
  subprocess_run := fun _ => inr (Completed rc out err);
  perf_counter := fun n => PyFloat.of_len n;
  create_connection := fun i _ _ _ => if Nat.even i then None else Some refused
|}.

(** A Linux host that may not start its ping; every connection is
    made. *)
Definition denied : exn := Exn OSError "[Errno 13] Permission denied: '/usr/bin/ping'".

Definition no_exec : Env := {|
  shutil_which := fun cmd => if String.eqb cmd "ping" then Some "/usr/bin/ping" else None;
  platform_system := "Linux";
  subprocess_run := fun _ => inl denied;
  perf_counter := fun n => PyFloat.of_len n;
  create_connection := fun _ _ _ _ => None
|}.

(** A container without a ping binary, on a network that refuses three
    connections and lets the fourth time out. *)
Definition timed_out : exn := Exn OSError "timed out".

Definition slow_fourth : Env := {|
  shutil_which := fun _ => None;
  platform_system := "Linux";
  subprocess_run := fun _ => inl (Exn OSError "[Errno 2] No such file or directory");
  perf_counter := fun n => PyFloat.of_len n;
  create_connection := fun i _ _ _ => Some (if Nat.ltb i 3 then refused else timed_out)
|}.

Definition not_permitted : string := "ping: socket: Operation not permitted".
Definition unknown_host : string := "ping: nowhere.invalid: Name or service not known".

(** The trace of a call of [ping] on [linux] up to the end of the ICMP
    attempt, with the default count and timeout. *)
Definition icmp_trace (host : string) : trace :=
  [Which "ping"; Run ["/usr/bin/ping"; "-c"; "4"; "-W"; "5"; host]].

Definition summary_line : string := "4 packets transmitted, 4 received, 0% packet loss".



(** A Windows host whose ping exits with [rc] after printing [out] and
    [err]; every connection is refused. *)
Definition windows (rc : Z) (out err : string) : Env := {|
  shutil_which := fun cmd =>
    if String.eqb cmd "ping" then Some "C:\Windows\system32\PING.EXE" else None;
  platform_system := "Windows";
  subprocess_run := fun _ => inr (Completed rc out err);
  perf_counter := fun n => PyFloat.of_len n;
  create_connection := fun _ _ _ _ => Some refused
|}.

(** What ping of Windows prints before its summary, and between the
    summary and the line of times. *)
Definition windows_head : string :=
  nl ++ "Pinging example.com [93.184.216.34] with 32 bytes of data:" ++ nl
  ++ "Reply from 93.184.216.34: bytes=32 time=10ms TTL=56" ++ nl
  ++ "Reply from 93.184.216.34: bytes=32 time=15ms TTL=56" ++ nl
  ++ nl
  ++ "Ping statistics for 93.184.216.34:" ++ nl
  ++ "    ".

Definition windows_between : string :=
  "," ++ nl ++ "Approximate round trip times in milli-seconds:" ++ nl ++ "    ".

(** The head of the statistics that ping of iputils prints. *)
Definition statistics_head : string := "--- example.com ping statistics ---" ++ nl.

End Scenario.

(** * Properties *)

(** ** Strings *)

Section Strings.
Import PyStr.

Lemma free_of_cons (c a : ascii) (s : string) :
  Spec.free_of c (String a s) <-> a <> c /\ Spec.free_of c s.
Proof.
  unfold Spec.free_of, Spec.chars; simpl. tauto.
Qed.

Lemma free_of_nil (c : ascii) : Spec.free_of c "".
Proof. unfold Spec.free_of, Spec.chars; simpl. tauto. Qed.

Lemma eqb_false_neq (a c : ascii) : Ascii.eqb a c = false <-> a <> c.
Proof. apply Ascii.eqb_neq. Qed.

(** [split] at the first separator. *)
Lemma split1_cases (c : ascii) (s : string) :
  (exists h r, split1 c s = [h; r] /\ s = h ++ String c r /\ Spec.free_of c h)
  \/ (split1 c s = [s] /\ Spec.free_of c s).
Proof.
  induction s as [|a s IH]; simpl.
  - right. split; [reflexivity | apply free_of_nil].
  - destruct (Ascii.eqb a c) eqn:Hac.
    + apply Ascii.eqb_eq in Hac; subst a.
      left. exists "", s. repeat split. apply free_of_nil.
    + apply eqb_false_neq in Hac.
      destruct IH as [(h & r & Hsp & Hs & Hfree) | (Hsp & Hfree)]; rewrite Hsp.
      * left. exists (String a h), r. subst s. repeat split.
        apply free_of_cons; auto.
      * right. split; [reflexivity | apply free_of_cons; auto].
Qed.

(** [rsplit] at the last separator. *)
Lemma rsplit1_cases (c : ascii) (s : string) :
  (exists h r, rsplit1 c s = [h; r] /\ s = h ++ String c r /\ Spec.free_of c r)
  \/ (rsplit1 c s = [s] /\ Spec.free_of c s).
Proof.
  induction s as [|a s IH]; simpl.
  - right. split; [reflexivity | apply free_of_nil].
  - destruct IH as [(h & r & Hsp & Hs & Hfree) | (Hsp & Hfree)]; rewrite Hsp.
    + left. exists (String a h), r. subst s. auto.
    + destruct (Ascii.eqb a c) eqn:Hac.
      * apply Ascii.eqb_eq in Hac; subst a.
        left. exists "", s. auto.
      * apply eqb_false_neq in Hac.
        right. split; [reflexivity | apply free_of_cons; auto].
Qed.

Lemma count_nonneg (c : ascii) (s : string) : 0 <= count c s.
Proof.
  induction s as [|a s IH]; simpl; [lia|]. destruct (Ascii.eqb a c); lia.
Qed.

Lemma count_app (c : ascii) (s r : string) : count c (s ++ r) = count c s + count c r.
Proof.
  induction s as [|a s IH]; simpl; [reflexivity|]. rewrite IH. lia.
Qed.

Lemma count_zero (c : ascii) (s : string) : count c s = 0 -> Spec.free_of c s.
Proof.
  induction s as [|a s IH]; simpl; intro H.
  - apply free_of_nil.
  - pose proof (count_nonneg c s).
    destruct (Ascii.eqb a c) eqn:Hac; [lia|].
    apply free_of_cons. split; [now apply eqb_false_neq | apply IH; lia].
Qed.

Lemma startswith_char (c : ascii) (s : string) :
  startswith (String c "") s = true <-> exists r, s = String c r.
Proof.
  unfold startswith. destruct s as [|a s]; simpl.
  - split; [discriminate | intros (r & H); discriminate].
  - destruct (Ascii.ascii_dec c a) as [->|Hne].
    + split; [eauto | intros _; now destruct s].
    + split; [discriminate | intros (r & H); injection H as ? ?; congruence].
Qed.

Lemma contains_cons (k : string) (a : ascii) (s : string) :
  contains k (String a s) = startswith k (String a s) || contains k s.
Proof. reflexivity. Qed.

Lemma contains_char_false (c : ascii) (s : string) :
  contains (String c "") s = false -> Spec.free_of c s.
Proof.
  induction s as [|a s IH]; intro H.
  - apply free_of_nil.
  - rewrite contains_cons in H. apply orb_false_iff in H as [Hp Hc].
    apply free_of_cons. split; [|auto].
    intros ->.
    assert (startswith (String c "") (String c s) = true) by (apply startswith_char; eauto).
    congruence.
Qed.

Lemma contains_char_true (c : ascii) (s : string) :
  contains (String c "") s = true -> ~ Spec.free_of c s.
Proof.
  induction s as [|a s IH]; intros H Hfree.
  - discriminate.
  - rewrite contains_cons in H.
    apply free_of_cons in Hfree as [Hne Hfree].
    apply orb_true_iff in H as [Hp | Hc]; [|exact (IH Hc Hfree)].
    apply startswith_char in Hp as (r & Hr). injection Hr as ? ?. congruence.
Qed.
End Strings.

(** [int] raises nothing but [ValueError]. *)
Lemma int_raises_ValueError (s : string) (e : exn) :
  PyInt.int s = inl e -> is_ValueError e = true.
Proof.
  unfold PyInt.int. cbv zeta.
  destruct (PyInt.counted_digits _) as [d|].
  - destruct (PyInt.max_str_digits <? Z.of_nat d).
    + intro H; injection H as <-. reflexivity.
    + destruct (PyInt.literal _); [discriminate|].
      intro H; injection H as <-. reflexivity.
  - intro H; injection H as <-. reflexivity.
Qed.

(** ** Host and port *)

(** [_split_host_port] returns for every target, and what it returns is
    the host and port of the target. *)
Lemma split_host_port_run (t : string) :
  exists r, Tools._split_host_port t = inr r /\ Spec.parses_to t r.
Proof.
  unfold Tools._split_host_port.
  destruct (PyStr.startswith "[" t) eqn:Hb.
  - apply startswith_char in Hb as (body & ->). simpl PyStr.tail.
    destruct (split1_cases "]" body) as [(h & r & Hsp & Hbody & Hfree) | (Hsp & Hfree)];
      rewrite Hsp; simpl.
    + destruct (PyStr.startswith ":" r) eqn:Hc.
      * apply startswith_char in Hc as (lit & ->). simpl PyStr.tail.
        destruct (PyInt.int lit) as [e|n] eqn:Hint; simpl.
        -- eexists; split; [reflexivity|].
           apply Spec.bracket_bad_port with h lit e; subst; auto.
        -- eexists; split; [reflexivity|].
           apply Spec.bracket_port with lit; subst; auto.
      * eexists; split; [reflexivity|].
        apply Spec.bracket_no_port with r; subst; auto.
    + eexists; split; [reflexivity|].
      apply Spec.bracket_open.
      * apply startswith_char; eauto.
      * apply free_of_cons. split; [discriminate | exact Hfree].
  - destruct (1 <? PyStr.count ":" t) eqn:Hn.
    + eexists; split; [reflexivity|].
      apply Spec.several_colons; [exact Hb | now apply Z.ltb_lt].
    + apply Z.ltb_ge in Hn.
      destruct (PyStr.contains ":" t) eqn:Hc.
      * destruct (rsplit1_cases ":" t) as [(h & lit & Hsp & Ht & Hfree) | (Hsp & Hfree)].
        2:{ now apply contains_char_true in Hc. }
        rewrite Hsp; simpl.
        assert (Hh : Spec.free_of ":" h).
        { apply count_zero. subst t. rewrite count_app in Hn.
          change (PyStr.count ":" (String ":" lit)) with (1 + PyStr.count ":" lit) in Hn.
          pose proof (count_nonneg ":" h). pose proof (count_nonneg ":" lit). lia. }
        destruct (PyInt.int lit) as [e|n] eqn:Hint; simpl.
        -- rewrite (int_raises_ValueError _ _ Hint).
           eexists; split; [reflexivity|].
           apply Spec.host_bad_port with h lit e; auto.
        -- eexists; split; [reflexivity|].
           apply Spec.host_port with lit; auto.
      * eexists; split; [reflexivity|].
        apply Spec.no_colon; [exact Hb | now apply contains_char_false].
Qed.

(** The converse: the cases of [Spec.parses_to] leave no choice. *)
Section HostPortConverse.
Import PyStr.

Lemma split1_app (c : ascii) (h r : string) :
  Spec.free_of c h -> split1 c (h ++ String c r) = [h; r].
Proof.
  induction h as [|a h IH]; intro Hfree; simpl.
  - now rewrite Ascii.eqb_refl.
  - apply free_of_cons in Hfree as [Hne Hfree].
    apply eqb_false_neq in Hne. rewrite Hne, (IH Hfree). reflexivity.
Qed.

Lemma in_chars_app (c : ascii) (h r : string) : In c (Spec.chars (h ++ String c r)).
Proof.
  induction h as [|a h IH]; simpl; [left; reflexivity | right; exact IH].
Qed.

Lemma rsplit1_free (c : ascii) (s : string) : Spec.free_of c s -> rsplit1 c s = [s].
Proof.
  intro Hfree.
  destruct (rsplit1_cases c s) as [(h & r & _ & -> & _) | (H & _)]; [|exact H].
  exfalso. apply Hfree. apply in_chars_app.
Qed.

Lemma rsplit1_app (c : ascii) (h r : string) :
  Spec.free_of c r -> rsplit1 c (h ++ String c r) = [h; r].
Proof.
  intro Hfree. induction h as [|a h IH]; simpl.
  - rewrite (rsplit1_free c r Hfree), Ascii.eqb_refl. reflexivity.
  - rewrite IH. reflexivity.
Qed.

Lemma count_free (c : ascii) (s : string) : Spec.free_of c s -> count c s = 0.
Proof.
  induction s as [|a s IH]; intro Hfree; [reflexivity|].
  apply free_of_cons in Hfree as [Hne Hfree].
  apply eqb_false_neq in Hne. simpl. rewrite Hne, (IH Hfree). reflexivity.
Qed.

Lemma contains_char_app (c : ascii) (h r : string) :
  contains (String c "") (h ++ String c r) = true.
Proof.
  induction h as [|a h IH]; simpl append.
  - rewrite contains_cons.
    assert (H : startswith (String c "") (String c r) = true)
      by (apply startswith_char; eauto).
    now rewrite H.
  - rewrite contains_cons, IH. apply orb_true_r.
Qed.

Lemma count_one (h lit : string) :
  Spec.free_of ":" h -> Spec.free_of ":" lit -> count ":" (h ++ String ":" lit) = 1.
Proof.
  intros Hh Hlit. rewrite count_app.
  change (count ":" (String ":" lit)) with (1 + count ":" lit).
  rewrite (count_free _ _ Hh), (count_free _ _ Hlit). reflexivity.
Qed.

Lemma startswith_same (c : ascii) (s : string) :
  startswith (String c "") (String c s) = true.
Proof. apply startswith_char. eauto. Qed.

Lemma parses_to_run (t : string) (r : string * option Z) :
  Spec.parses_to t r -> Tools._split_host_port t = inr r.
Proof.
  unfold Tools._split_host_port.
  intros [h lit n Ht Hh Hint | h lit e Ht Hh Hint | h rest Ht Hh Hrest | Hb Hfree
         | Hb Hn | h lit n Hb Ht Hh Hlit Hint | h lit e Hb Ht Hh Hlit Hint | Hb Hfree].
  - subst t.
    change ("[" ++ h ++ "]:" ++ lit) with (String "[" (h ++ String "]" (String ":" lit))).
    rewrite startswith_same. cbn [tail].
    rewrite (split1_app _ _ _ Hh). cbn [unpack2 exc_bind].
    rewrite startswith_same. cbn [tail]. rewrite Hint. reflexivity.
  - subst t.
    change ("[" ++ h ++ "]:" ++ lit) with (String "[" (h ++ String "]" (String ":" lit))).
    rewrite startswith_same. cbn [tail].
    rewrite (split1_app _ _ _ Hh). cbn [unpack2 exc_bind].
    rewrite startswith_same. cbn [tail]. rewrite Hint. reflexivity.
  - subst t.
    change ("[" ++ h ++ "]" ++ rest) with (String "[" (h ++ String "]" rest)).
    rewrite startswith_same. cbn [tail].
    rewrite (split1_app _ _ _ Hh). cbn [unpack2 exc_bind].
    rewrite Hrest. reflexivity.
  - rewrite Hb. apply startswith_char in Hb as (body & ->).
    apply free_of_cons in Hfree as [_ Hfree]. cbn [tail].
    destruct (split1_cases "]" body) as [(h & r0 & _ & -> & _) | (-> & _)]; [|reflexivity].
    exfalso. apply Hfree. apply in_chars_app.
  - rewrite Hb. apply Z.ltb_lt in Hn. rewrite Hn. reflexivity.
  - rewrite Hb. subst t.
    change (h ++ ":" ++ lit) with (h ++ String ":" lit).
    rewrite (count_one _ _ Hh Hlit), contains_char_app, (rsplit1_app _ _ _ Hlit).
    cbn [unpack2 exc_bind]. rewrite Hint. reflexivity.
  - rewrite Hb. subst t.
    change (h ++ ":" ++ lit) with (h ++ String ":" lit).
    rewrite (count_one _ _ Hh Hlit), contains_char_app, (rsplit1_app _ _ _ Hlit).
    cbn [unpack2 exc_bind]. rewrite Hint. cbn [exc_bind try_except_ValueError].
    rewrite (int_raises_ValueError _ _ Hint). reflexivity.
  - rewrite Hb, (count_free _ _ Hfree).
    change (1 <? 0) with false. cbv iota.
    destruct (contains ":" t) eqn:Hc; [|reflexivity].
    now apply contains_char_true in Hc.
Qed.
End HostPortConverse.

(** ** Traces *)

Lemma calls_emit (p : event -> bool) (t : trace) (e : event) :
  calls p (emit t e) = (calls p t + (if p e then 1 else 0))%nat.
Proof.
  unfold calls, emit. rewrite filter_app, length_app. simpl.
  destruct (p e); reflexivity.
Qed.

Lemma calls_app (p : event -> bool) (t u : trace) :
  calls p (t ++ u)%list = (calls p t + calls p u)%nat.
Proof.
  unfold calls. now rewrite filter_app, length_app.
Qed.

(** ** The TCP loop *)

Section TcpLoop.
Variable env : Env.
Variables (host : string) (port : Z) (timeout : float).

Lemma tcp_attempt_run (samples : list float) (errors : list string) (t : trace) :
  Tools.tcp_attempt env host port timeout samples errors t =
  match create_connection env (calls is_Connect t) host port timeout with
  | Some e => (inr (samples, (errors ++ [exn_str e])%list), (t ++ Spec.refused_attempt host port timeout)%list)
  | None =>
      let t0 := perf_counter env (calls is_PerfCounter t) in
      let t1 := perf_counter env (S (calls is_PerfCounter t)) in
      (inr ((samples ++ [((t1 - t0) * 1000)%float])%list, errors), (t ++ Spec.connected_attempt host port timeout)%list)
  end.
Proof.
  unfold Tools.tcp_attempt, bind, try_exceptM, Tools.clock, Tools.connect, Tools.close,
    Tools.sleep, ret.
  rewrite !calls_emit; simpl. rewrite !Nat.add_0_r.
  destruct (create_connection env (calls is_Connect t) host port timeout) as [e|].
  - unfold emit, Spec.refused_attempt. now rewrite <- !app_assoc.
  - rewrite Nat.add_1_r.
    unfold emit, Spec.connected_attempt. now rewrite <- !app_assoc.
Qed.

(** One attempt asks for one connection and adds one record: a sample
    if the connection was made, the text of the exception if not. *)
Lemma tcp_attempt_one (samples : list float) (errors : list string) (t : trace) :
  let a := create_connection env (calls is_Connect t) host port timeout in
  exists samples' evs,
    Tools.tcp_attempt env host port timeout samples errors t
      = (inr (samples', (errors ++ Spec.refusals [a])%list), (t ++ evs)%list)
    /\ List.length samples' = (List.length samples + Spec.connections [a])%nat
    /\ filter is_Connect evs = [Connect host port timeout].
Proof.
  rewrite tcp_attempt_run.
  destruct (create_connection env (calls is_Connect t) host port timeout) as [e|]; simpl.
  - exists samples, (Spec.refused_attempt host port timeout). repeat split. unfold Spec.connections; simpl; lia.
  - eexists _, (Spec.connected_attempt host port timeout). rewrite app_nil_r. repeat split.
    rewrite length_app. reflexivity.
Qed.

Lemma answers_step (k n : nat) :
  Spec.answers env k (S n) host port timeout
  = create_connection env k host port timeout :: Spec.answers env (S k) n host port timeout.
Proof. reflexivity. Qed.

Lemma refusals_cons (a : option exn) (l : list (option exn)) :
  Spec.refusals (a :: l) = (Spec.refusals [a] ++ Spec.refusals l)%list.
Proof. unfold Spec.refusals; simpl. now rewrite app_nil_r. Qed.

Lemma connections_cons (a : option exn) (l : list (option exn)) :
  Spec.connections (a :: l) = (Spec.connections [a] + Spec.connections l)%nat.
Proof. unfold Spec.connections; simpl. destruct a; reflexivity. Qed.

(** Each answer of the network is either a refusal or a connection. *)
Lemma refusals_connections (l : list (option exn)) :
  (List.length (Spec.refusals l) + Spec.connections l = List.length l)%nat.
Proof.
  induction l as [|a l IH]; [reflexivity|].
  rewrite refusals_cons, connections_cons, length_app.
  destruct a; unfold Spec.connections in *; simpl in *; lia.
Qed.

Lemma answers_length (k n : nat) :
  List.length (Spec.answers env k n host port timeout) = n.
Proof. unfold Spec.answers. now rewrite length_map, length_seq. Qed.

(** The loop: [n] attempts, whatever the answers; the errors are the
    refusals in order, the samples are as many as the connections. *)
Lemma tcp_loop_run (n : nat) :
  forall (samples : list float) (errors : list string) (t : trace),
  let l := Spec.answers env (calls is_Connect t) n host port timeout in
  exists samples' evs,
    Tools.tcp_loop env n host port timeout samples errors t
      = (inr (samples', (errors ++ Spec.refusals l)%list), (t ++ evs)%list)
    /\ List.length samples' = (List.length samples + Spec.connections l)%nat
    /\ filter is_Connect evs = repeat (Connect host port timeout) n.
Proof.
  induction n as [|n IH]; intros samples errors t l.
  - exists samples, []. simpl. unfold ret. rewrite !app_nil_r.
    repeat split. unfold Spec.connections; simpl; lia.
  - destruct (tcp_attempt_one samples errors t) as (s1 & ev1 & Hrun & Hlen & Hconn).
    destruct (IH s1 (errors ++ Spec.refusals
                       [create_connection env (calls is_Connect t) host port timeout])%list
                (t ++ ev1)%list) as (s2 & ev2 & Hrun2 & Hlen2 & Hconn2).
    assert (Hk : calls is_Connect (t ++ ev1)%list = S (calls is_Connect t)).
    { rewrite calls_app. unfold calls at 2. rewrite Hconn. simpl. lia. }
    rewrite Hk in Hrun2, Hlen2.
    exists s2, (ev1 ++ ev2)%list.
    subst l. rewrite answers_step, refusals_cons, connections_cons.
    simpl Tools.tcp_loop. unfold bind. rewrite Hrun, Hrun2.
    repeat split.
    + now rewrite !app_assoc.
    + lia.
    + rewrite filter_app, Hconn, Hconn2. reflexivity.
Qed.

(** [_tcp_ping] returns, for any number of attempts. *)
Lemma tcp_ping_run (attempts : Z) (t : trace) :
  let l := Spec.answers env (calls is_Connect t) (Z.to_nat attempts) host port timeout in
  exists samples evs,
    Tools._tcp_ping env host port attempts timeout t
      = (inr (samples, Spec.refusals l), (t ++ evs)%list)
    /\ List.length samples = Spec.connections l
    /\ filter is_Connect evs = repeat (Connect host port timeout) (Z.to_nat attempts).
Proof.
  intro l. unfold Tools._tcp_ping.
  destruct (tcp_loop_run (Z.to_nat attempts) [] [] t) as (s & evs & Hrun & Hlen & Hconn).
  exists s, evs. simpl in Hrun. auto.
Qed.
End TcpLoop.

(** ** The ICMP attempt *)

Section Icmp.
Variable env : Env.

Lemma first_found_run (cands : list string) :
  forall t : trace,
  exists r evs,
    Tools.first_found env cands t = (inr r, (t ++ evs)%list)
    /\ filter is_Connect evs = [].
Proof.
  induction cands as [|cand rest IH]; intro t.
  - exists None, []. simpl. unfold ret. now rewrite app_nil_r.
  - simpl. unfold bind, Tools.which.
    destruct (IH (emit t (Which cand))) as (r & evs & Hrun & Hconn).
    assert (Hrest : exists evs', Tools.first_found env rest (emit t (Which cand))
                                 = (inr r, (t ++ evs')%list) /\ filter is_Connect evs' = []).
    { exists (Which cand :: evs). rewrite Hrun. unfold emit.
      rewrite <- app_assoc. auto. }
    destruct Hrest as (evs' & Hrun' & Hconn').
    destruct (shutil_which env cand) as [path|].
    + destruct (PyStr.truthy path).
      * exists (Some path), [Which cand]. auto.
      * exists r, evs'. auto.
    + exists r, evs'. auto.
Qed.

(** The command is built when the count and the timeout are within the
    limit of [str]. *)
Lemma icmp_command_built (path host : string) (count timeout : Z) :
  (if PyStr.contains "windows" (PyStr.lower (platform_system env))
   then exc_bind (PyInt.to_str count) (fun c =>
        exc_bind (PyInt.to_str (timeout * 1000)) (fun w =>
        inr [path; "-n"; c; "-w"; w; host]))
   else exc_bind (PyInt.to_str count) (fun c =>
        exc_bind (PyInt.to_str timeout) (fun w =>
        inr [path; "-c"; c; "-W"; w; host])))
  = if Spec.command_printable env count timeout
    then inr (Spec.icmp_command env path host count timeout)
    else inl Spec.limit_error.
Proof.
  unfold Spec.command_printable, Spec.icmp_command, Spec.is_windows, PyInt.to_str.
  destruct (PyStr.contains "windows" (PyStr.lower (platform_system env)));
    destruct (PyInt.printable count); try reflexivity;
    match goal with |- context [PyInt.printable ?n] => destruct (PyInt.printable n) end;
    reflexivity.
Qed.

(** [_icmp_ping] returns whatever [subprocess.run] does, and opens no
    connection; it raises only what [str] raises, when the count or the
    timeout is beyond the limit. *)
Lemma icmp_ping_run (host : string) (count timeout : Z) (t : trace) :
  exists r evs,
    Tools._icmp_ping env host count timeout t = (r, (t ++ evs)%list)
    /\ filter is_Connect evs = []
    /\ match r with
       | inr _ => True
       | inl e => e = Spec.limit_error /\ Spec.command_printable env count timeout = false
       end.
Proof.
  unfold Tools._icmp_ping, Tools._find_ping, bind at 1.
  match goal with |- context [Tools.first_found env ?c t] =>
    destruct (first_found_run c t) as (r & evs & Hrun & Hconn) end.
  rewrite Hrun.
  destruct r as [ping_path|].
  2:{ exists (inr (false, "", "ping binary not found inside the container")), evs. auto. }
  destruct (PyStr.truthy ping_path); cbn [negb].
  2:{ exists (inr (false, "", "ping binary not found inside the container")), evs. auto. }
  cbv zeta. unfold bind at 1, lift. rewrite icmp_command_built.
  destruct (Spec.command_printable env count timeout).
  - unfold try_exceptM, bind, Tools.run_process, ret.
    destruct (subprocess_run env (Spec.icmp_command env ping_path host count timeout))
      as [e|proc]; eexists (inr _), (evs ++ [Run _])%list;
      (split; [unfold emit; now rewrite <- app_assoc
              | split; [rewrite filter_app, Hconn; reflexivity | exact I]]).
  - exists (inl Spec.limit_error), evs. auto.
Qed.

(** Within the limit the attempt returns. *)
Lemma icmp_ping_returns (host : string) (count timeout : Z) (t : trace) :
  Spec.command_printable env count timeout = true ->
  exists ok out err evs,
    Tools._icmp_ping env host count timeout t = (inr (ok, out, err), (t ++ evs)%list)
    /\ filter is_Connect evs = [].
Proof.
  intro Hp.
  destruct (icmp_ping_run host count timeout t) as ([e|[[ok out] err]] & evs & Hrun & Hconn & Hr).
  - destruct Hr as [_ Hr]. congruence.
  - exists ok, out, err, evs. auto.
Qed.
End Icmp.

(** ** [ping], step by step *)

Lemma sanitize_truthy (target tgt : string) :
  Tools._sanitize target = Some tgt -> PyStr.truthy tgt = true.
Proof.
  unfold Tools._sanitize.
  destruct (PyStr.truthy (PyStr.strip (PyStr.or_else target ""))) eqn:Ht; simpl;
    [|discriminate].
  destruct (Re.matched _); simpl; [|discriminate].
  intro H; injection H as <-. exact Ht.
Qed.

Section PingSteps.
Variables (env : Env) (valves : Tools.Valves).
Variables (target : string) (count timeout : option Z).

(** A target that [_sanitize] refuses: nothing is asked of the system. *)
Lemma ping_refused (t : trace) :
  Tools._sanitize target = None ->
  Tools.ping env valves target count timeout t = (inr "Invalid target", t).
Proof.
  intro H. unfold Tools.ping. now rewrite H.
Qed.

(** The rest of [ping] once the ICMP attempt has returned. *)
Lemma ping_after_icmp (tgt host : string) (port : option Z) (ok : bool) (out err : string)
      (t0 t1 : trace) :
  Tools._sanitize target = Some tgt ->
  Tools._split_host_port tgt = inr (host, port) ->
  Tools._icmp_ping env host (Tools.or_int count (Tools.packet_count valves))
    (Tools.or_int timeout (Tools.timeout_seconds valves)) t0 = (inr (ok, out, err), t1) ->
  Tools.ping env valves target count timeout t0 =
  if ok then
    (inr match Tools._format_icmp_table env host out err with
         | Some table => if PyStr.truthy table then table else Spec.unparsed_table host
         | None => Spec.unparsed_table host
         end, t1)
  else if Spec.triggers_fallback
            (PyStr.or_else (PyStr.strip err) (PyStr.or_else (PyStr.strip out) "ICMP ping failed"))
  then
    let p := Tools.or_int port (Tools.tcp_default_port valves) in
    match Tools._tcp_ping env host p (Tools.tcp_attempts valves)
            (Tools.tcp_timeout_seconds valves) t1 with
    | (inr (samples, errors), t2) =>
        (inr (Tools._format_tcp_table host p samples (Tools.tcp_attempts valves) errors), t2)
    | (inl e, t2) => (inl e, t2)
    end
  else
    (inr (PyStr.or_else (PyStr.strip err) (PyStr.or_else (PyStr.strip out) "Ping failed")), t1).
Proof.
  intros Hs Hp Hi. unfold Tools.ping.
  rewrite Hs, (sanitize_truthy _ _ Hs). change (negb true) with false. cbv iota.
  unfold bind at 1. unfold lift. rewrite Hp. cbv beta iota zeta.
  unfold bind at 1. rewrite Hi. cbv beta iota zeta.
  destruct ok.
  - unfold Spec.unparsed_table.
    destruct (Tools._format_icmp_table env host out err) as [table|]; [|reflexivity].
    destruct (PyStr.truthy table); reflexivity.
  - unfold Spec.triggers_fallback.
    destruct (existsb _ Tools.fallback_keys); [|reflexivity].
    unfold bind.
    destruct (Tools._tcp_ping env host _ _ _ t1) as [[e|[samples errors]] t2]; reflexivity.
Qed.

(** An exception of the ICMP attempt is an exception of [ping]. *)
Lemma ping_when_icmp_raises (tgt host : string) (port : option Z) (e : exn)
      (t0 t1 : trace) :
  Tools._sanitize target = Some tgt ->
  Tools._split_host_port tgt = inr (host, port) ->
  Tools._icmp_ping env host (Tools.or_int count (Tools.packet_count valves))
    (Tools.or_int timeout (Tools.timeout_seconds valves)) t0 = (inl e, t1) ->
  Tools.ping env valves target count timeout t0 = (inl e, t1).
Proof.
  intros Hs Hp Hi. unfold Tools.ping.
  rewrite Hs, (sanitize_truthy _ _ Hs). change (negb true) with false. cbv iota.
  unfold bind at 1. unfold lift. rewrite Hp. cbv beta iota zeta.
  unfold bind at 1. rewrite Hi. reflexivity.
Qed.
End PingSteps.

(** ** The allow-list *)

Section AllowList.
Import PyStr Re.

Lemma chars_app (a b : string) : Spec.chars (a ++ b) = (Spec.chars a ++ Spec.chars b)%list.
Proof.
  induction a as [|c a IH]; simpl; [reflexivity|]. unfold Spec.chars in *. simpl. now rewrite IH.
Qed.

Lemma append_empty_r (a : string) : a ++ "" = a.
Proof.
  induction a as [|c a IH]; simpl; [reflexivity | now rewrite IH].
Qed.

Lemma or_else_empty (a : string) : or_else a "" = a.
Proof. now destruct a. Qed.

(** What [rstrip] returns does not end with white space. *)
Lemma rstrip_last (s x : string) (c : ascii) :
  rstrip s = x ++ String c "" -> isspace c = false.
Proof.
  revert x. induction s as [|a s IH]; intros x H; simpl in H.
  - destruct x; discriminate.
  - destruct (rstrip s) as [|b r] eqn:Hr.
    + destruct (isspace a) eqn:Ha.
      * destruct x; discriminate.
      * destruct x as [|a' x]; simpl in H.
        -- now injection H as <-.
        -- injection H as _ H. destruct x; discriminate.
    + destruct x as [|a' x]; simpl in H; [discriminate|].
      injection H as _ H. now apply IH with x.
Qed.

(** A greedy repetition that succeeds has consumed characters of the class
    and handed the rest to its continuation. *)
Lemma star_greedy_sound (f : flags) (k : cclass) (cont : string -> string -> option groups)
      (s : string) :
  forall (acc : string) (g : groups),
  star_greedy f k cont s acc = Some g ->
  exists body rest acc',
    s = body ++ rest
    /\ Forall (fun c => class_match f k c = true) (Spec.chars body)
    /\ cont rest acc' = Some g.
Proof.
  induction s as [|c s IH]; intros acc g H; simpl in H.
  - exists "", "", acc. repeat split; [constructor | exact H].
  - destruct (class_match f k c) eqn:Hc.
    + destruct (star_greedy f k cont s (snoc acc c)) as [g'|] eqn:Hrec.
      * injection H as <-.
        destruct (IH _ _ Hrec) as (body & rest & acc' & Hs & Hall & Hcont).
        exists (String c body), rest, acc'. subst s. repeat split; [|exact Hcont].
        constructor; assumption.
      * exists "", (String c s), acc. repeat split; [constructor | exact H].
    + exists "", (String c s), acc. repeat split; [constructor | exact H].
Qed.

Lemma class_allowed (c : ascii) :
  class_match no_flags Tools.allowed_chars c = Spec.allow_listed c.
Proof.
  unfold class_match, Spec.allow_listed; simpl.
  rewrite orb_false_r, !orb_assoc. reflexivity.
Qed.

(** A string that [_ALLOWED_TARGET] matches is made of allow-listed
    characters, up to a final line feed. *)
Lemma allowed_target_shape (t : string) (g : groups) :
  rmatch no_flags Tools._ALLOWED_TARGET t = Some g ->
  exists body,
    Forall (fun c => Spec.allow_listed c = true) (Spec.chars body)
    /\ (t = body \/ t = body ++ nl).
Proof.
  unfold rmatch, Tools._ALLOWED_TARGET, seq, Plus. simpl.
  destruct t as [|c t]; [discriminate|].
  destruct (class_match no_flags Tools.allowed_chars c) eqn:Hc; [|discriminate].
  intro H. apply star_greedy_sound in H as (body & rest & acc' & Ht & Hall & Hcont).
  exists (String c body). split.
  - constructor; [now rewrite <- class_allowed|].
    eapply Forall_impl; [|exact Hall]. intros a Ha. now rewrite <- class_allowed.
  - subst t. destruct rest as [|a rest].
    + left. now rewrite append_empty_r.
    + right. destruct a as [[] [] [] [] [] [] [] []]; try discriminate.
      destruct rest; [reflexivity | discriminate].
Qed.

(** The targets [_sanitize] refuses. *)
Lemma sanitize_refuses (target : string) :
  strip target = ""
  \/ (exists c, In c (Spec.chars (strip target)) /\ Spec.allow_listed c = false) ->
  Tools._sanitize target = None.
Proof.
  intro H. unfold Tools._sanitize. rewrite or_else_empty.
  destruct H as [-> | (c & Hin & Hc)]; [reflexivity|].
  destruct (truthy (strip target)); [|reflexivity]. simpl.
  destruct (rmatch no_flags Tools._ALLOWED_TARGET (strip target)) as [g|] eqn:Hm;
    [|reflexivity].
  exfalso.
  apply allowed_target_shape in Hm as (body & Hall & [Ht | Ht]).
  - rewrite Ht in Hin. rewrite Forall_forall in Hall.
    specialize (Hall c Hin). congruence.
  - unfold strip in Ht. apply rstrip_last in Ht. discriminate.
Qed.
End AllowList.

(** ** The TCP table *)

Section TcpTable.
Import PyStr.

Lemma append_assoc (a b c : string) : (a ++ b) ++ c = a ++ (b ++ c).
Proof.
  induction a as [|x a IH]; simpl; [reflexivity | now rewrite IH].
Qed.

Lemma join_three (a b c : string) (more : list string) :
  exists rest, join nl (a :: b :: c :: more) = a ++ nl ++ b ++ nl ++ c ++ rest.
Proof.
  destruct more as [|d more].
  - exists "". simpl. now rewrite append_empty_r.
  - exists (nl ++ join nl (d :: more)). reflexivity.
Qed.

(** Whatever the samples and the errors, the report of the fallback starts
    as a TCP table for the host and the port. *)
Lemma format_tcp_table_start (host : string) (port : Z) (samples : list float)
      (attempts : Z) (errors : list string) :
  Spec.is_tcp_table host port (Tools._format_tcp_table host port samples attempts errors).
Proof.
  unfold Spec.is_tcp_table, Tools._format_tcp_table, Spec.tcp_table_start.
  set (stats := match samples with [] => _ | _ :: _ => _ end).
  destruct stats as [[mn mx] avg].
  match goal with |- context [join nl ?rows] =>
    assert (Hrows : exists a b tl more,
               rows = a :: b :: ("| TCP | " ++ host ++ " | " ++ PyInt.str port ++ " | " ++ tl)
                        :: more
               /\ a = "| Type | Host | Port | Attempts | Success | Fail | Min (ms) | Avg (ms) | Max (ms) |"
               /\ b = "|---|---|---:|---:|---:|---:|---:|---:|---:|")
  end.
  { destruct (1 <? attempts), errors; simpl; do 4 eexists; (split; [reflexivity|]); split;
      reflexivity. }
  destruct Hrows as (a & b & tl & more & -> & -> & ->).
  match goal with |- context [join nl (?a :: ?b :: ?c :: more)] =>
    destruct (join_three a b c more) as (rest & ->) end.
  exists (tl ++ rest).
  rewrite !append_assoc. reflexivity.
Qed.
End TcpTable.

(** ** The decision after a failed ICMP attempt *)

Section Fallback.
Import PyStr.
Variables (env : Env) (valves : Tools.Valves).
Variables (target : string) (count timeout : option Z).
Variables (tgt host : string) (port : option Z) (out err : string) (t0 t1 : trace).

Hypothesis sanitized : Tools._sanitize target = Some tgt.
Hypothesis parsed : Tools._split_host_port tgt = inr (host, port).
Hypothesis icmp_failed :
  Tools._icmp_ping env host (Tools.or_int count (Tools.packet_count valves))
    (Tools.or_int timeout (Tools.timeout_seconds valves)) t0 = (inr (false, out, err), t1).


Lemma ping_reports_failure :
  Spec.triggers_fallback (Spec.inspected_text out err) = false ->
  Tools.ping env valves target count timeout t0 = (inr (Spec.failure_text out err), t1)
  /\ Spec.failure_text out err <> ""
  /\ filter is_Connect t1 = filter is_Connect t0.
Proof.
  intro Htrig.
  rewrite (ping_after_icmp env valves target count timeout tgt host port false out err t0 t1
             sanitized parsed icmp_failed).
  fold (Spec.inspected_text out err). rewrite Htrig.
  assert (Htext : Spec.failure_text out err <> ""
                  /\ or_else (strip err) (or_else (strip out) "Ping failed")
                     = Spec.failure_text out err).
  { unfold Spec.failure_text, Spec.inspected_text in *.
    destruct (strip err) as [|c e]; [|split; [discriminate | reflexivity]].
    destruct (strip out) as [|c o]; [|split; [discriminate | reflexivity]].
    discriminate Htrig. }
  destruct Htext as (Hne & ->). repeat split; [exact Hne|].
  destruct (icmp_ping_run env host (Tools.or_int count (Tools.packet_count valves))
              (Tools.or_int timeout (Tools.timeout_seconds valves)) t0)
    as (r & evs & Hrun & Hconn & _).
  rewrite Hrun in icmp_failed. injection icmp_failed as _ <-.
  rewrite filter_app, Hconn. apply app_nil_r.
Qed.
End Fallback.

(** ** The ICMP table *)

(** The table for output in the POSIX format, with or without a line of
    round-trip times. *)
Lemma format_icmp_table_posix (env : Env) (host out err : string) (g : Re.groups)
      (rtt : option Re.groups) :
  Tools.re_search Tools._re_packets_unix (out ++ PyStr.nl ++ err) = Some g ->
  Tools.re_search Tools._re_rtt_unix (out ++ PyStr.nl ++ err) = rtt ->
  Tools._format_icmp_table env host out err
  = Some match rtt with
         | Some r =>
             Spec.posix_table host (Re.group g "tx") (Re.group g "rx") (Re.group g "loss")
               (Re.group r "min") (Re.group r "avg") (Re.group r "max") (Re.group r "mdev")
         | None =>
             Spec.posix_table host (Re.group g "tx") (Re.group g "rx") (Re.group g "loss")
               "-" "-" "-" "-"
         end.
Proof.
  intros Hpk Hrtt. unfold Tools._format_icmp_table. rewrite !or_else_empty.
  cbv zeta. rewrite Hpk, Hrtt.
  destruct rtt as [r|]; reflexivity.
Qed.

(** A text without "rtt" and without "round-trip", in any letter case, has
    no line of round-trip times. *)
Section NoRtt.
Import PyStr Re.

Lemma char_match_lower (f : flags) (a c : ascii) :
  char_match f a c = true -> lower_char a = lower_char c.
Proof.
  unfold char_match. intro H. apply orb_true_iff in H as [H | H].
  - apply Ascii.eqb_eq in H. now subst.
  - apply andb_true_iff in H as [_ H]. now apply Ascii.eqb_eq in H.
Qed.

Lemma startswith_app (p r : string) : startswith p (p ++ r) = true.
Proof.
  unfold startswith. induction p as [|a p IH]; simpl.
  - now destruct r.
  - destruct (Ascii.ascii_dec a a); [exact IH | congruence].
Qed.

Lemma eat_lower (f : flags) (p : string) :
  forall s m rest, eat f p s = Some (m, rest) -> startswith (lower p) (lower s) = true.
Proof.
  induction p as [|a p IH]; intros s m rest H.
  - unfold startswith. simpl. now destruct (lower s).
  - destruct s as [|c s]; simpl in H; [discriminate|].
    destruct (char_match f a c) eqn:Hc; [|discriminate].
    destruct (eat f p s) as [[m' rest']|] eqn:He; [|discriminate].
    apply IH in He. apply char_match_lower in Hc.
    unfold startswith in *. simpl. rewrite Hc.
    destruct (Ascii.ascii_dec (lower_char c) (lower_char c)); [exact He | congruence].
Qed.

Lemma eat_none (f : flags) (p s : string) :
  startswith (lower p) (lower s) = false -> eat f p s = None.
Proof.
  intro H. destruct (eat f p s) as [[m rest]|] eqn:He; [|reflexivity].
  apply eat_lower in He. congruence.
Qed.

End NoRtt.

(** ** Searching a text for the patterns *)

Section Search.
Import PyStr Re.

Lemma lower_app (a b : string) : lower (a ++ b) = lower a ++ lower b.
Proof.
  induction a as [|c a IH]; simpl; [reflexivity | now rewrite IH].
Qed.

Lemma contains_unfold (k s : string) :
  contains k s = startswith k s || match s with String _ s' => contains k s' | "" => false end.
Proof. now destruct s. Qed.

Lemma startswith_contains (k s : string) : startswith k s = true -> contains k s = true.
Proof. intro H. rewrite contains_unfold, H. reflexivity. Qed.

Lemma contains_app_r (k a b : string) : contains k b = true -> contains k (a ++ b) = true.
Proof.
  intro H. induction a as [|c a IH]; simpl append; [exact H|].
  rewrite contains_cons, IH. apply orb_true_r.
Qed.

Lemma search_cons (f : flags) (r : regex) (c : ascii) (s : string) :
  search f r (String c s)
  = match rmatch f r (String c s) with
    | Some g => Some g
    | None => search f r s
    end.
Proof. reflexivity. Qed.

(** A text in front of which no match starts is skipped. *)
Lemma search_skip (f : flags) (r : regex) (pre tail : string) :
  (forall a b, pre = a ++ b -> b <> "" -> rmatch f r (b ++ tail) = None) ->
  search f r (pre ++ tail) = search f r tail.
Proof.
  induction pre as [|c pre IH]; intro H; [reflexivity|].
  simpl append. rewrite search_cons.
  assert (H0 : rmatch f r (String c (pre ++ tail)) = None)
    by (apply (H "" (String c pre)); [reflexivity | discriminate]).
  rewrite H0.
  apply IH. intros a b -> Hb. now apply (H (String c a) b).
Qed.

(** A literal found at the start of [p ++ c :: tail], where [c] is not one
    of its characters, lies within [p]. *)
Lemma startswith_inside (k : string) :
  forall (p : string) (c : ascii) (tail : string),
  k <> "" ->
  ~ In (lower_char c) (Spec.chars k) ->
  startswith k (lower (p ++ String c tail)) = true ->
  startswith k (lower p) = true.
Proof.
  unfold startswith.
  induction k as [|a k IH]; intros p c tail Hk Hc H; [congruence|].
  destruct p as [|b p]; simpl in H |- *.
  - destruct (Ascii.ascii_dec a (lower_char c)) as [->|]; [|discriminate].
    exfalso. apply Hc. left. reflexivity.
  - destruct (Ascii.ascii_dec a (lower_char b)); [|discriminate].
    destruct k as [|a' k]; [now destruct (lower p)|].
    apply (IH p c tail); [discriminate | | exact H].
    intro Hin. apply Hc. right. exact Hin.
Qed.

Lemma contains_suffix_false (k a b : string) :
  contains k (lower (a ++ b)) = false -> contains k (lower b) = false.
Proof.
  intro H. destruct (contains k (lower b)) eqn:Hb; [|reflexivity].
  rewrite lower_app, (contains_app_r _ _ _ Hb) in H. discriminate.
Qed.

(** No literal of [k1], [k2] in [p]: the pattern of round-trip times does
    not match at the start of [p ++ c :: tail]. *)
Lemma rtt_not_inside (p : string) (c : ascii) (tail : string) :
  p <> "" ->
  ~ In (lower_char c) (Spec.chars "round-trip") ->
  contains "rtt" (lower p) = false ->
  contains "round-trip" (lower p) = false ->
  rmatch (fst Tools._re_rtt_unix) (snd Tools._re_rtt_unix) (p ++ String c tail) = None.
Proof.
  intros Hp Hc Hrtt Hround.
  unfold rmatch. simpl fst. simpl snd. cbn [seq fold_right run].
  rewrite (eat_none _ "round-trip"), (eat_none _ "rtt"); [reflexivity | |].
  - change (lower "rtt") with "rtt".
    destruct (startswith "rtt" (lower (p ++ String c tail))) eqn:H; [|reflexivity].
    apply startswith_inside in H; [|discriminate|].
    + apply startswith_contains in H. congruence.
    + intro Hin. apply Hc. simpl in Hin |- *. tauto.
  - change (lower "round-trip") with "round-trip".
    destruct (startswith "round-trip" (lower (p ++ String c tail))) eqn:H; [|reflexivity].
    apply startswith_inside in H; [|discriminate | exact Hc].
    apply startswith_contains in H. congruence.
Qed.

(** The search for round-trip times skips a text that contains neither
    "rtt" nor "round-trip". *)
Lemma rtt_search_skip (pre : string) (c : ascii) (tail : string) :
  ~ In (lower_char c) (Spec.chars "round-trip") ->
  contains "rtt" (lower pre) = false ->
  contains "round-trip" (lower pre) = false ->
  Tools.re_search Tools._re_rtt_unix (pre ++ String c tail)
  = Tools.re_search Tools._re_rtt_unix (String c tail).
Proof.
  intros Hc Hrtt Hround. unfold Tools.re_search.
  apply search_skip. intros a b -> Hb.
  apply rtt_not_inside; [exact Hb | exact Hc | |];
    eapply contains_suffix_false; eassumption.
Qed.

Lemma class_match_digit (f : flags) (c : ascii) : class_match f Digit c = isdigit c.
Proof.
  destruct f as [[] d]; destruct c as [[] [] [] [] [] [] [] []]; reflexivity.
Qed.

Lemma class_match_space (f : flags) (c : ascii) : class_match f Space c = isspace c.
Proof.
  destruct f as [[] d]; destruct c as [[] [] [] [] [] [] [] []]; reflexivity.
Qed.

(** A match of the pattern of packet counts starts with digits, white
    space and the word "packets". *)
Lemma packets_head (s : string) (g : groups) :
  rmatch (fst Tools._re_packets_unix) (snd Tools._re_packets_unix) s = Some g ->
  exists D W rest,
    s = D ++ W ++ rest
    /\ Forall (fun c => isdigit c = true) (Spec.chars D)
    /\ Forall (fun c => isspace c = true) (Spec.chars W)
    /\ startswith "packets" (lower rest) = true.
Proof.
  unfold rmatch. simpl fst. simpl snd. cbn [seq fold_right run Plus].
  destruct s as [|c s]; [discriminate|].
  destruct (class_match _ Digit c) eqn:Hc; [|discriminate].
  intro H. apply star_greedy_sound in H as (D & rest1 & acc1 & -> & HD & H).
  cbv beta in H. destruct rest1 as [|c0 s1]; [discriminate|].
  destruct (class_match _ Space c0) eqn:Hc0; [|discriminate].
  apply star_greedy_sound in H as (W & rest & acc2 & -> & HW & H).
  cbv beta in H.
  destruct (eat _ "packets" rest) as [[m r]|] eqn:He; [|discriminate].
  apply eat_lower in He.
  exists (String c D), (String c0 W), rest. repeat split.
  - constructor; [now rewrite <- (class_match_digit (Flags true true))|].
    eapply Forall_impl; [|exact HD]. intros a Ha. now rewrite <- (class_match_digit (Flags true true)).
  - constructor; [now rewrite <- (class_match_space (Flags true true))|].
    eapply Forall_impl; [|exact HW]. intros a Ha. now rewrite <- (class_match_space (Flags true true)).
  - exact He.
Qed.

(** Digits in front of [s1] that are also the front of [p ++ tail], where
    [p] does not end with a digit, all lie within [p]. *)
Lemma digits_inside (D : string) :
  forall (p s1 tail : string),
  Forall (fun c => isdigit c = true) (Spec.chars D) ->
  p <> "" ->
  Spec.ends_with_digit p = false ->
  D ++ s1 = p ++ tail ->
  exists p1, p = D ++ p1 /\ s1 = p1 ++ tail.
Proof.
  induction D as [|d D IH]; intros p s1 tail HD Hp Hend H.
  - exists p. auto.
  - destruct p as [|b p]; [congruence|].
    simpl in H. injection H as -> H.
    inversion HD as [|x l Hd HD']; subst.
    destruct p as [|b' p].
    + simpl in Hend. congruence.
    + destruct (IH (String b' p) s1 tail HD') as (p1 & Hp1 & Hs1);
        [discriminate | exact Hend | exact H |].
      exists p1. rewrite Hp1. auto.
Qed.

(** White space in front of [rest] that is also the front of [p ++ c ::
    tail], where [c] is not white space, lies within [p]. *)
Lemma spaces_inside (W : string) :
  forall (p rest : string) (c : ascii) (tail : string),
  Forall (fun a => isspace a = true) (Spec.chars W) ->
  isspace c = false ->
  W ++ rest = p ++ String c tail ->
  exists p2, p = W ++ p2 /\ rest = p2 ++ String c tail.
Proof.
  induction W as [|w W IH]; intros p rest c tail HW Hc H.
  - exists p. auto.
  - inversion HW as [|x l Hw HW']; subst.
    destruct p as [|b p]; simpl in H; injection H as -> H.
    + congruence.
    + destruct (IH p rest c tail HW' Hc H) as (p2 & -> & ->).
      exists p2. auto.
Qed.

Lemma ends_with_digit_suffix (a b : string) :
  b <> "" -> Spec.ends_with_digit (a ++ b) = Spec.ends_with_digit b.
Proof.
  intro Hb. induction a as [|c a IH]; [reflexivity|].
  simpl append. simpl. rewrite IH.
  destruct (a ++ b) eqn:Hab; [|reflexivity].
  destruct a; simpl in Hab; [congruence | discriminate].
Qed.

(** The pattern of packet counts does not match at the start of a text
    [p] that does not end with a digit and does not contain "packets",
    whatever follows it, if that starts with a digit. *)
Lemma packets_not_inside (p : string) (c : ascii) (tail : string) :
  p <> "" ->
  Spec.ends_with_digit p = false ->
  contains "packets" (lower p) = false ->
  isdigit c = true ->
  rmatch (fst Tools._re_packets_unix) (snd Tools._re_packets_unix) (p ++ String c tail)
  = None.
Proof.
  intros Hp Hend Hpk Hc.
  destruct (rmatch _ _ (p ++ String c tail)) as [g|] eqn:Hm; [|reflexivity].
  exfalso.
  apply packets_head in Hm as (D & W & rest & Hs & HD & HW & Hlit).
  assert (Hnot : isspace c = false /\ ~ In (lower_char c) (Spec.chars "packets")).
  { destruct c as [[] [] [] [] [] [] [] []]; try discriminate Hc;
      (split; [reflexivity | simpl; intuition discriminate]). }
  destruct Hnot as [Hsp Hout].
  symmetry in Hs.
  apply digits_inside in Hs as (p1 & -> & Hs); [|assumption..].
  apply spaces_inside in Hs as (p2 & -> & ->); [|exact HW | exact Hsp].
  apply startswith_inside in Hlit; [|discriminate | exact Hout].
  apply startswith_contains in Hlit.
  rewrite !lower_app in Hpk.
  rewrite (contains_app_r _ _ _ (contains_app_r _ _ _ Hlit)) in Hpk. discriminate.
Qed.

(** The search for packet counts skips such a text. *)
Lemma packets_search_skip (pre : string) (c : ascii) (tail : string) :
  Spec.ends_with_digit pre = false ->
  contains "packets" (lower pre) = false ->
  isdigit c = true ->
  Tools.re_search Tools._re_packets_unix (pre ++ String c tail)
  = Tools.re_search Tools._re_packets_unix (String c tail).
Proof.
  intros Hend Hpk Hc. unfold Tools.re_search.
  apply search_skip. intros a b -> Hb.
  apply packets_not_inside; [exact Hb | | | exact Hc].
  - now rewrite <- (ends_with_digit_suffix a b Hb).
  - eapply contains_suffix_false; eassumption.
Qed.
End Search.

(** ** The table of a fallback whose attempts all failed *)


(** ** Finding the ping binary *)

Section FindPing.
Variable env : Env.

(** [first_found] asks for the candidates in order and stops at the first
    that resolves. *)
Lemma first_found_first (cands : list string) (t : trace) :
  (Forall (fun c => Spec.resolves env c = None) cands
   /\ Tools.first_found env cands t = (inr None, (t ++ map Which cands)%list))
  \/ (exists before cand after path,
        cands = (before ++ cand :: after)%list
        /\ Forall (fun c => Spec.resolves env c = None) before
        /\ Spec.resolves env cand = Some path
        /\ Tools.first_found env cands t
           = (inr (Some path), (t ++ map Which (before ++ [cand]))%list)).
Proof.
  revert t. induction cands as [|cand rest IH]; intro t.
  - left. split; [constructor|]. simpl. unfold ret. now rewrite app_nil_r.
  - simpl Tools.first_found. unfold bind, Tools.which.
    destruct (Spec.resolves env cand) as [path|] eqn:Hres.
    + right. exists [], cand, rest, path. repeat split; [constructor | exact Hres|].
      unfold Spec.resolves in Hres.
      destruct (shutil_which env cand) as [p|]; [|discriminate].
      destruct (PyStr.truthy p); [|discriminate].
      injection Hres as ->. reflexivity.
    + assert (Hskip : match shutil_which env cand with
                      | Some path =>
                          if PyStr.truthy path then ret (Some path)
                          else Tools.first_found env rest
                      | None => Tools.first_found env rest
                      end = Tools.first_found env rest).
      { unfold Spec.resolves in Hres.
        destruct (shutil_which env cand) as [p|]; [|reflexivity].
        destruct (PyStr.truthy p); [discriminate | reflexivity]. }
      rewrite Hskip.
      destruct (IH (emit t (Which cand)))
        as [[Hall Hrun] | (before & c & after & path & -> & Hall & Hc & Hrun)].
      * left. split; [constructor; assumption|].
        rewrite Hrun. unfold emit. now rewrite <- app_assoc.
      * right. exists (cand :: before), c, after, path.
        repeat split; [constructor; assumption | exact Hc|].
        rewrite Hrun. unfold emit. now rewrite <- app_assoc.
Qed.
End FindPing.

(** ** The command of the ICMP attempt *)

Section IcmpCommand.
Variable env : Env.
Variables (host : string) (count timeout : Z).

Lemma icmp_ping_without_binary (t t1 : trace) :
  Tools._find_ping env t = (inr None, t1) ->
  Tools._icmp_ping env host count timeout t
  = (inr (false, "", "ping binary not found inside the container"), t1).
Proof.
  intro H. unfold Tools._icmp_ping, bind. rewrite H. reflexivity.
Qed.

Lemma icmp_ping_with_binary (t t1 : trace) (path : string) :
  Tools._find_ping env t = (inr (Some path), t1) ->
  PyStr.truthy path = true ->
  Tools._icmp_ping env host count timeout t
  = if Spec.command_printable env count timeout
    then (inr (Spec.icmp_outcome
                 (subprocess_run env (Spec.icmp_command env path host count timeout))),
          (t1 ++ [Run (Spec.icmp_command env path host count timeout)])%list)
    else (inl Spec.limit_error, t1).
Proof.
  intros H Hpath. unfold Tools._icmp_ping, bind at 1. rewrite H, Hpath.
  change (negb true) with false. cbv iota zeta.
  unfold bind at 1, lift. rewrite icmp_command_built.
  destruct (Spec.command_printable env count timeout); [|reflexivity].
  unfold try_exceptM, bind, Tools.run_process, ret, emit.
  destruct (subprocess_run env (Spec.icmp_command env path host count timeout));
    reflexivity.
Qed.

Lemma resolves_truthy (cand path : string) :
  Spec.resolves env cand = Some path -> PyStr.truthy path = true.
Proof.
  unfold Spec.resolves. destruct (shutil_which env cand) as [p|]; [|discriminate].
  destruct (PyStr.truthy p) eqn:Hp; [|discriminate].
  intro H. injection H as <-. exact Hp.
Qed.

(** The ICMP attempt, from the candidates to the answer. *)
Lemma icmp_ping_cases (t : trace) :
  (Forall (fun c => Spec.resolves env c = None) Spec.ping_candidates
   /\ Tools._icmp_ping env host count timeout t
      = (inr (false, "", "ping binary not found inside the container"),
         (t ++ map Which Spec.ping_candidates)%list))
  \/ (exists before cand after path,
        Spec.ping_candidates = (before ++ cand :: after)%list
        /\ Forall (fun c => Spec.resolves env c = None) before
        /\ Spec.resolves env cand = Some path
        /\ Tools._icmp_ping env host count timeout t
           = if Spec.command_printable env count timeout
             then (inr (Spec.icmp_outcome
                          (subprocess_run env
                             (Spec.icmp_command env path host count timeout))),
                   (t ++ map Which (before ++ [cand])
                      ++ [Run (Spec.icmp_command env path host count timeout)])%list)
             else (inl Spec.limit_error, (t ++ map Which (before ++ [cand]))%list)).
Proof.
  destruct (first_found_first env Spec.ping_candidates t)
    as [[Hall Hrun] | (before & cand & after & path & Hc & Hall & Hres & Hrun)].
  - left. split; [exact Hall|]. now apply icmp_ping_without_binary.
  - right. exists before, cand, after, path. repeat split; try assumption.
    rewrite (icmp_ping_with_binary t _ path Hrun (resolves_truthy _ _ Hres)).
    now rewrite <- app_assoc.
Qed.
Lemma no_run_in_which (cmd : list string) (l : list string) : ~ In (Run cmd) (map Which l).
Proof. induction l as [|x l IH]; simpl; [tauto | intros [H|H]; [discriminate | auto]]. Qed.

(** Within the limit the attempt returns; the only process it runs is the
    command, and an exception of that run is the error text of a failed
    attempt without output. *)
Lemma icmp_ping_outcome (t : trace) :
  Spec.command_printable env count timeout = true ->
  exists ok out err evs,
    Tools._icmp_ping env host count timeout t = (inr (ok, out, err), (t ++ evs)%list)
    /\ filter is_Connect evs = []
    /\ (forall cmd e, In (Run cmd) evs -> subprocess_run env cmd = inl e ->
          ok = false /\ out = "" /\ err = exn_str e).
Proof.
  intro Hp.
  destruct (icmp_ping_cases t)
    as [[_ Hrun] | (before & cand & after & path & _ & _ & _ & Hrun)].
  - exists false, "", "ping binary not found inside the container",
      (map Which Spec.ping_candidates).
    split; [exact Hrun|]. split; [reflexivity|].
    intros cmd e Hin. now apply no_run_in_which in Hin.
  - rewrite Hp in Hrun.
    destruct (Spec.icmp_outcome _) as [[ok out] err] eqn:Hout.
    exists ok, out, err,
      (map Which (before ++ [cand])
         ++ [Run (Spec.icmp_command env path host count timeout)])%list.
    split; [exact Hrun|]. split.
    + rewrite filter_app. simpl. rewrite app_nil_r.
      clear. induction (before ++ [cand])%list as [|x l IH]; [reflexivity | exact IH].
    + intros cmd e Hin He. apply in_app_or in Hin as [Hin | [Hin | []]].
      * now apply no_run_in_which in Hin.
      * injection Hin as <-. rewrite He in Hout. simpl in Hout.
        injection Hout as <- <- <-. auto.
Qed.
End IcmpCommand.

(** ** The TCP loop, call by call *)

Section TcpTrace.
Variable env : Env.
Variables (host : string) (port : Z) (timeout : float).

Lemma attempts_trace_cons (a : option exn) (l : list (option exn)) :
  Spec.attempts_trace host port timeout (a :: l)
  = (match a with
     | Some _ => Spec.refused_attempt host port timeout
     | None => Spec.connected_attempt host port timeout
     end ++ Spec.attempts_trace host port timeout l)%list.
Proof. reflexivity. Qed.

(** The loop in full: its samples, its errors and its calls are those of the
    answers of the network, attempt by attempt. *)
Lemma tcp_loop_full (n : nat) :
  forall (samples : list float) (errors : list string) (t : trace),
  let l := Spec.answers env (calls is_Connect t) n host port timeout in
  Tools.tcp_loop env n host port timeout samples errors t
  = (inr ((samples ++ Spec.latencies env (calls is_PerfCounter t) l)%list,
          (errors ++ Spec.refusals l)%list),
     (t ++ Spec.attempts_trace host port timeout l)%list).
Proof.
  induction n as [|n IH]; intros samples errors t l.
  - simpl. unfold ret. now rewrite !app_nil_r.
  - subst l. rewrite answers_step, refusals_cons, attempts_trace_cons.
    simpl Tools.tcp_loop. unfold bind. rewrite tcp_attempt_run.
    destruct (create_connection env (calls is_Connect t) host port timeout) as [e|] eqn:Ha.
    + cbv beta iota zeta. rewrite IH.
      replace (calls is_Connect (t ++ Spec.refused_attempt host port timeout)%list)
        with (S (calls is_Connect t))
        by (rewrite calls_app; unfold calls; simpl; lia).
      replace (calls is_PerfCounter (t ++ Spec.refused_attempt host port timeout)%list)
        with (S (calls is_PerfCounter t))
        by (rewrite calls_app; unfold calls; simpl; lia).
      simpl Spec.latencies. simpl Spec.refusals at 2.
      now rewrite <- !app_assoc.
    + cbv beta iota zeta. rewrite IH.
      replace (calls is_Connect (t ++ Spec.connected_attempt host port timeout)%list)
        with (S (calls is_Connect t))
        by (rewrite calls_app; unfold calls; simpl; lia).
      replace (calls is_PerfCounter (t ++ Spec.connected_attempt host port timeout)%list)
        with (S (S (calls is_PerfCounter t)))
        by (rewrite calls_app; unfold calls; simpl; lia).
      simpl Spec.latencies. simpl Spec.refusals at 2.
      now rewrite <- !app_assoc.
Qed.

Lemma tcp_ping_full (attempts : Z) (t : trace) :
  let l := Spec.answers env (calls is_Connect t) (Z.to_nat attempts) host port timeout in
  Tools._tcp_ping env host port attempts timeout t
  = (inr (Spec.latencies env (calls is_PerfCounter t) l, Spec.refusals l),
     (t ++ Spec.attempts_trace host port timeout l)%list).
Proof.
  intro l. unfold Tools._tcp_ping. now rewrite tcp_loop_full.
Qed.

(** In the calls of the loop, the connections closed and the sleeps are as
    many as the connections made. *)
Lemma attempts_trace_closes (l : list (option exn)) :
  filter Spec.is_Close (Spec.attempts_trace host port timeout l)
  = repeat Close (Spec.connections l)
  /\ filter Spec.is_Sleep (Spec.attempts_trace host port timeout l)
     = repeat (Sleep 0x1.999999999999ap-4) (Spec.connections l)
  /\ filter is_Run (Spec.attempts_trace host port timeout l) = []
  /\ filter is_Connect (Spec.attempts_trace host port timeout l)
     = repeat (Connect host port timeout) (List.length l).
Proof.
  induction l as [|a l (IHc & IHs & IHr & IHn)]; [repeat split|].
  rewrite attempts_trace_cons, connections_cons, !filter_app, IHc, IHs, IHr, IHn.
  destruct a; repeat split.
Qed.

Lemma latencies_length (k : nat) (l : list (option exn)) :
  List.length (Spec.latencies env k l) = Spec.connections l.
Proof.
  revert k. induction l as [|a l IH]; intro k; [reflexivity|].
  rewrite connections_cons. destruct a; simpl; rewrite IH; reflexivity.
Qed.
End TcpTrace.

(** ** What [_sanitize] accepts *)

Section Sanitize.
Import PyStr Re.

Lemma all_of_app (p : ascii -> bool) (a b : string) :
  Spec.all_of p (a ++ b) = Spec.all_of p a && Spec.all_of p b.
Proof.
  induction a as [|c a IH]; simpl; [reflexivity|]. now rewrite IH, andb_assoc.
Qed.

Lemma all_of_Forall (p : ascii -> bool) (s : string) :
  Spec.all_of p s = true <-> Forall (fun c => p c = true) (Spec.chars s).
Proof.
  induction s as [|c s IH]; simpl.
  - split; [constructor | reflexivity].
  - rewrite andb_true_iff, IH. split.
    + intros [Hc Hs]. constructor; assumption.
    + intro H. inversion H; subst. auto.
Qed.

(** A greedy repetition takes all of [body] when every character of it is
    in the class and the rest does not go on with one, if the continuation
    accepts the rest. *)
Lemma star_greedy_max (f : flags) (k : cclass) (cont : string -> string -> option groups)
      (body : string) :
  forall (rest acc : string) (g : groups),
  Spec.all_of (class_match f k) body = true ->
  Spec.stops (class_match f k) rest = true ->
  cont rest (acc ++ body) = Some g ->
  star_greedy f k cont (body ++ rest) acc = Some g.
Proof.
  induction body as [|b body IH]; intros rest acc g Hall Hstop Hcont.
  - rewrite append_empty_r in Hcont. simpl append.
    destruct rest as [|c rest]; [exact Hcont|].
    simpl in Hstop |- *. apply negb_true_iff in Hstop. now rewrite Hstop.
  - simpl in Hall. apply andb_true_iff in Hall as [Hb Hall].
    simpl. rewrite Hb.
    rewrite (IH rest (snoc acc b) g Hall Hstop); [reflexivity|].
    unfold snoc. now rewrite append_assoc.
Qed.

Lemma sanitize_sound (target tgt : string) :
  Tools._sanitize target = Some tgt ->
  tgt = strip target /\ truthy tgt = true /\ Spec.all_of Spec.allow_listed tgt = true.
Proof.
  intro H. pose proof (sanitize_truthy _ _ H) as Ht.
  unfold Tools._sanitize in H. rewrite or_else_empty in H.
  destruct (truthy (strip target)); [|discriminate]. simpl in H.
  destruct (rmatch no_flags Tools._ALLOWED_TARGET (strip target)) as [g|] eqn:Hm;
    [|discriminate].
  injection H as <-. repeat split; [exact Ht|].
  apply allowed_target_shape in Hm as (body & Hall & [Hb | Hb]).
  - rewrite Hb. now apply all_of_Forall.
  - unfold strip in Hb. apply rstrip_last in Hb. discriminate.
Qed.

Lemma sanitize_complete (target : string) :
  truthy (strip target) = true ->
  Spec.all_of Spec.allow_listed (strip target) = true ->
  Tools._sanitize target = Some (strip target).
Proof.
  intros Ht Hall. unfold Tools._sanitize. rewrite or_else_empty, Ht.
  assert (Hm : rmatch no_flags Tools._ALLOWED_TARGET (strip target) = Some []).
  { destruct (strip target) as [|c s]; [discriminate|].
    simpl in Hall. apply andb_true_iff in Hall as [Hc Hs].
    unfold rmatch, Tools._ALLOWED_TARGET, seq, Plus. simpl.
    rewrite class_allowed, Hc.
    rewrite <- (append_empty_r s) at 1.
    apply star_greedy_max; [|reflexivity|reflexivity].
    clear -Hs. induction s as [|a s IH]; [reflexivity|].
    simpl in Hs |- *. apply andb_true_iff in Hs as [Ha Hs].
    now rewrite class_allowed, Ha, IH. }
  rewrite Hm. reflexivity.
Qed.
End Sanitize.

(** ** A call of [ping], from the target to the report *)

Section PingCalls.
Import PyStr.
Variables (env : Env) (valves : Tools.Valves).
Variables (target : string) (count timeout : option Z).
Variables (tgt host : string) (port : option Z) (t : trace).

Hypothesis sanitized : Tools._sanitize target = Some tgt.
Hypothesis parsed : Tools._split_host_port tgt = inr (host, port).

(** The rest of [ping] after the ICMP attempt, with the calls it makes. *)
Lemma ping_when_icmp (ok : bool) (out err : string) (evs : trace) :
  Tools._icmp_ping env host (Tools.or_int count (Tools.packet_count valves))
    (Tools.or_int timeout (Tools.timeout_seconds valves)) t
  = (inr (ok, out, err), (t ++ evs)%list) ->
  let p := Spec.fallback_port port (Tools.tcp_default_port valves) in
  let l := Spec.answers env (calls is_Connect (t ++ evs)%list)
             (Z.to_nat (Tools.tcp_attempts valves)) host p (Tools.tcp_timeout_seconds valves) in
  Tools.ping env valves target count timeout t
  = if ok then (inr (Spec.icmp_report env host out err), (t ++ evs)%list)
    else if Spec.triggers_fallback (Spec.inspected_text out err)
    then (inr (Tools._format_tcp_table host p
                 (Spec.latencies env (calls is_PerfCounter (t ++ evs)%list) l)
                 (Tools.tcp_attempts valves) (Spec.refusals l)),
          (t ++ evs
             ++ Spec.attempts_trace host p (Tools.tcp_timeout_seconds valves) l)%list)
    else (inr (Spec.failure_text out err), (t ++ evs)%list).
Proof.
  intros Hi p l.
  rewrite (ping_after_icmp env valves target count timeout tgt host port ok out err _ _
             sanitized parsed Hi).
  destruct ok; [reflexivity|].
  fold (Spec.inspected_text out err).
  destruct (Spec.triggers_fallback (Spec.inspected_text out err)) eqn:Htrig.
  - cbv zeta.
    change (Tools.or_int port (Tools.tcp_default_port valves)) with p.
    rewrite tcp_ping_full. fold l. now rewrite <- app_assoc.
  - destruct (ping_reports_failure env valves target count timeout tgt host port out err _ _
                sanitized parsed Hi Htrig) as (Hping & _).
    rewrite (ping_after_icmp env valves target count timeout tgt host port false out err _ _
               sanitized parsed Hi) in Hping.
    fold (Spec.inspected_text out err) in Hping. rewrite Htrig in Hping. exact Hping.
Qed.

(** The host of a sanitized target is made of allow-listed characters. *)
Lemma host_allow_listed : Spec.all_of Spec.allow_listed host = true.
Proof.
  destruct (sanitize_sound _ _ sanitized) as (_ & _ & Hall).
  destruct (split_host_port_run tgt) as (r & Hr & Hparse).
  rewrite parsed in Hr. injection Hr as <-.
  inversion Hparse as [h lit n Ht | h lit e Ht | h rest Ht | | | h lit n Hb Ht
                      | h lit e Hb Ht | ]; subst; try exact Hall.
  - change ("[" ++ host ++ "]:" ++ lit) with (String "[" (host ++ "]:" ++ lit)) in Hall.
    simpl in Hall. rewrite all_of_app in Hall.
    now apply andb_true_iff in Hall as [Hh _].
  - change ("[" ++ host ++ "]" ++ rest) with (String "[" (host ++ "]" ++ rest)) in Hall.
    simpl in Hall. rewrite all_of_app in Hall.
    now apply andb_true_iff in Hall as [Hh _].
  - rewrite all_of_app in Hall. now apply andb_true_iff in Hall as [Hh _].
Qed.
End PingCalls.

Lemma filter_which (p : event -> bool) (l : list string) :
  (forall c, p (Which c) = false) -> filter p (map Which l) = [].
Proof.
  intro Hp. induction l as [|c l IH]; [reflexivity|]. simpl. now rewrite Hp.
Qed.

(** [_format_icmp_table], pattern by pattern. *)
Lemma format_icmp_table_cases (env : Env) (host out err : string) :
  let text := out ++ PyStr.nl ++ err in
  Tools._format_icmp_table env host out err
  = match Tools.re_search Tools._re_packets_unix text with
    | Some g =>
        Some match Tools.re_search Tools._re_rtt_unix text with
             | Some r =>
                 Spec.posix_table host (Re.group g "tx") (Re.group g "rx") (Re.group g "loss")
                   (Re.group r "min") (Re.group r "avg") (Re.group r "max")
                   (Re.group r "mdev")
             | None =>
                 Spec.posix_table host (Re.group g "tx") (Re.group g "rx") (Re.group g "loss")
                   "-" "-" "-" "-"
             end
    | None =>
        match Tools.re_search Tools._re_packets_win text with
        | Some g =>
            Some match Tools.re_search Tools._re_rtt_win text with
                 | Some r =>
                     Spec.windows_table host (Re.group g "tx") (Re.group g "rx")
                       (Re.group g "loss") (Re.group r "min") (Re.group r "avg")
                       (Re.group r "max")
                 | None =>
                     Spec.windows_table host (Re.group g "tx") (Re.group g "rx")
                       (Re.group g "loss") "-" "-" "-"
                 end
        | None => None
        end
    end.
Proof.
  intro text. unfold Tools._format_icmp_table. rewrite !or_else_empty. fold text.
  cbv zeta.
  destruct (Tools.re_search Tools._re_packets_unix text) as [g|].
  - destruct (Tools.re_search Tools._re_rtt_unix text); reflexivity.
  - destruct (Tools.re_search Tools._re_packets_win text) as [g|]; [|reflexivity].
    destruct (Tools.re_search Tools._re_rtt_win text); reflexivity.
Qed.

(** The table of a successful attempt is one of three. *)
Lemma icmp_report_shape (env : Env) (host out err : string) :
  (exists tx rx loss a b c d,
      Spec.icmp_report env host out err = Spec.posix_table host tx rx loss a b c d)
  \/ (exists tx rx loss a b c,
         Spec.icmp_report env host out err = Spec.windows_table host tx rx loss a b c)
  \/ Spec.icmp_report env host out err = Spec.unparsed_table host.
Proof.
  unfold Spec.icmp_report. rewrite format_icmp_table_cases. cbv zeta.
  destruct (Tools.re_search Tools._re_packets_unix _) as [g|].
  - left. destruct (Tools.re_search Tools._re_rtt_unix _); do 7 eexists; reflexivity.
  - destruct (Tools.re_search Tools._re_packets_win _) as [g|]; [|right; right; reflexivity].
    right. left. destruct (Tools.re_search Tools._re_rtt_win _); do 6 eexists; reflexivity.
Qed.


Lemma all_of_impl (p q : ascii -> bool) (s : string) :
  (forall c, p c = true -> q c = true) ->
  Spec.all_of p s = true -> Spec.all_of q s = true.
Proof.
  intros Hpq. induction s as [|c s IH]; [reflexivity|].
  simpl. rewrite !andb_true_iff. intros [Hc Hs]. auto.
Qed.


(** ** Printing a port and reading it back *)

Section IntStr.
Import PyStr PyInt.

Lemma more_digits_digit (acc : Z) (c : ascii) (s : string) :
  isdigit c = true ->
  more_digits acc (String c s) = more_digits (10 * acc + digit_value c) s.
Proof. intro H. cbn [more_digits]. now rewrite H. Qed.

Ltac digit_step :=
  cbn [NilEmpty.string_of_uint];
  rewrite more_digits_digit by reflexivity;
  match goal with
  | |- context [digit_value ?c] =>
      let v := eval vm_compute in (digit_value c) in change (digit_value c) with v
  end.

(** Reading the digits of a decimal number in front of which [a] has been
    read already. *)
Lemma more_digits_uint (u : Decimal.uint) :
  forall a : positive,
  more_digits (Z.pos a) (NilEmpty.string_of_uint u) = Some (Z.pos (Pos.of_uint_acc u a)).
Proof.
  induction u as [|u IH|u IH|u IH|u IH|u IH|u IH|u IH|u IH|u IH|u IH]; intro a;
    [reflexivity | digit_step; cbn [Pos.of_uint_acc]; rewrite <- IH; f_equal; lia ..].
Qed.

Lemma more_digits_zero (u : Decimal.uint) :
  more_digits 0 (NilEmpty.string_of_uint u) = Some (Z.of_N (Pos.of_uint u)).
Proof.
  induction u as [|u IH|u IH|u IH|u IH|u IH|u IH|u IH|u IH|u IH|u IH];
    [reflexivity | digit_step; exact IH
     | digit_step; cbn [Pos.of_uint]; exact (more_digits_uint u _) ..].
Qed.

Lemma digits_uint (u : Decimal.uint) :
  u <> Decimal.Nil ->
  literal (NilEmpty.string_of_uint u) = Some (Z.of_N (Pos.of_uint u)).
Proof.
  intro Hu.
  destruct u as [|u|u|u|u|u|u|u|u|u|u]; [congruence | ..];
    cbn [NilEmpty.string_of_uint literal digits];
    [exact (more_digits_zero u) | exact (more_digits_uint u _) ..].
Qed.

Lemma uint_digits (u : Decimal.uint) :
  Spec.all_of isdigit (NilEmpty.string_of_uint u) = true.
Proof. induction u; simpl; auto. Qed.

Lemma skip_leading_none (s : string) :
  Spec.all_of (fun c => negb (is_int_space c)) s = true -> skip_leading s = s.
Proof.
  destruct s as [|c s]; [reflexivity|].
  simpl. intro H. apply andb_true_iff in H as [Hc _].
  apply negb_true_iff in Hc. now rewrite Hc.
Qed.

Lemma skip_trailing_none (s : string) :
  Spec.all_of (fun c => negb (is_int_space c)) s = true -> skip_trailing s = s.
Proof.
  induction s as [|c s IH]; [reflexivity|].
  simpl. intro H. apply andb_true_iff in H as [Hc Hs].
  apply negb_true_iff in Hc. rewrite (IH Hs), Hc. now destruct s.
Qed.

Lemma digit_not_int_space (c : ascii) : isdigit c = true -> negb (is_int_space c) = true.
Proof. destruct c as [[] [] [] [] [] [] [] []]; (reflexivity || discriminate). Qed.

(** [str] prints a sign, if any, and digits. *)
Lemma str_shape (n : Z) :
  exists sign body,
    str n = sign ++ body
    /\ (sign = "" \/ sign = "-")
    /\ Spec.all_of isdigit body = true.
Proof.
  unfold str. destruct n as [|p|p]; cbn [Z.to_int NilZero.string_of_int].
  - exists "", "0". auto.
  - exists "", (NilEmpty.string_of_uint (Pos.to_uint p)). repeat split; [|auto|apply uint_digits].
    pose proof (DecimalPos.Unsigned.to_uint_nonnil p) as Hp.
    unfold NilZero.string_of_uint. now destruct (Pos.to_uint p).
  - exists "-", (NilEmpty.string_of_uint (Pos.to_uint p)). repeat split; [|auto|apply uint_digits].
    pose proof (DecimalPos.Unsigned.to_uint_nonnil p) as Hp.
    unfold NilZero.string_of_uint. now destruct (Pos.to_uint p).
Qed.

Lemma str_plain (n : Z) (c : ascii) :
  isdigit c = false -> c <> "-"%char -> Spec.free_of c (str n).
Proof.
  intros Hc Hm. destruct (str_shape n) as (sign & body & -> & Hsign & Hbody).
  assert (Hb : Spec.free_of c body).
  { clear -Hc Hbody. induction body as [|b body IH]; [apply free_of_nil|].
    simpl in Hbody. apply andb_true_iff in Hbody as [Hb Hbody].
    apply free_of_cons. split; [congruence | auto]. }
  destruct Hsign as [-> | ->]; [exact Hb|].
  apply free_of_cons. auto.
Qed.

(** A run of nothing but digits is counted whole. *)
Lemma count_run_digits (s : string) :
  forall k : nat,
  Spec.all_of isdigit s = true -> count_run false k s = Some (k + String.length s)%nat.
Proof.
  induction s as [|c s IH]; intros k Hall; simpl.
  - now rewrite Nat.add_0_r.
  - simpl in Hall. apply andb_true_iff in Hall as [Hc Hall].
    rewrite Hc, (IH _ Hall). f_equal. lia.
Qed.

Lemma counted_uint (u : Decimal.uint) :
  u <> Decimal.Nil ->
  counted_digits (NilEmpty.string_of_uint u)
  = Some (String.length (NilEmpty.string_of_uint u))
  /\ counted_digits (String "-" (NilEmpty.string_of_uint u))
     = Some (String.length (NilEmpty.string_of_uint u)).
Proof.
  intro Hu.
  assert (H : counted_digits (NilEmpty.string_of_uint u)
              = count_run false O (NilEmpty.string_of_uint u)
              /\ counted_digits (String "-" (NilEmpty.string_of_uint u))
                 = count_run false O (NilEmpty.string_of_uint u)).
  { destruct u; [congruence | split; reflexivity ..]. }
  destruct H as [-> ->].
  now rewrite (count_run_digits _ O (uint_digits u)).
Qed.

(** A text without white space around it that [int] reads within the
    limit. *)
Lemma int_plain (s : string) (d : nat) (n : Z) :
  Spec.all_of (fun c => negb (is_int_space c)) s = true ->
  counted_digits s = Some d ->
  Z.of_nat d <= max_str_digits ->
  literal s = Some n ->
  int s = inr n.
Proof.
  intros Hplain Hd Hle Hlit. unfold int. cbv zeta.
  rewrite (skip_leading_none _ Hplain), (skip_trailing_none _ Hplain), Hd, Hlit.
  apply Z.ltb_ge in Hle. now rewrite Hle.
Qed.

(** [int(str(n))] is [n], for [n] within the limit. *)
Lemma int_str (n : Z) : printable n = true -> int (str n) = inr n.
Proof.
  assert (Huint : forall p,
             NilZero.string_of_uint (Pos.to_uint p)
             = NilEmpty.string_of_uint (Pos.to_uint p)).
  { intro p. pose proof (DecimalPos.Unsigned.to_uint_nonnil p) as Hp.
    unfold NilZero.string_of_uint. now destruct (Pos.to_uint p). }
  assert (Hplain : forall u,
             Spec.all_of (fun c => negb (is_int_space c)) (NilEmpty.string_of_uint u) = true).
  { intro u. apply (all_of_impl isdigit); [apply digit_not_int_space | apply uint_digits]. }
  unfold printable, digit_count. intro Hn. apply Z.leb_le in Hn.
  destruct n as [|p|p].
  - reflexivity.
  - unfold str in Hn |- *. cbn [Z.abs Z.to_int NilZero.string_of_int] in Hn |- *.
    rewrite Huint in Hn |- *.
    destruct (counted_uint _ (DecimalPos.Unsigned.to_uint_nonnil p)) as [Hc _].
    apply (int_plain _ _ _ (Hplain _) Hc Hn).
    rewrite digits_uint by apply DecimalPos.Unsigned.to_uint_nonnil.
    now rewrite DecimalPos.Unsigned.of_to.
  - unfold str in Hn |- *. cbn [Z.abs Z.to_int NilZero.string_of_int] in Hn |- *.
    rewrite Huint in Hn |- *.
    destruct (counted_uint _ (DecimalPos.Unsigned.to_uint_nonnil p)) as [_ Hc].
    assert (Hminus : Spec.all_of (fun c => negb (is_int_space c))
                       (String "-" (NilEmpty.string_of_uint (Pos.to_uint p))) = true)
      by (simpl; apply Hplain).
    apply (int_plain _ _ _ Hminus Hc Hn).
    cbn [literal].
    pose proof (digits_uint _ (DecimalPos.Unsigned.to_uint_nonnil p)) as Hd.
    rewrite DecimalPos.Unsigned.of_to in Hd.
    assert (Hlit : literal (NilEmpty.string_of_uint (Pos.to_uint p))
                   = digits (NilEmpty.string_of_uint (Pos.to_uint p))).
    { pose proof (DecimalPos.Unsigned.to_uint_nonnil p) as Hp.
      now destruct (Pos.to_uint p). }
    rewrite <- Hlit, Hd. reflexivity.
Qed.
End IntStr.

(** ** The errors in the TCP table *)

Section TableErrors.
Import PyStr.

Lemma join_holds (x : string) (l : list string) :
  In x l -> exists a b, join nl l = a ++ x ++ b.
Proof.
  induction l as [|y l IH]; intro H; [contradiction|].
  destruct l as [|z l].
  - destruct H as [-> | []]. exists "", "". simpl. now rewrite append_empty_r.
  - destruct H as [-> | H].
    + exists "", (nl ++ join nl (z :: l)). reflexivity.
    + destruct (IH H) as (a & b & Hab).
      exists (y ++ nl ++ a), b.
      change (join nl (y :: z :: l)) with (y ++ nl ++ join nl (z :: l)).
      rewrite Hab, !append_assoc. reflexivity.
Qed.

Lemma contains_inside (k a b : string) : contains k (a ++ k ++ b) = true.
Proof. apply contains_app_r, startswith_contains, startswith_app. Qed.

(** The first three errors have their rows in the table. *)
Lemma format_tcp_table_errors (host : string) (port : Z) (samples : list float)
      (attempts : Z) (errors : list string) (msg : string) :
  In msg (firstn 3 errors) ->
  contains (Tools.error_row msg) (Tools._format_tcp_table host port samples attempts errors)
  = true.
Proof.
  intro Hin. unfold Tools._format_tcp_table.
  set (stats := match samples with [] => _ | _ :: _ => _ end).
  destruct stats as [[mn mx] avg].
  match goal with |- context [join nl ?rows] =>
    assert (Hrow : In (Tools.error_row msg) rows) end.
  { destruct errors as [|e errors]; [destruct Hin|].
    apply in_or_app. right. apply in_or_app. right. now apply in_map. }
  destruct (join_holds _ _ Hrow) as (a & b & ->).
  apply contains_inside.
Qed.
End TableErrors.
(** * The claims *)




(** C2 (as the code has it).  A target that, once trimmed, is empty or
    contains a character outside the allow-list of letters, digits and
    [. - : % _ [ ]] gets the report "Invalid target", and nothing is asked of
    the system: no subprocess, no socket, no call at all. *)
Theorem ping_invalid_target
        (env : Env) (valves : Tools.Valves) (target : string) (count timeout : option Z)
        (t : trace) :
  PyStr.strip target = ""
  \/ (exists c, In c (Spec.chars (PyStr.strip target)) /\ Spec.allow_listed c = false) ->
  Tools.ping env valves target count timeout t = (inr "Invalid target", t).
Proof.
  intro H. apply ping_refused. now apply sanitize_refuses.
Qed.

(** The target [;rm -rf /], and a target of blanks. *)
Lemma ping_invalid_target_witness :
  (In ";"%char (Spec.chars (PyStr.strip ";rm -rf /")) /\ Spec.allow_listed ";" = false)
  /\ Tools.ping (Scenario.linux 0 Scenario.summary_line "") Tools.default_valves
       ";rm -rf /" None None []
     = (inr "Invalid target", [])
  /\ Tools.ping (Scenario.linux 0 Scenario.summary_line "") Tools.default_valves
       "   " None None []
     = (inr "Invalid target", []).
Proof.
  assert (Hc : In ";"%char (Spec.chars (PyStr.strip ";rm -rf /"))
               /\ Spec.allow_listed ";" = false)
    by (split; [vm_compute; auto | reflexivity]).
  split; [exact Hc|]. split.
  - apply ping_invalid_target. right. exists ";"%char. exact Hc.
  - apply ping_invalid_target. left. reflexivity.
Defined.

(** The blank around a target is outside the allow-list, and [ping] goes
    on with the target trimmed. *)
Lemma ping_untrimmed_target :
  ~ (forall (env : Env) (valves : Tools.Valves) (target : string) (count timeout : option Z)
            (t : trace),
        PyStr.strip target = ""
        \/ (exists c, In c (Spec.chars target) /\ Spec.allow_listed c = false) ->
        Tools.ping env valves target count timeout t = (inr "Invalid target", t)).
Proof.
  intro H.
  specialize (H (Scenario.linux 0 Scenario.summary_line "") Tools.default_valves
                " example.com" None None []).
  assert (Hc : exists c, In c (Spec.chars " example.com") /\ Spec.allow_listed c = false).
  { exists " "%char. split; [left; reflexivity | reflexivity]. }
  specialize (H (or_intror Hc)).
  vm_compute in H. discriminate H.
Qed.

(** C3 (as the code has it).  [_split_host_port] returns for every target,
    and its result is: for [[h]:p] the host [h] and the integer [p], or the
    whole target and no port if [p] is not an integer; for [[h]] and for
    [[h]] followed by text that does not start with a colon, the host [h]
    and no port, the text after the bracket being ignored; for a target that
    opens a bracket and never closes it, the whole target and no port; for
    any other target with more than one colon, the whole target and no port;
    with exactly one colon, [h:p], the host [h] and the integer [p], or the
    whole target and no port if [p] is not an integer; with no colon, the
    target and no port.  An integer is what [int] accepts, and [int] reads
    every integer of at most 4300 digits back from its decimal text. *)
Theorem split_host_port_cases :
  (forall target : string,
      (exists r, Tools._split_host_port target = inr r)
      /\ (forall r, Tools._split_host_port target = inr r <-> Spec.parses_to target r))
  /\ (forall n : Z, PyInt.printable n = true -> PyInt.int (PyInt.str n) = inr n).
Proof.
  split; [|exact int_str].
  intro target.
  destruct (split_host_port_run target) as (r0 & Hrun & Hparse).
  split; [eauto|].
  intro r. split.
  - intro H. rewrite H in Hrun. injection Hrun as <-. exact Hparse.
  - apply parses_to_run.
Qed.

(** The targets of the specification, and a port read back. *)
Lemma split_host_port_cases_witness :
  Spec.parses_to "[2001:db8::1]:8080" ("2001:db8::1", Some 8080)
  /\ Spec.parses_to "2001:db8::1" ("2001:db8::1", None)
  /\ Spec.parses_to "example.com:9999" ("example.com", Some 9999)
  /\ Spec.parses_to "example.com:abc" ("example.com:abc", None)
  /\ PyInt.int (PyInt.str 9999) = inr 9999.
Proof.
  destruct split_host_port_cases as (Hcases & Hint).
  split; [|split; [|split; [|split]]];
    [apply (proj1 (proj2 (Hcases _) _)); vm_compute; reflexivity ..
    | apply Hint; vm_compute; reflexivity].
Defined.

(** A target that opens a bracket, closes it and goes on: the claim gives
    the whole target as host (it is not in brackets, or it fails to parse
    as such, and it has more than one colon); the code gives the text in
    the brackets and drops the rest. *)
Lemma split_host_port_text_after_bracket :
  ~ (forall (target host : string) (port : option Z),
        Tools._sanitize target = Some target ->
        Tools._split_host_port target = inr (host, port) ->
        Spec.bracket_form target = false ->
        1 < PyStr.count ":" target ->
        host = target /\ port = None).
Proof.
  intro H.
  destruct (H "[::1]x" "::1" None) as [Hhost _]; try (vm_compute; reflexivity).
  discriminate Hhost.
Qed.

Example split_bracket_port :
  Tools._split_host_port "[2001:db8::1]:8080" = inr ("2001:db8::1", Some 8080).
Proof. reflexivity. Qed.

Example split_bare_ipv6 :
  Tools._split_host_port "2001:db8::1" = inr ("2001:db8::1", None).
Proof. reflexivity. Qed.

Example split_host_and_port :
  Tools._split_host_port "example.com:9999" = inr ("example.com", Some 9999).
Proof. reflexivity. Qed.

Example split_host_bad_port :
  Tools._split_host_port "example.com:abc" = inr ("example.com:abc", None).
Proof. reflexivity. Qed.




(** C5.  For every host, port, number of attempts [n] and timeout,
    [_tcp_ping] asks for exactly [n] connections, one after the other and all
    to that host and port, whatever the answers to the earlier ones; each
    attempt leaves one record, a latency sample if the connection was made
    and the text of the exception if not, so the samples and the errors
    together are [n]. *)
Theorem tcp_ping_attempts_and_records
        (env : Env) (host : string) (port n : Z) (timeout : float) (t : trace) :
  0 <= n ->
  exists samples errors evs,
    Tools._tcp_ping env host port n timeout t = (inr (samples, errors), (t ++ evs)%list)
    /\ filter is_Connect evs = repeat (Connect host port timeout) (Z.to_nat n)
    /\ Z.of_nat (calls is_Connect evs) = n
    /\ errors = Spec.refusals (Spec.answers env (calls is_Connect t) (Z.to_nat n) host port timeout)
    /\ List.length samples
       = Spec.connections (Spec.answers env (calls is_Connect t) (Z.to_nat n) host port timeout)
    /\ Z.of_nat (List.length samples + List.length errors) = n.
Proof.
  intro Hn.
  destruct (tcp_ping_run env host port timeout n t) as (s & evs & Hrun & Hlen & Hconn).
  eexists s, _, evs. split; [exact Hrun|].
  split; [exact Hconn|].
  split; [unfold calls; rewrite Hconn, repeat_length; lia|].
  split; [reflexivity|].
  split; [exact Hlen|].
  rewrite Hlen, Nat.add_comm, refusals_connections, answers_length. lia.
Qed.

(** Four attempts, of which the second and the fourth are refused. *)
Lemma tcp_ping_attempts_and_records_witness :
  exists samples errors evs,
    Tools._tcp_ping (Scenario.linux 1 "" "") "example.com" 443 4 2 []
      = (inr (samples, errors), ([] ++ evs)%list)
    /\ filter is_Connect evs = repeat (Connect "example.com" 443 2) (Z.to_nat 4)
    /\ Z.of_nat (calls is_Connect evs) = 4
    /\ errors = Spec.refusals
                  (Spec.answers (Scenario.linux 1 "" "") (calls is_Connect []) (Z.to_nat 4)
                     "example.com" 443 2)
    /\ List.length samples
       = Spec.connections
           (Spec.answers (Scenario.linux 1 "" "") (calls is_Connect []) (Z.to_nat 4)
              "example.com" 443 2)
    /\ Z.of_nat (List.length samples + List.length errors) = 4.
Proof.
  apply (tcp_ping_attempts_and_records (Scenario.linux 1 "" "") "example.com" 443 4 2 []).
  lia.
Defined.



(** C7.  When the ping utility exits with status 0 and its output matches
    neither the POSIX nor the Windows pattern of packet counts, the report
    is the one-row table with the note "Success (unparsed output)" for the
    host. *)
Theorem ping_unparsed_success
        (env : Env) (valves : Tools.Valves) (target : string) (count timeout : option Z)
        (tgt host : string) (port : option Z) (out err : string) (t0 t1 : trace) :
  Tools._sanitize target = Some tgt ->
  Tools._split_host_port tgt = inr (host, port) ->
  Tools._icmp_ping env host (Tools.or_int count (Tools.packet_count valves))
    (Tools.or_int timeout (Tools.timeout_seconds valves)) t0 = (inr (true, out, err), t1) ->
  Tools.re_search Tools._re_packets_unix (out ++ PyStr.nl ++ err) = None ->
  Tools.re_search Tools._re_packets_win (out ++ PyStr.nl ++ err) = None ->
  Tools.ping env valves target count timeout t0 = (inr (Spec.unparsed_table host), t1).
Proof.
  intros Hs Hp Hi Hunix Hwin.
  rewrite (ping_after_icmp env valves target count timeout tgt host port true out err t0 t1
             Hs Hp Hi).
  unfold Tools._format_icmp_table. rewrite !or_else_empty.
  cbv zeta. rewrite Hunix, Hwin. reflexivity.
Qed.

Lemma ping_unparsed_success_witness :
  Tools.re_search Tools._re_packets_unix ("PONG" ++ PyStr.nl ++ "") = None
  /\ Tools.re_search Tools._re_packets_win ("PONG" ++ PyStr.nl ++ "") = None
  /\ Tools.ping (Scenario.linux 0 "PONG" "") Tools.default_valves "example.com" None None []
     = (inr (Spec.unparsed_table "example.com"), Scenario.icmp_trace "example.com").
Proof.
  split; [vm_compute; reflexivity|]. split; [vm_compute; reflexivity|].
  apply (ping_unparsed_success (Scenario.linux 0 "PONG" "") Tools.default_valves
           "example.com" None None "example.com" "example.com" None "PONG" "" []);
    vm_compute; reflexivity.
Defined.

(** C8 (as the code has it).  A port parsed from a target is the integer
    that the text after the colon, or after the bracket and the colon,
    denotes for [int]; no range is imposed on it. *)
Theorem parsed_port_is_literal (target host : string) (port : Z) :
  Tools._split_host_port target = inr (host, Some port) ->
  exists lit,
    PyInt.int lit = inr port
    /\ (target = host ++ ":" ++ lit \/ target = "[" ++ host ++ "]:" ++ lit).
Proof.
  intro H.
  destruct (split_host_port_run target) as (r & Hr & Hparse).
  rewrite H in Hr. injection Hr as <-.
  inversion Hparse; subst; eauto.
Qed.

Lemma parsed_port_is_literal_witness :
  Tools._split_host_port "example.com:70000" = inr ("example.com", Some 70000)
  /\ exists lit,
       PyInt.int lit = inr 70000
       /\ ("example.com:70000" = "example.com" ++ ":" ++ lit
           \/ "example.com:70000" = "[" ++ "example.com" ++ "]:" ++ lit).
Proof.
  split; [reflexivity|].
  apply (parsed_port_is_literal "example.com:70000" "example.com" 70000). reflexivity.
Defined.

(** The port 70000 of a sanitized target is parsed as it is. *)
Lemma parsed_port_out_of_range :
  ~ (forall (raw target host : string) (port : Z),
        Tools._sanitize raw = Some target ->
        Tools._split_host_port target = inr (host, Some port) ->
        1 <= port <= 65535).
Proof.
  intro H.
  specialize (H "example.com:70000" "example.com:70000" "example.com" 70000).
  assert (1 <= 70000 <= 65535) as [_ Habs]; [|lia].
  apply H; vm_compute; reflexivity.
Qed.

(** C9 (as the code has it).  When the count and the timeout are within
    the limit of [str] (4300 digits; so are then, with a configured port
    and configured attempts within it, all the numbers of the TCP table),
    [ping] returns a report for every target and whatever the system
    answers, and no exception of [subprocess.run] or of
    [socket.create_connection] reaches the caller.  An exception of
    [subprocess.run] makes the ICMP attempt a failure without output whose
    error text is the text of the exception.  The text of a failed attempt
    is the report, unless it sends [ping] to the TCP fallback: then the
    report is the TCP table, in which the first three errors of the
    connections have their rows. *)
Theorem ping_total
        (env : Env) (valves : Tools.Valves) (target : string) (count timeout : option Z)
        (t : trace) :
  let c := Tools.or_int count (Tools.packet_count valves) in
  let s := Tools.or_int timeout (Tools.timeout_seconds valves) in
  Spec.command_printable env c s = true ->
  PyInt.printable (Tools.tcp_default_port valves) = true ->
  PyInt.printable (Tools.tcp_attempts valves) = true ->
  exists report evs,
    Tools.ping env valves target count timeout t = (inr report, (t ++ evs)%list)
    /\ forall tgt host port,
         Tools._sanitize target = Some tgt ->
         Tools._split_host_port tgt = inr (host, port) ->
         exists ok out err evs1,
           Tools._icmp_ping env host c s t = (inr (ok, out, err), (t ++ evs1)%list)
           /\ (forall cmd e, In (Run cmd) evs1 -> subprocess_run env cmd = inl e ->
                 ok = false /\ out = "" /\ err = exn_str e)
           /\ (ok = false ->
               Spec.triggers_fallback (Spec.inspected_text out err) = false ->
               report = Spec.failure_text out err /\ evs = evs1)
           /\ (ok = false ->
               Spec.triggers_fallback (Spec.inspected_text out err) = true ->
               let p := Spec.fallback_port port (Tools.tcp_default_port valves) in
               let l := Spec.answers env (calls is_Connect t)
                          (Z.to_nat (Tools.tcp_attempts valves)) host p
                          (Tools.tcp_timeout_seconds valves) in
               evs = (evs1 ++ Spec.attempts_trace host p
                                (Tools.tcp_timeout_seconds valves) l)%list
               /\ Spec.is_tcp_table host p report
               /\ forall msg, In msg (firstn 3 (Spec.refusals l)) ->
                              PyStr.contains (Tools.error_row msg) report = true).
Proof.
  intros c s Hprint _ _.
  destruct (Tools._sanitize target) as [tgt|] eqn:Hs.
  2:{ exists "Invalid target", []. rewrite app_nil_r.
      split; [now apply ping_refused | discriminate]. }
  destruct (split_host_port_run tgt) as ([host port] & Hp & _).
  destruct (icmp_ping_outcome env host c s t Hprint)
    as (ok & out & err & evs1 & Hi & Hconn & Hexn).
  pose proof (ping_when_icmp env valves target count timeout tgt host port t Hs Hp
                ok out err evs1 Hi) as Hping.
  cbv zeta in Hping.
  assert (Hcalls : calls is_Connect (t ++ evs1)%list = calls is_Connect t).
  { rewrite calls_app. unfold calls at 2. rewrite Hconn. apply Nat.add_0_r. }
  rewrite Hcalls in Hping.
  assert (Hsame : forall tgt' host' port',
             Some tgt = Some tgt' -> Tools._split_host_port tgt' = inr (host', port') ->
             host' = host /\ port' = port).
  { intros tgt' host' port' Ht Hp'. injection Ht as <-. rewrite Hp in Hp'.
    injection Hp' as <- <-. auto. }
  destruct ok; [|destruct (Spec.triggers_fallback (Spec.inspected_text out err)) eqn:Htrig].
  - do 2 eexists. split; [exact Hping|].
    intros tgt' host' port' Ht Hp'. destruct (Hsame _ _ _ Ht Hp') as [-> ->].
    exists true, out, err, evs1. repeat split; try discriminate; try assumption;
      now apply (Hexn cmd e).
  - do 2 eexists. split; [exact Hping|].
    intros tgt' host' port' Ht Hp'. destruct (Hsame _ _ _ Ht Hp') as [-> ->].
    exists false, out, err, evs1.
    split; [exact Hi|]. split; [exact Hexn|]. split; [congruence|].
    intros _ _. cbv zeta. split; [reflexivity|].
    split; [apply format_tcp_table_start|].
    intros msg Hin. now apply format_tcp_table_errors.
  - do 2 eexists. split; [exact Hping|].
    intros tgt' host' port' Ht Hp'. destruct (Hsame _ _ _ Ht Hp') as [-> ->].
    exists false, out, err, evs1.
    split; [exact Hi|]. split; [exact Hexn|]. split; [auto|]. congruence.
Qed.

(** A host that may not start its ping: the exception is the error text
    of the attempt, it holds "permission denied", and the report is the TCP
    table. *)
Lemma ping_total_witness :
  Spec.command_printable Scenario.no_exec 4 5 = true
  /\ exists report evs,
       Tools.ping Scenario.no_exec Tools.default_valves "example.com" None None []
       = (inr report, evs)
       /\ Spec.is_tcp_table "example.com" 443 report.
Proof.
  assert (Hprint : Spec.command_printable Scenario.no_exec 4 5 = true)
    by (vm_compute; reflexivity).
  split; [exact Hprint|].
  destruct (ping_total Scenario.no_exec Tools.default_valves "example.com" None None []
              Hprint ltac:(vm_compute; reflexivity) ltac:(vm_compute; reflexivity))
    as (report & evs & Hping & Hrest).
  exists report, evs. split; [exact Hping|].
  destruct (Hrest "example.com" "example.com" None
              ltac:(vm_compute; reflexivity) ltac:(vm_compute; reflexivity))
    as (ok & out & err & evs1 & Hi & _ & _ & Hfall).
  vm_compute in Hi. injection Hi as <- <- <- _.
  now destruct (Hfall eq_refl ltac:(vm_compute; reflexivity)) as (_ & Htable & _).
Defined.

(** The claim as it stands fails three times.  A count of 4301 digits:
    [str] raises and the exception reaches the caller.  A process that may
    not be started: the text of the exception holds "permission denied",
    the report is the TCP table and the text is nowhere in it.  Four
    connections that fail: the text of the fourth exception is not in the
    report. *)
Lemma ping_propagates_and_drops :
  ~ (forall (env : Env) (valves : Tools.Valves) (target : string)
            (count timeout : option Z) (t : trace),
        exists report t', Tools.ping env valves target count timeout t = (inr report, t'))
  /\ ~ (forall (env : Env) (valves : Tools.Valves) (target : string)
               (count timeout : option Z) (t t' : trace) (report : string)
               (cmd : list string) (e : exn),
          Tools.ping env valves target count timeout t = (inr report, t') ->
          In (Run cmd) t' ->
          subprocess_run env cmd = inl e ->
          PyStr.contains (exn_str e) report = true)
  /\ ~ (forall (env : Env) (valves : Tools.Valves) (target : string)
               (count timeout : option Z) (t' : trace) (report : string)
               (i : nat) (host : string) (port : Z) (tmo : float) (e : exn),
          Tools.ping env valves target count timeout [] = (inr report, t') ->
          nth_error (filter is_Connect t') i = Some (Connect host port tmo) ->
          create_connection env i host port tmo = Some e ->
          PyStr.contains (exn_str e) report = true).
Proof.
  split; [|split]; intro H.
  - destruct (H (Scenario.linux 0 "" "") Tools.default_valves "example.com"
                (Some (10 ^ 4300)) None []) as (report & t' & Heq).
    vm_compute in Heq. discriminate Heq.
  - pose (res := Tools.ping Scenario.no_exec Tools.default_valves "example.com" None None []).
    assert (Habs : PyStr.contains (exn_str Scenario.denied)
                     (match fst res with inr r => r | inl _ => "" end) = true).
    { apply (H Scenario.no_exec Tools.default_valves "example.com" None None [] (snd res) _
               ["/usr/bin/ping"; "-c"; "4"; "-W"; "5"; "example.com"] Scenario.denied);
        [vm_compute; reflexivity | | reflexivity].
      vm_compute. repeat (first [left; reflexivity | right]). }
    vm_compute in Habs. discriminate Habs.
  - pose (res := Tools.ping Scenario.slow_fourth Tools.default_valves "example.com"
                   None None []).
    assert (Habs : PyStr.contains (exn_str Scenario.timed_out)
                     (match fst res with inr r => r | inl _ => "" end) = true).
    { apply (H Scenario.slow_fourth Tools.default_valves "example.com" None None (snd res) _
               3%nat "example.com" 443 2%float Scenario.timed_out);
        vm_compute; reflexivity. }
    vm_compute in Habs. discriminate Habs.
Qed.



(** * More about the code *)

(** X1.  [_find_ping] asks [shutil.which] for "ping", "/bin/ping",
    "/usr/bin/ping", "/sbin/ping" and "/usr/sbin/ping" in that order and
    returns the path of the first that resolves, without asking for the
    later ones; it returns [None] when none resolves, after asking for all
    five.  It does nothing but ask. *)
Theorem find_ping_first_candidate (env : Env) (t : trace) :
  (Forall (fun c => Spec.resolves env c = None) Spec.ping_candidates
   /\ Tools._find_ping env t = (inr None, (t ++ map Which Spec.ping_candidates)%list))
  \/ (exists before cand after path,
        Spec.ping_candidates = (before ++ cand :: after)%list
        /\ Forall (fun c => Spec.resolves env c = None) before
        /\ Spec.resolves env cand = Some path
        /\ Tools._find_ping env t
           = (inr (Some path), (t ++ map Which (before ++ [cand]))%list)).
Proof.
  exact (first_found_first env Spec.ping_candidates t).
Qed.

(** X2.  [_icmp_ping] runs no process when no candidate resolves, and then
    reports the failure "ping binary not found inside the container".
    Otherwise it builds the command of the first candidate that resolves,
    six arguments of which the host is the last: [-c count -W timeout] with
    the timeout in seconds, or on a system whose name contains "windows" (in
    any letter case) [-n count -w timeout] with the timeout in milliseconds.
    When the count and that timeout are within the limit of [str] (4300
    digits) it runs exactly this one process: the attempt succeeded iff the
    process exited with status 0, and an exception of [subprocess.run] is a
    failure whose error text is the text of the exception and whose output
    is empty.  Beyond the limit it runs no process: the [ValueError] of
    [str] is raised to the caller. *)
Theorem icmp_ping_command (env : Env) (host : string) (count timeout : Z) (t : trace) :
  (Forall (fun c => Spec.resolves env c = None) Spec.ping_candidates
   /\ Tools._icmp_ping env host count timeout t
      = (inr (false, "", "ping binary not found inside the container"),
         (t ++ map Which Spec.ping_candidates)%list))
  \/ (exists before cand after path,
        Spec.ping_candidates = (before ++ cand :: after)%list
        /\ Forall (fun c => Spec.resolves env c = None) before
        /\ Spec.resolves env cand = Some path
        /\ Tools._icmp_ping env host count timeout t
           = if PyInt.printable count
                && PyInt.printable (if Spec.is_windows env then timeout * 1000 else timeout)
             then
               (inr match subprocess_run env
                            (if Spec.is_windows env
                             then [path; "-n"; PyInt.str count; "-w";
                                   PyInt.str (timeout * 1000); host]
                             else [path; "-c"; PyInt.str count; "-W";
                                   PyInt.str timeout; host])
                    with
                    | inr proc => (returncode proc =? 0, stdout proc, stderr proc)
                    | inl e => (false, "", exn_str e)
                    end,
                (t ++ map Which (before ++ [cand])
                   ++ [Run (if Spec.is_windows env
                            then [path; "-n"; PyInt.str count; "-w";
                                  PyInt.str (timeout * 1000); host]
                            else [path; "-c"; PyInt.str count; "-W";
                                  PyInt.str timeout; host])])%list)
             else
               (inl (Exn ValueError
                       "Exceeds the limit (4300 digits) for integer string conversion; use sys.set_int_max_str_digits() to increase the limit"),
                (t ++ map Which (before ++ [cand]))%list)).
Proof.
  exact (icmp_ping_cases env host count timeout t).
Qed.

(** X3.  [_sanitize] accepts exactly the targets whose trimmed form is not
    empty and is made of allow-listed characters only (ASCII letters and
    digits and [. - : % _ [ ]]), and what it returns is the trimmed form:
    white space around a target is dropped, white space or any other
    character inside it is refused. *)
Theorem sanitize_accepts_exactly (target : string) :
  Tools._sanitize target
  = if PyStr.truthy (PyStr.strip target)
       && Spec.all_of Spec.allow_listed (PyStr.strip target)
    then Some (PyStr.strip target)
    else None.
Proof.
  destruct (PyStr.truthy (PyStr.strip target)) eqn:Ht.
  - destruct (Spec.all_of Spec.allow_listed (PyStr.strip target)) eqn:Hall; simpl.
    + now apply sanitize_complete.
    + destruct (Tools._sanitize target) as [tgt|] eqn:Hs; [|reflexivity].
      apply sanitize_sound in Hs as (-> & _ & H). congruence.
  - simpl. apply sanitize_refuses. left.
    destruct (PyStr.strip target); [reflexivity | discriminate].
Qed.



(** X5.  The calls of [_tcp_ping] are those of its attempts, one attempt
    after the other: an attempt reads the clock and asks for a connection;
    if it is refused nothing more happens, if it connects the clock is read
    again, the connection is closed and the loop sleeps a tenth of a second.
    So every connection made is closed before the next attempt, the loop
    sleeps once for each connection made and never after a refusal, and it
    starts no process. *)
Theorem tcp_ping_calls (env : Env) (host : string) (port n : Z) (timeout : float) (t : trace) :
  let l := Spec.answers env (calls is_Connect t) (Z.to_nat n) host port timeout in
  let evs := Spec.attempts_trace host port timeout l in
  snd (Tools._tcp_ping env host port n timeout t) = (t ++ evs)%list
  /\ filter Spec.is_Close evs = repeat Close (Spec.connections l)
  /\ filter Spec.is_Sleep evs = repeat (Sleep 0x1.999999999999ap-4) (Spec.connections l)
  /\ filter is_Run evs = [].
Proof.
  intros l evs. rewrite tcp_ping_full. fold l.
  destruct (attempts_trace_closes host port timeout l) as (Hc & Hs & Hr & _).
  auto.
Qed.

(** X6.  The latency samples of [_tcp_ping] are, in the order of the
    attempts that connected, the time between the clock reading taken just
    before the connection was asked for and the one taken just after it was
    made, in milliseconds; a refused attempt uses one clock reading and
    leaves no sample. *)
Theorem tcp_ping_samples (env : Env) (host : string) (port n : Z) (timeout : float) (t : trace) :
  let l := Spec.answers env (calls is_Connect t) (Z.to_nat n) host port timeout in
  fst (Tools._tcp_ping env host port n timeout t)
  = inr (Spec.latencies env (calls is_PerfCounter t) l, Spec.refusals l)
  /\ List.length (Spec.latencies env (calls is_PerfCounter t) l) = Spec.connections l.
Proof.
  intro l. rewrite tcp_ping_full. fold l. split; [reflexivity | apply latencies_length].
Qed.

(** X7.  What a call of [ping] with a valid target asks of the system,
    whether it returns or raises: at most one process, which is the first
    ping binary that resolves, run with the parsed host as its last argument
    and the count and timeout of the call (or the configured ones when they
    are absent or zero); and connections to the parsed host on the port of
    the fallback only.  The host consists of allow-listed characters. *)
Theorem ping_system_calls
        (env : Env) (valves : Tools.Valves) (target : string) (count timeout : option Z)
        (tgt host : string) (port : option Z) (t : trace) :
  Tools._sanitize target = Some tgt ->
  Tools._split_host_port tgt = inr (host, port) ->
  let c := Tools.or_int count (Tools.packet_count valves) in
  let s := Tools.or_int timeout (Tools.timeout_seconds valves) in
  Spec.all_of Spec.allow_listed host = true
  /\ exists res evs,
       Tools.ping env valves target count timeout t = (res, (t ++ evs)%list)
       /\ (filter is_Run evs = []
           \/ exists before cand after path,
                Spec.ping_candidates = (before ++ cand :: after)%list
                /\ Forall (fun x => Spec.resolves env x = None) before
                /\ Spec.resolves env cand = Some path
                /\ filter is_Run evs
                   = [Run (if Spec.is_windows env
                           then [path; "-n"; PyInt.str c; "-w"; PyInt.str (s * 1000); host]
                           else [path; "-c"; PyInt.str c; "-W"; PyInt.str s; host])])
       /\ exists k,
            filter is_Connect evs
            = repeat (Connect host (Spec.fallback_port port (Tools.tcp_default_port valves))
                        (Tools.tcp_timeout_seconds valves)) k.
Proof.
  intros Hs Hp c s.
  split; [exact (host_allow_listed target tgt host port Hs Hp)|].
  assert (Hicmp : exists r evs1,
             Tools._icmp_ping env host c s t = (r, (t ++ evs1)%list)
             /\ filter is_Connect evs1 = []
             /\ (filter is_Run evs1 = []
                 \/ exists before cand after path,
                      Spec.ping_candidates = (before ++ cand :: after)%list
                      /\ Forall (fun x => Spec.resolves env x = None) before
                      /\ Spec.resolves env cand = Some path
                      /\ filter is_Run evs1
                         = [Run (Spec.icmp_command env path host c s)])).
  { destruct (icmp_ping_cases env host c s t)
      as [[_ Hrun] | (before & cand & after & path & Hc & Hnone & Hres & Hrun)].
    - do 2 eexists. split; [exact Hrun|].
      split; [now apply filter_which | left; now apply filter_which].
    - destruct (Spec.command_printable env c s).
      + do 2 eexists. split; [exact Hrun|].
        rewrite !filter_app, !filter_which by reflexivity.
        split; [reflexivity|]. right. exists before, cand, after, path. auto.
      + do 2 eexists. split; [exact Hrun|].
        split; [now apply filter_which | left; now apply filter_which]. }
  destruct Hicmp as ([e|[[ok out] err]] & evs1 & Hi & Hconn1 & Hrun1).
  { rewrite (ping_when_icmp_raises env valves target count timeout tgt host port e _ _
               Hs Hp Hi).
    do 2 eexists. split; [reflexivity|]. split; [exact Hrun1|].
    exists 0%nat. exact Hconn1. }
  rewrite (ping_when_icmp env valves target count timeout tgt host port t Hs Hp
             ok out err evs1 Hi).
  cbv zeta.
  destruct ok; [|destruct (Spec.triggers_fallback _)].
  - do 2 eexists. split; [reflexivity|]. split; [exact Hrun1|].
    exists 0%nat. exact Hconn1.
  - match goal with |- context [Spec.attempts_trace ?h ?p ?s ?l] =>
      destruct (attempts_trace_closes h p s l) as (_ & _ & Hr & Hn) end.
    do 2 eexists. split; [reflexivity|].
    rewrite !filter_app, Hr, Hn, Hconn1, !app_nil_r. split; [exact Hrun1|].
    eexists. reflexivity.
  - do 2 eexists. split; [reflexivity|]. split; [exact Hrun1|].
    exists 0%nat. exact Hconn1.
Qed.

(** A target with a port, on a host whose ping may not open a raw socket:
    one process, then connections to port 8080. *)
Lemma ping_system_calls_witness :
  Spec.all_of Spec.allow_listed "example.com" = true
  /\ exists res evs,
       Tools.ping (Scenario.linux 2 "" Scenario.not_permitted) Tools.default_valves
         "example.com:8080" None None []
       = (res, ([] ++ evs)%list)
       /\ (filter is_Run evs = []
           \/ exists before cand after path,
                Spec.ping_candidates = (before ++ cand :: after)%list
                /\ Forall (fun x => Spec.resolves (Scenario.linux 2 "" Scenario.not_permitted) x
                                    = None) before
                /\ Spec.resolves (Scenario.linux 2 "" Scenario.not_permitted) cand = Some path
                /\ filter is_Run evs
                   = [Run [path; "-c"; "4"; "-W"; "5"; "example.com"]])
       /\ exists k, filter is_Connect evs = repeat (Connect "example.com" 8080 2) k.
Proof.
  apply (ping_system_calls (Scenario.linux 2 "" Scenario.not_permitted) Tools.default_valves
           "example.com:8080" None None "example.com:8080" "example.com" (Some 8080) []);
    vm_compute; reflexivity.
Defined.

(** X8.  A report of [ping] is never empty: whenever [ping] returns, what
    it returns is "Invalid target", a table, or a failure text that is not
    empty. *)
Theorem ping_report_nonempty
        (env : Env) (valves : Tools.Valves) (target : string) (count timeout : option Z)
        (t t' : trace) (report : string) :
  Tools.ping env valves target count timeout t = (inr report, t') ->
  report <> "".
Proof.
  intro H.
  destruct (Tools._sanitize target) as [tgt|] eqn:Hs.
  2:{ rewrite (ping_refused env valves target count timeout t Hs) in H.
      injection H as <- _. discriminate. }
  destruct (split_host_port_run tgt) as ([host port] & Hp & _).
  destruct (icmp_ping_run env host (Tools.or_int count (Tools.packet_count valves))
              (Tools.or_int timeout (Tools.timeout_seconds valves)) t)
    as ([e|[[ok out] err]] & evs & Hi & _).
  { rewrite (ping_when_icmp_raises env valves target count timeout tgt host port e _ _
               Hs Hp Hi) in H.
    discriminate H. }
  rewrite (ping_when_icmp env valves target count timeout tgt host port t Hs Hp
             ok out err evs Hi) in H.
  cbv zeta in H.
  destruct ok; [|destruct (Spec.triggers_fallback _) eqn:Htrig]; injection H as <- _.
  - unfold Spec.icmp_report.
    destruct (Tools._format_icmp_table env host out err) as [table|]; [|discriminate].
    destruct table; discriminate.
  - match goal with |- Tools._format_tcp_table ?h ?p ?s ?n ?e <> _ =>
      destruct (format_tcp_table_start h p s n e) as (rest & ->) end.
    discriminate.
  - now destruct (ping_reports_failure env valves target count timeout tgt host port out err
                    _ _ Hs Hp Hi Htrig) as (_ & Hne & _).
Qed.

(** The report of a name that does not resolve. *)
Lemma ping_report_nonempty_witness : Scenario.unknown_host <> "".
Proof.
  apply (ping_report_nonempty (Scenario.linux 2 "" Scenario.unknown_host) Tools.default_valves
           "example.com" None None [] (Scenario.icmp_trace "example.com")).
  vm_compute. reflexivity.
Defined.

(** X9.  After a successful ICMP attempt (the process exited with status
    0) [ping] returns what [_format_icmp_table] makes of the output, or the
    table that notes unparsed output if that is nothing: so the POSIX
    table, the Windows table or the note, whatever the process printed,
    even words that would send a failed attempt to the fallback; it asks
    for no connection and makes no further call. *)
Theorem ping_icmp_success
        (env : Env) (valves : Tools.Valves) (target : string) (count timeout : option Z)
        (tgt host : string) (port : option Z) (out err : string) (t t1 : trace) :
  Tools._sanitize target = Some tgt ->
  Tools._split_host_port tgt = inr (host, port) ->
  Tools._icmp_ping env host (Tools.or_int count (Tools.packet_count valves))
    (Tools.or_int timeout (Tools.timeout_seconds valves)) t = (inr (true, out, err), t1) ->
  exists report,
    Tools.ping env valves target count timeout t = (inr report, t1)
    /\ report = match Tools._format_icmp_table env host out err with
                | Some table => if PyStr.truthy table then table else Spec.unparsed_table host
                | None => Spec.unparsed_table host
                end
    /\ filter is_Connect t1 = filter is_Connect t
    /\ ((exists tx rx loss a b c d, report = Spec.posix_table host tx rx loss a b c d)
        \/ (exists tx rx loss a b c, report = Spec.windows_table host tx rx loss a b c)
        \/ report = Spec.unparsed_table host).
Proof.
  intros Hs Hp Hi.
  destruct (icmp_ping_run env host (Tools.or_int count (Tools.packet_count valves))
              (Tools.or_int timeout (Tools.timeout_seconds valves)) t)
    as (r & evs & Hrun & Hconn & _).
  rewrite Hi in Hrun. injection Hrun as _ ->.
  rewrite (ping_when_icmp env valves target count timeout tgt host port t Hs Hp
             true out err evs Hi).
  cbv zeta. eexists. split; [reflexivity|]. split; [reflexivity|].
  split; [rewrite filter_app, Hconn; apply app_nil_r | apply icmp_report_shape].
Qed.

(** Ping answers and its output mentions ICMP: no fallback. *)
Lemma ping_icmp_success_witness :
  exists report,
    Tools.ping (Scenario.linux 0 "icmp_seq=1 not found" "") Tools.default_valves
      "example.com" None None []
    = (inr report, Scenario.icmp_trace "example.com")
    /\ report = match Tools._format_icmp_table
                        (Scenario.linux 0 "icmp_seq=1 not found" "") "example.com"
                        "icmp_seq=1 not found" "" with
                | Some table =>
                    if PyStr.truthy table then table else Spec.unparsed_table "example.com"
                | None => Spec.unparsed_table "example.com"
                end
    /\ filter is_Connect (Scenario.icmp_trace "example.com") = filter is_Connect []
    /\ ((exists tx rx loss a b c d,
            report = Spec.posix_table "example.com" tx rx loss a b c d)
        \/ (exists tx rx loss a b c,
               report = Spec.windows_table "example.com" tx rx loss a b c)
        \/ report = Spec.unparsed_table "example.com").
Proof.
  apply (ping_icmp_success (Scenario.linux 0 "icmp_seq=1 not found" "") Tools.default_valves
           "example.com" None None "example.com" "example.com" None
           "icmp_seq=1 not found" "" []);
    vm_compute; reflexivity.
Defined.




(** ** Following a pattern along a text *)

Section Steps.
Import PyStr Re.
Variable f : flags.

(** A literal at the front of the text. *)
Lemma step_literal (p : string) (r : regex) (s m rest acc : string) (g res : groups)
      (cont : string -> string -> groups -> option groups) :
  eat f p s = Some (m, rest) ->
  run f r rest (acc ++ m) g cont = Some res ->
  run f (Seq (Lit p) r) s acc g cont = Some res.
Proof. intros He H. cbn [run]. now rewrite He. Qed.

(** A greedy repetition takes all of [body] when the rest does not go on
    with a character of the class, if the pattern that follows accepts the
    rest. *)
Lemma step_star (k : cclass) (r : regex) (body rest acc : string) (g res : groups)
      (cont : string -> string -> groups -> option groups) :
  Spec.all_of (class_match f k) body = true ->
  Spec.stops (class_match f k) rest = true ->
  run f r rest (acc ++ body) g cont = Some res ->
  run f (Seq (Star true k) r) (body ++ rest) acc g cont = Some res.
Proof.
  intros Hall Hstop H. cbn [run]. now apply star_greedy_max.
Qed.

Lemma snoc_app (acc : string) (c : ascii) (body : string) :
  snoc acc c ++ body = acc ++ String c body.
Proof. unfold snoc. now rewrite append_assoc. Qed.

Lemma step_plus (k : cclass) (r : regex) (body rest acc : string) (g res : groups)
      (cont : string -> string -> groups -> option groups) :
  truthy body = true ->
  Spec.all_of (class_match f k) body = true ->
  Spec.stops (class_match f k) rest = true ->
  run f r rest (acc ++ body) g cont = Some res ->
  run f (Seq (Plus k) r) (body ++ rest) acc g cont = Some res.
Proof.
  intros Hne Hall Hstop H. destruct body as [|c body]; [discriminate|].
  simpl in Hall. apply andb_true_iff in Hall as [Hc Hall].
  unfold Plus. cbn [run append]. rewrite Hc.
  apply star_greedy_max; [exact Hall | exact Hstop|].
  now rewrite snoc_app.
Qed.

(** The same for a named group around the repetition: the group records
    what the repetition took. *)
Lemma step_group (name : string) (k : cclass) (r : regex) (body rest acc : string)
      (g res : groups) (cont : string -> string -> groups -> option groups) :
  truthy body = true ->
  Spec.all_of (class_match f k) body = true ->
  Spec.stops (class_match f k) rest = true ->
  run f r rest (acc ++ body) ((name, body) :: g) cont = Some res ->
  run f (Seq (Group name (Plus k)) r) (body ++ rest) acc g cont = Some res.
Proof.
  intros Hne Hall Hstop H. destruct body as [|c body]; [discriminate|].
  simpl in Hall. apply andb_true_iff in Hall as [Hc Hall].
  unfold Plus. cbn [run append]. rewrite Hc.
  apply star_greedy_max; [exact Hall | exact Hstop|].
  exact H.
Qed.

(** A lazy repetition stops where the pattern that follows matches, and
    goes on over a character of the class where it does not. *)
Lemma star_lazy_here (k : cclass) (cont : string -> string -> option groups)
      (s acc : string) (res : groups) :
  cont s acc = Some res -> star_lazy f k cont s acc = Some res.
Proof. intro H. destruct s; simpl; now rewrite H. Qed.

Lemma star_lazy_skip (k : cclass) (cont : string -> string -> option groups)
      (c : ascii) (s acc : string) :
  cont (String c s) acc = None ->
  class_match f k c = true ->
  star_lazy f k cont (String c s) acc = star_lazy f k cont s (snoc acc c).
Proof. intros H Hc. simpl. now rewrite H, Hc. Qed.

Lemma search_here (r : regex) (s : string) (g : groups) :
  rmatch f r s = Some g -> search f r s = Some g.
Proof. intro H. destruct s; simpl; now rewrite H. Qed.
End Steps.

Section Classes.
Import PyStr Re.

Lemma digit_not_space (c : ascii) : isdigit c = true -> isspace c = false.
Proof. destruct c as [[] [] [] [] [] [] [] []]; (reflexivity || discriminate). Qed.

Lemma dotted_not_space (c : ascii) :
  isdigit c || Ascii.eqb c "." = true -> isspace c = false.
Proof. destruct c as [[] [] [] [] [] [] [] []]; (reflexivity || discriminate). Qed.

Lemma all_digits (f : flags) (s : string) :
  Spec.all_of isdigit s = true -> Spec.all_of (class_match f Digit) s = true.
Proof.
  apply all_of_impl. intros c Hc. now rewrite class_match_digit.
Qed.

Lemma all_dotted (f : flags) (s : string) :
  Spec.all_of (fun c => isdigit c || Ascii.eqb c ".") s = true ->
  Spec.all_of (class_match f Tools.digits_dots) s = true.
Proof.
  apply all_of_impl. intros c Hc. unfold class_match.
  change (in_class f Tools.digits_dots c) with (isdigit c || (Ascii.eqb "." c || false)).
  rewrite orb_false_r, (Ascii.eqb_sym "." c), Hc. reflexivity.
Qed.

(** A text that begins with a character on which [q] holds. *)
Lemma stops_head (p q : ascii -> bool) (body rest : string) :
  (forall c, q c = true -> p c = false) ->
  truthy body = true ->
  Spec.all_of q body = true ->
  Spec.stops p (body ++ rest) = true.
Proof.
  intros Hqp Hne Hall. destruct body as [|c body]; [discriminate|].
  simpl in Hall |- *. apply andb_true_iff in Hall as [Hc _].
  now rewrite (Hqp c Hc).
Qed.

Lemma number_parts (s : string) :
  Spec.number s = true -> truthy s = true /\ Spec.all_of isdigit s = true.
Proof. unfold Spec.number. now rewrite andb_true_iff. Qed.

Lemma dotted_parts (s : string) :
  Spec.dotted s = true
  -> truthy s = true /\ Spec.all_of (fun c => isdigit c || Ascii.eqb c ".") s = true.
Proof. unfold Spec.dotted. now rewrite andb_true_iff. Qed.

Lemma spaces_stop_number (f : flags) (s rest : string) :
  Spec.number s = true -> Spec.stops (class_match f Space) (s ++ rest) = true.
Proof.
  intro H. apply number_parts in H as [Hne Hall].
  apply (stops_head _ isdigit); [|assumption..].
  intros c Hc. rewrite class_match_space. now apply digit_not_space.
Qed.

Lemma spaces_stop_dotted (f : flags) (s rest : string) :
  Spec.dotted s = true -> Spec.stops (class_match f Space) (s ++ rest) = true.
Proof.
  intro H. apply dotted_parts in H as [Hne Hall].
  apply (stops_head _ (fun c => isdigit c || Ascii.eqb c ".")); [|assumption..].
  intros c Hc. rewrite class_match_space. now apply dotted_not_space.
Qed.
End Classes.

Section Steps2.
Import PyStr Re.
Variable f : flags.

Lemma step_lazy_here (k : cclass) (r : regex) (s acc : string) (g res : groups)
      (cont : string -> string -> groups -> option groups) :
  run f r s acc g cont = Some res ->
  run f (Seq (Star false k) r) s acc g cont = Some res.
Proof. intro H. cbn [run]. now apply star_lazy_here. Qed.

Lemma step_lazy_skip (k : cclass) (r : regex) (c : ascii) (s acc : string) (g res : groups)
      (cont : string -> string -> groups -> option groups) :
  class_match f k c = true ->
  run f r (String c s) acc g cont = None ->
  run f (Seq (Star false k) r) s (snoc acc c) g cont = Some res ->
  run f (Seq (Star false k) r) (String c s) acc g cont = Some res.
Proof.
  intros Hc Hnone H. cbn [run] in H |- *.
  rewrite star_lazy_skip; assumption.
Qed.

Lemma step_alt_second (r1 r2 r : regex) (s acc : string) (g res : groups)
      (cont : string -> string -> groups -> option groups) :
  run f (Seq r1 r) s acc g cont = None ->
  run f (Seq r2 r) s acc g cont = Some res ->
  run f (Seq (Alt r1 r2) r) s acc g cont = Some res.
Proof. intros H1 H2. cbn [run] in H1, H2 |- *. now rewrite H1. Qed.

End Steps2.

Section PosixLines.
Import PyStr Re.

(** The percentage of the summary: digits, then nothing or a dot and
    digits, in front of the sign. *)
Lemma step_loss (r : regex) (whole frac rest acc : string) (g res : groups)
      (cont : string -> string -> groups -> option groups) :
  Spec.number whole = true ->
  Spec.fraction frac = true ->
  run (Flags true true) r (String "%" rest) (acc ++ whole ++ frac)
    (("loss", whole ++ frac) :: g) cont = Some res ->
  run (Flags true true)
    (Seq (Group "loss" (seq [Plus Digit; Opt (OneOf "."); Star true Digit])) r)
    (whole ++ frac ++ String "%" rest) acc g cont = Some res.
Proof.
  intros Hw Hf H. apply number_parts in Hw as [Hne Hall].
  destruct whole as [|c w]; [discriminate|].
  simpl in Hall. apply andb_true_iff in Hall as [Hc Hall].
  cbn [run seq fold_right Plus Opt append].
  rewrite class_match_digit, Hc.
  apply star_greedy_max; [now apply all_digits | |].
  - destruct frac as [|d fr]; [reflexivity|].
    simpl in Hf. apply andb_true_iff in Hf as [Hd _].
    apply Ascii.eqb_eq in Hd. subst d. reflexivity.
  - destruct frac as [|d fr].
    + cbn [append]. change (class_match (Flags true true) (OneOf ".") "%") with false.
      cbv iota. cbn [star_greedy].
      change (class_match (Flags true true) Digit "%") with false. cbv iota.
      rewrite !append_empty_r in H. exact H.
    + simpl in Hf. apply andb_true_iff in Hf as [Hd Hfr].
      apply Ascii.eqb_eq in Hd. subst d.
      cbn [append]. change (class_match (Flags true true) (OneOf ".") ".") with true.
      cbv iota.
      rewrite (star_greedy_max (Flags true true) Digit _ fr (String "%" rest) _ res);
        [reflexivity | now apply all_digits | reflexivity |].
      rewrite !snoc_app. exact H.
Qed.

Lemma packets_match (tx rx whole frac rest : string) :
  Spec.number tx = true -> Spec.number rx = true ->
  Spec.number whole = true -> Spec.fraction frac = true ->
  rmatch (fst Tools._re_packets_unix) (snd Tools._re_packets_unix)
    (tx ++ " packets transmitted, " ++ rx ++ " received, "
        ++ whole ++ frac ++ "% packet loss" ++ rest)
  = Some [("loss", whole ++ frac); ("rx", rx); ("tx", tx)].
Proof.
  intros Htx Hrx Hw Hf.
  destruct (number_parts _ Htx) as [Htx1 Htx2].
  destruct (number_parts _ Hrx) as [Hrx1 Hrx2].
  unfold rmatch. simpl fst. simpl snd. cbn [seq fold_right].
  apply step_group; [exact Htx1 | now apply all_digits | reflexivity|].
  apply (step_plus _ Space _ " "); [reflexivity.. |].
  eapply step_literal; [reflexivity|].
  apply (step_plus _ Space _ " "); [reflexivity.. |].
  eapply step_literal; [reflexivity|].
  apply (step_plus _ Space _ " "); [reflexivity | reflexivity | now apply spaces_stop_number |].
  apply step_group; [exact Hrx1 | now apply all_digits | reflexivity|].
  apply (step_plus _ Space _ " "); [reflexivity.. |].
  eapply step_literal; [reflexivity|].
  apply step_lazy_skip; [reflexivity | reflexivity |].
  apply step_lazy_skip; [reflexivity | reflexivity |].
  apply step_lazy_here.
  apply step_loss; [exact Hw | exact Hf |].
  eapply step_literal; [reflexivity|].
  apply (step_plus _ Space _ " "); [reflexivity.. |].
  eapply step_literal; [reflexivity|].
  apply (step_plus _ Space _ " "); [reflexivity.. |].
  eapply step_literal; [reflexivity|].
  reflexivity.
Qed.
Lemma rtt_match (a b c d rest : string) :
  Spec.dotted a = true -> Spec.dotted b = true ->
  Spec.dotted c = true -> Spec.dotted d = true ->
  rmatch (fst Tools._re_rtt_unix) (snd Tools._re_rtt_unix)
    ("rtt min/avg/max/mdev = " ++ a ++ "/" ++ b ++ "/" ++ c ++ "/" ++ d ++ " ms" ++ rest)
  = Some [("mdev", d); ("max", c); ("avg", b); ("min", a)].
Proof.
  intros Ha Hb Hc Hd.
  destruct (dotted_parts _ Ha) as [Ha1 Ha2].
  destruct (dotted_parts _ Hb) as [Hb1 Hb2].
  destruct (dotted_parts _ Hc) as [Hc1 Hc2].
  destruct (dotted_parts _ Hd) as [Hd1 Hd2].
  unfold rmatch. simpl fst. simpl snd. cbn [seq fold_right].
  apply step_alt_second; [reflexivity|].
  eapply step_literal; [reflexivity|].
  do 18 (apply step_lazy_skip; [reflexivity | reflexivity |]).
  apply step_lazy_here.
  eapply step_literal; [reflexivity|].
  apply (step_star _ Space _ " "); [reflexivity | now apply spaces_stop_dotted |].
  apply step_group; [exact Ha1 | now apply all_dotted | reflexivity|].
  eapply step_literal; [reflexivity|].
  apply step_group; [exact Hb1 | now apply all_dotted | reflexivity|].
  eapply step_literal; [reflexivity|].
  apply step_group; [exact Hc1 | now apply all_dotted | reflexivity|].
  eapply step_literal; [reflexivity|].
  apply step_group; [exact Hd1 | now apply all_dotted | reflexivity|].
  apply (step_star _ Space _ " "); [reflexivity | reflexivity |].
  eapply step_literal; [reflexivity|].
  reflexivity.
Qed.
End PosixLines.

Section WindowsLines.
Import PyStr Re.

Lemma packets_win_match (tx rx lost loss rest : string) :
  Spec.number tx = true -> Spec.number rx = true ->
  Spec.number lost = true -> Spec.number loss = true ->
  rmatch (fst Tools._re_packets_win) (snd Tools._re_packets_win)
    ("Packets: Sent = " ++ tx ++ ", Received = " ++ rx ++ ", Lost = " ++ lost
       ++ " (" ++ loss ++ "% loss)" ++ rest)
  = Some [("loss", loss); ("rx", rx); ("tx", tx)].
Proof.
  intros Htx Hrx Hlost Hloss.
  destruct (number_parts _ Htx) as [Htx1 Htx2].
  destruct (number_parts _ Hrx) as [Hrx1 Hrx2].
  destruct (number_parts _ Hlost) as [Hlost1 Hlost2].
  destruct (number_parts _ Hloss) as [Hloss1 Hloss2].
  unfold rmatch. simpl fst. simpl snd. cbn [seq fold_right].
  eapply step_literal; [reflexivity|].
  apply (step_star _ Space _ " "); [reflexivity.. |].
  eapply step_literal; [reflexivity|].
  apply (step_star _ Space _ " "); [reflexivity.. |].
  eapply step_literal; [reflexivity|].
  apply (step_star _ Space _ " "); [reflexivity | now apply spaces_stop_number |].
  apply step_group; [exact Htx1 | now apply all_digits | reflexivity|].
  eapply step_literal; [reflexivity|].
  apply (step_star _ Space _ " "); [reflexivity.. |].
  eapply step_literal; [reflexivity|].
  apply (step_star _ Space _ " "); [reflexivity.. |].
  eapply step_literal; [reflexivity|].
  apply (step_star _ Space _ " "); [reflexivity | now apply spaces_stop_number |].
  apply step_group; [exact Hrx1 | now apply all_digits | reflexivity|].
  eapply step_literal; [reflexivity|].
  apply (step_star _ Space _ " "); [reflexivity.. |].
  eapply step_literal; [reflexivity|].
  apply (step_star _ Space _ " "); [reflexivity.. |].
  eapply step_literal; [reflexivity|].
  apply (step_star _ Space _ " "); [reflexivity | now apply spaces_stop_number |].
  apply step_plus; [exact Hlost1 | now apply all_digits | reflexivity|].
  apply (step_star _ Space _ " "); [reflexivity.. |].
  eapply step_literal; [reflexivity|].
  apply step_group; [exact Hloss1 | now apply all_digits | reflexivity|].
  eapply step_literal; [reflexivity|].
  apply (step_star _ Space _ " "); [reflexivity.. |].
  eapply step_literal; [reflexivity|].
  reflexivity.
Qed.

Lemma rtt_win_match (a b c rest : string) :
  Spec.number a = true -> Spec.number b = true -> Spec.number c = true ->
  rmatch (fst Tools._re_rtt_win) (snd Tools._re_rtt_win)
    ("Minimum = " ++ a ++ "ms, Maximum = " ++ b ++ "ms, Average = " ++ c ++ "ms" ++ rest)
  = Some [("avg", c); ("max", b); ("min", a)].
Proof.
  intros Ha Hb Hc.
  destruct (number_parts _ Ha) as [Ha1 Ha2].
  destruct (number_parts _ Hb) as [Hb1 Hb2].
  destruct (number_parts _ Hc) as [Hc1 Hc2].
  unfold rmatch. simpl fst. simpl snd. cbn [seq fold_right].
  eapply step_literal; [reflexivity|].
  apply (step_star _ Space _ " "); [reflexivity.. |].
  eapply step_literal; [reflexivity|].
  apply (step_star _ Space _ " "); [reflexivity | now apply spaces_stop_number |].
  apply step_group; [exact Ha1 | now apply all_digits | reflexivity|].
  eapply step_literal; [reflexivity|].
  apply (step_star _ Space _ " "); [reflexivity.. |].
  eapply step_literal; [reflexivity|].
  apply (step_star _ Space _ " "); [reflexivity.. |].
  eapply step_literal; [reflexivity|].
  apply (step_star _ Space _ " "); [reflexivity | now apply spaces_stop_number |].
  apply step_group; [exact Hb1 | now apply all_digits | reflexivity|].
  eapply step_literal; [reflexivity|].
  apply (step_star _ Space _ " "); [reflexivity.. |].
  eapply step_literal; [reflexivity|].
  apply (step_star _ Space _ " "); [reflexivity.. |].
  eapply step_literal; [reflexivity|].
  apply (step_star _ Space _ " "); [reflexivity | now apply spaces_stop_number |].
  apply step_group; [exact Hc1 | now apply all_digits | reflexivity|].
  eapply step_literal; [reflexivity|].
  reflexivity.
Qed.

(** Where a word first occurs at the end of [pre], no occurrence of it
    starts within [pre]. *)
Lemma find_first (k pre tail : string) :
  Spec.find k (pre ++ tail) = Some (String.length pre) ->
  forall a b, pre = a ++ b -> b <> "" -> startswith k (b ++ tail) = false.
Proof.
  revert k tail. induction pre as [|c pre IH]; intros k tail H a b Hab Hb.
  - destruct a; [|discriminate]. simpl in Hab. congruence.
  - cbn [append Spec.find String.length] in H.
    destruct (startswith k (String c (pre ++ tail))) eqn:Hs; [discriminate|].
    destruct (Spec.find k (pre ++ tail)) as [n|] eqn:Hfind; [|discriminate].
    injection H as ->.
    destruct a as [|c' a]; simpl in Hab.
    + subst b. exact Hs.
    + injection Hab as -> ->. now apply (IH k tail Hfind a b).
Qed.

(** A pattern that begins with a word is not found before the first
    occurrence of the word, in any letter case. *)
Lemma search_skip_word (f : flags) (p : string) (r : regex) (pre tail : string) :
  Spec.find (lower p) (lower (pre ++ tail)) = Some (String.length pre) ->
  search f (Seq (Lit p) r) (pre ++ tail) = search f (Seq (Lit p) r) tail.
Proof.
  intro H. apply search_skip. intros a b Hab Hb.
  unfold rmatch. cbn [run]. rewrite eat_none; [reflexivity|].
  rewrite lower_app.
  apply (find_first (lower p) (lower pre) (lower tail)) with (a := lower a).
  - rewrite <- lower_app. rewrite H. f_equal.
    clear. induction pre as [|c pre IH]; simpl; [reflexivity | now rewrite IH].
  - rewrite Hab. apply lower_app.
  - destruct b; [congruence | discriminate].
Qed.
End WindowsLines.

Section Tables.
Import PyStr Re.

Lemma posix_summary_app (tx rx whole frac rest : string) :
  Spec.posix_summary tx rx (whole ++ frac) ++ rest
  = tx ++ " packets transmitted, " ++ rx ++ " received, "
       ++ whole ++ frac ++ "% packet loss" ++ rest.
Proof. unfold Spec.posix_summary. now rewrite !append_assoc. Qed.

Lemma posix_times_app (a b c d rest : string) :
  Spec.posix_times a b c d ++ rest
  = "rtt min/avg/max/mdev = " ++ a ++ "/" ++ b ++ "/" ++ c ++ "/" ++ d ++ " ms" ++ rest.
Proof. unfold Spec.posix_times. now rewrite !append_assoc. Qed.

Lemma windows_summary_app (tx rx lost loss rest : string) :
  Spec.windows_summary tx rx lost loss ++ rest
  = "Packets: Sent = " ++ tx ++ ", Received = " ++ rx ++ ", Lost = " ++ lost
      ++ " (" ++ loss ++ "% loss)" ++ rest.
Proof. unfold Spec.windows_summary. now rewrite !append_assoc. Qed.

Lemma windows_times_app (a b c rest : string) :
  Spec.windows_times a b c ++ rest
  = "Minimum = " ++ a ++ "ms, Maximum = " ++ b ++ "ms, Average = " ++ c ++ "ms" ++ rest.
Proof. unfold Spec.windows_times. now rewrite !append_assoc. Qed.

(** The search for packet counts finds the summary line behind a text
    that does not end with a digit and does not contain "packets". *)
Lemma packets_search (pre tx rx whole frac rest : string) :
  Spec.ends_with_digit pre = false ->
  contains "packets" (lower pre) = false ->
  Spec.number tx = true -> Spec.number rx = true ->
  Spec.number whole = true -> Spec.fraction frac = true ->
  Tools.re_search Tools._re_packets_unix
    (pre ++ Spec.posix_summary tx rx (whole ++ frac) ++ rest)
  = Some [("loss", whole ++ frac); ("rx", rx); ("tx", tx)].
Proof.
  intros Hend Hpk Htx Hrx Hw Hf.
  rewrite posix_summary_app.
  destruct (number_parts _ Htx) as [Hne Hall].
  destruct tx as [|c0 tx']; [discriminate|].
  simpl in Hall. apply andb_true_iff in Hall as [Hc0 _].
  etransitivity; [exact (packets_search_skip pre c0 _ Hend Hpk Hc0)|].
  unfold Tools.re_search.
  apply search_here.
  exact (packets_match (String c0 tx') rx whole frac rest Htx Hrx Hw Hf).
Qed.

(** The search for round-trip times finds the line of times at the start
    of a line, behind a text without "rtt" and "round-trip". *)
Lemma rtt_search (pre a b c d rest : string) :
  contains "rtt" (lower pre) = false ->
  contains "round-trip" (lower pre) = false ->
  Spec.dotted a = true -> Spec.dotted b = true ->
  Spec.dotted c = true -> Spec.dotted d = true ->
  Tools.re_search Tools._re_rtt_unix (pre ++ nl ++ Spec.posix_times a b c d ++ rest)
  = Some [("mdev", d); ("max", c); ("avg", b); ("min", a)].
Proof.
  intros Hrtt Hround Ha Hb Hc Hd.
  rewrite posix_times_app.
  etransitivity.
  { apply (rtt_search_skip pre "010"); [|assumption..].
    simpl. intuition discriminate. }
  unfold Tools.re_search. rewrite search_cons.
  change (rmatch (fst Tools._re_rtt_unix) (snd Tools._re_rtt_unix) (String "010" ?x))
    with (@None groups).
  apply search_here. now apply rtt_match.
Qed.

Lemma format_icmp_table_windows (env : Env) (host out err : string) (g : Re.groups)
      (rtt : option Re.groups) :
  Tools.re_search Tools._re_packets_unix (out ++ PyStr.nl ++ err) = None ->
  Tools.re_search Tools._re_packets_win (out ++ PyStr.nl ++ err) = Some g ->
  Tools.re_search Tools._re_rtt_win (out ++ PyStr.nl ++ err) = rtt ->
  Tools._format_icmp_table env host out err
  = Some match rtt with
         | Some r =>
             Spec.windows_table host (Re.group g "tx") (Re.group g "rx") (Re.group g "loss")
               (Re.group r "min") (Re.group r "avg") (Re.group r "max")
         | None =>
             Spec.windows_table host (Re.group g "tx") (Re.group g "rx") (Re.group g "loss")
               "-" "-" "-"
         end.
Proof.
  intros Hunix Hpk Hrtt. unfold Tools._format_icmp_table. rewrite !or_else_empty.
  cbv zeta. rewrite Hunix, Hpk, Hrtt.
  destruct rtt as [r|]; reflexivity.
Qed.

Lemma packets_win_search (pre tx rx lost loss rest : string) :
  Spec.find "packets:" (lower (pre ++ Spec.windows_summary tx rx lost loss ++ rest))
  = Some (String.length pre) ->
  Spec.number tx = true -> Spec.number rx = true ->
  Spec.number lost = true -> Spec.number loss = true ->
  Tools.re_search Tools._re_packets_win (pre ++ Spec.windows_summary tx rx lost loss ++ rest)
  = Some [("loss", loss); ("rx", rx); ("tx", tx)].
Proof.
  intros Hfind Htx Hrx Hlost Hloss.
  etransitivity;
    [exact (search_skip_word (fst Tools._re_packets_win) "Packets:" _ pre _ Hfind)|].
  rewrite windows_summary_app.
  apply search_here. now apply packets_win_match.
Qed.

Lemma rtt_win_search (pre a b c rest : string) :
  Spec.find "minimum" (lower (pre ++ Spec.windows_times a b c ++ rest))
  = Some (String.length pre) ->
  Spec.number a = true -> Spec.number b = true -> Spec.number c = true ->
  Tools.re_search Tools._re_rtt_win (pre ++ Spec.windows_times a b c ++ rest)
  = Some [("avg", c); ("max", b); ("min", a)].
Proof.
  intros Hfind Ha Hb Hc.
  etransitivity;
    [exact (search_skip_word (fst Tools._re_rtt_win) "Minimum" _ pre _ Hfind)|].
  rewrite windows_times_app.
  apply search_here. now apply rtt_win_match.
Qed.
End Tables.

(** X11.  [_format_icmp_table] reads the numbers of the POSIX table off the
    output of ping of iputils: where the text has the summary line "[tx]
    packets transmitted, [rx] received, [loss]% packet loss" and, at the
    start of a later line, "rtt min/avg/max/mdev = [a]/[b]/[c]/[d] ms", the
    row shows exactly these seven texts, whatever numbers they are ([loss]
    with or without a fraction).  Nothing before the summary line may look
    like one (the text before it does not end with a digit and does not
    contain "packets"), and "rtt" and "round-trip" do not occur before the
    line of times. *)
Theorem format_icmp_table_posix_values
        (env : Env) (host out err pre mid post tx rx whole frac a b c d : string) :
  out ++ PyStr.nl ++ err
  = pre ++ Spec.posix_summary tx rx (whole ++ frac) ++ mid ++ PyStr.nl
        ++ Spec.posix_times a b c d ++ post ->
  Spec.number tx = true -> Spec.number rx = true ->
  Spec.number whole = true -> Spec.fraction frac = true ->
  Spec.dotted a = true -> Spec.dotted b = true ->
  Spec.dotted c = true -> Spec.dotted d = true ->
  Spec.ends_with_digit pre = false ->
  PyStr.contains "packets" (PyStr.lower pre) = false ->
  PyStr.contains "rtt"
    (PyStr.lower (pre ++ Spec.posix_summary tx rx (whole ++ frac) ++ mid)) = false ->
  PyStr.contains "round-trip"
    (PyStr.lower (pre ++ Spec.posix_summary tx rx (whole ++ frac) ++ mid)) = false ->
  Tools._format_icmp_table env host out err
  = Some (Spec.posix_table host tx rx (whole ++ frac) a b c d).
Proof.
  intros Htext Htx Hrx Hw Hf Ha Hb Hc Hd Hend Hpk Hrtt Hround.
  rewrite (format_icmp_table_posix env host out err
             [("loss", whole ++ frac); ("rx", rx); ("tx", tx)]
             (Some [("mdev", d); ("max", c); ("avg", b); ("min", a)])).
  - reflexivity.
  - rewrite Htext. now apply packets_search.
  - rewrite Htext.
    replace (pre ++ Spec.posix_summary tx rx (whole ++ frac) ++ mid ++ PyStr.nl
               ++ Spec.posix_times a b c d ++ post)
      with ((pre ++ Spec.posix_summary tx rx (whole ++ frac) ++ mid) ++ PyStr.nl
               ++ Spec.posix_times a b c d ++ post)
      by now rewrite !append_assoc.
    now apply rtt_search.
Qed.

(** Three packets of which one is lost. *)
Lemma format_icmp_table_posix_values_witness :
  Tools._format_icmp_table (Scenario.linux 0 "" "") "example.com"
    (Scenario.statistics_head
       ++ "3 packets transmitted, 2 received, 33.3333% packet loss, time 2003ms" ++ PyStr.nl
       ++ "rtt min/avg/max/mdev = 9.871/10.240/10.609/0.369 ms" ++ PyStr.nl) ""
  = Some (Spec.posix_table "example.com" "3" "2" "33.3333"
            "9.871" "10.240" "10.609" "0.369").
Proof.
  apply (format_icmp_table_posix_values (Scenario.linux 0 "" "") "example.com" _ _
           Scenario.statistics_head ", time 2003ms" (PyStr.nl ++ PyStr.nl)
           "3" "2" "33" ".3333" "9.871" "10.240" "10.609" "0.369");
    vm_compute; reflexivity.
Defined.

(** X12.  [_format_icmp_table] reads the numbers of the Windows table off
    the output of ping of Windows, when the text has no POSIX summary: where
    the text has "Packets: Sent = [tx], Received = [rx], Lost = [lost]
    ([loss]% loss)" and later "Minimum = [a]ms, Maximum = [b]ms, Average =
    [c]ms", these being the first "packets:" and the first "minimum" of the
    text in any letter case, the row shows [tx], [rx] and [loss] and then the
    times by name, in the order of the columns Min, Avg, Max: [a], [c], [b].
    The number of lost packets is not shown. *)
Theorem format_icmp_table_windows_values
        (env : Env) (host out err pre mid post tx rx lost loss a b c : string) :
  out ++ PyStr.nl ++ err
  = pre ++ Spec.windows_summary tx rx lost loss ++ mid
        ++ Spec.windows_times a b c ++ post ->
  Tools.re_search Tools._re_packets_unix (out ++ PyStr.nl ++ err) = None ->
  Spec.find "packets:" (PyStr.lower (out ++ PyStr.nl ++ err)) = Some (String.length pre) ->
  Spec.find "minimum" (PyStr.lower (out ++ PyStr.nl ++ err))
  = Some (String.length (pre ++ Spec.windows_summary tx rx lost loss ++ mid)) ->
  Spec.number tx = true -> Spec.number rx = true ->
  Spec.number lost = true -> Spec.number loss = true ->
  Spec.number a = true -> Spec.number b = true -> Spec.number c = true ->
  Tools._format_icmp_table env host out err
  = Some (Spec.windows_table host tx rx loss a c b).
Proof.
  intros Htext Hunix Hpk Hmin Htx Hrx Hlost Hloss Ha Hb Hc.
  rewrite (format_icmp_table_windows env host out err
             [("loss", loss); ("rx", rx); ("tx", tx)]
             (Some [("avg", c); ("max", b); ("min", a)])).
  - reflexivity.
  - exact Hunix.
  - rewrite Htext in Hpk |- *. now apply packets_win_search.
  - rewrite Htext in Hmin |- *.
    replace (pre ++ Spec.windows_summary tx rx lost loss ++ mid
               ++ Spec.windows_times a b c ++ post)
      with ((pre ++ Spec.windows_summary tx rx lost loss ++ mid)
               ++ Spec.windows_times a b c ++ post) in Hmin |- *
      by now rewrite !append_assoc.
    now apply rtt_win_search.
Qed.

(** Four packets that all came back. *)
Lemma format_icmp_table_windows_values_witness :
  Tools._format_icmp_table (Scenario.windows 0 "" "") "example.com"
    (Scenario.windows_head ++ "Packets: Sent = 4, Received = 4, Lost = 0 (0% loss)"
       ++ Scenario.windows_between ++ "Minimum = 10ms, Maximum = 15ms, Average = 12ms"
       ++ PyStr.nl) ""
  = Some (Spec.windows_table "example.com" "4" "4" "0" "10" "12" "15").
Proof.
  apply (format_icmp_table_windows_values (Scenario.windows 0 "" "") "example.com" _ _
           Scenario.windows_head Scenario.windows_between (PyStr.nl ++ PyStr.nl)
           "4" "4" "0" "0" "10" "15" "12");
    vm_compute; reflexivity.
Defined.


(** X13.  A host and a port written as "host:port" come back from
    [_split_host_port]: for a host without a colon that does not begin with
    a bracket, and any integer [n] of at most 4300 digits, the target
    [host ++ ":" ++ str n] parses to [host] and [n].  The host may be
    empty. *)
Theorem split_host_port_round_trip (host : string) (n : Z) :
  PyInt.printable n = true ->
  Spec.free_of ":" host ->
  PyStr.startswith "[" host = false ->
  Tools._split_host_port (host ++ ":" ++ PyInt.str n) = inr (host, Some n).
Proof.
  intros Hn Hfree Hb. apply parses_to_run.
  apply (Spec.host_port _ host (PyInt.str n) n);
    [|reflexivity | exact Hfree | | now apply int_str].
  - destruct host as [|c host]; [reflexivity|].
    destruct (PyStr.startswith "[" (String c host ++ ":" ++ PyInt.str n)) eqn:H;
      [|reflexivity].
    apply startswith_char in H as (body & H). simpl in H. injection H as -> _.
    now rewrite startswith_same in Hb.
  - apply str_plain; [reflexivity | discriminate].
Qed.

Lemma split_host_port_round_trip_witness :
  Tools._split_host_port ("example.com" ++ ":" ++ PyInt.str 8080)
  = inr ("example.com", Some 8080).
Proof.
  apply (split_host_port_round_trip "example.com" 8080); [reflexivity | | reflexivity].
  unfold Spec.free_of. simpl. intuition discriminate.
Defined.

(** X14.  The same for a bracketed IPv6 address: for a host without a
    closing bracket and any integer [n] of at most 4300 digits, the target
    ["[" ++ host ++ "]:" ++ str n] parses to [host], without the brackets,
    and [n]. *)
Theorem split_host_port_bracket_round_trip (host : string) (n : Z) :
  PyInt.printable n = true ->
  Spec.free_of "]" host ->
  Tools._split_host_port ("[" ++ host ++ "]:" ++ PyInt.str n) = inr (host, Some n).
Proof.
  intros Hn Hfree. apply parses_to_run.
  apply (Spec.bracket_port _ host (PyInt.str n) n);
    [reflexivity | exact Hfree | now apply int_str].
Qed.

Lemma split_host_port_bracket_round_trip_witness :
  Tools._split_host_port ("[" ++ "2001:db8::1" ++ "]:" ++ PyInt.str 443)
  = inr ("2001:db8::1", Some 443).
Proof.
  apply (split_host_port_bracket_round_trip "2001:db8::1" 443); [reflexivity|].
  unfold Spec.free_of. simpl. intuition discriminate.
Defined.

(** ** Where a pattern does not match *)

Section NoMatch.
Import PyStr Re.
Variable f : flags.

(** A greedy repetition fails when the continuation fails after every
    part of [body] that it may take. *)
Lemma star_greedy_none (k : cclass) (cont : string -> string -> option groups)
      (body : string) :
  forall (rest acc : string),
  Spec.all_of (class_match f k) body = true ->
  Spec.stops (class_match f k) rest = true ->
  (forall b1 b2, body = b1 ++ b2 -> truthy b2 = true ->
                 Spec.all_of (class_match f k) b2 = true ->
                 cont (b2 ++ rest) (acc ++ b1) = None) ->
  cont rest (acc ++ body) = None ->
  star_greedy f k cont (body ++ rest) acc = None.
Proof.
  induction body as [|c body IH]; intros rest acc Hall Hstop Hsplit Hfull.
  - rewrite append_empty_r in Hfull. simpl append.
    destruct rest as [|c rest]; [exact Hfull|].
    simpl in Hstop |- *. apply negb_true_iff in Hstop. now rewrite Hstop.
  - pose proof Hall as Hall0.
    simpl in Hall. apply andb_true_iff in Hall as [Hc Hall].
    cbn [append star_greedy]. rewrite Hc.
    rewrite IH; [| exact Hall | exact Hstop | | now rewrite snoc_app].
    + specialize (Hsplit "" (String c body) eq_refl eq_refl Hall0).
      now rewrite append_empty_r in Hsplit.
    + intros b1 b2 -> Ht Hall2. rewrite snoc_app.
      now apply (Hsplit (String c b1) b2).
Qed.

Lemma none_literal (p : string) (r : regex) (s m rest acc : string) (g : groups)
      (cont : string -> string -> groups -> option groups) :
  eat f p s = Some (m, rest) ->
  run f r rest (acc ++ m) g cont = None ->
  run f (Seq (Lit p) r) s acc g cont = None.
Proof. intros He H. cbn [run]. now rewrite He. Qed.

Lemma none_literal_fail (p : string) (r : regex) (s acc : string) (g : groups)
      (cont : string -> string -> groups -> option groups) :
  eat f p s = None -> run f (Seq (Lit p) r) s acc g cont = None.
Proof. intro He. cbn [run]. now rewrite He. Qed.

Lemma none_plus_head (k : cclass) (r : regex) (c : ascii) (s acc : string) (g : groups)
      (cont : string -> string -> groups -> option groups) :
  class_match f k c = false -> run f (Seq (Plus k) r) (String c s) acc g cont = None.
Proof. intro H. unfold Plus. cbn [run]. now rewrite H. Qed.

Lemma none_group_head (name : string) (k : cclass) (r : regex) (c : ascii) (s acc : string)
      (g : groups) (cont : string -> string -> groups -> option groups) :
  class_match f k c = false ->
  run f (Seq (Group name (Plus k)) r) (String c s) acc g cont = None.
Proof. intro H. unfold Plus. cbn [run]. now rewrite H. Qed.

Lemma none_plus (k : cclass) (r : regex) (body rest acc : string) (g : groups)
      (cont : string -> string -> groups -> option groups) :
  truthy body = true ->
  Spec.all_of (class_match f k) body = true ->
  Spec.stops (class_match f k) rest = true ->
  (forall b1 b2, body = b1 ++ b2 -> truthy b1 = true -> truthy b2 = true ->
                 Spec.all_of (class_match f k) b2 = true ->
                 run f r (b2 ++ rest) (acc ++ b1) g cont = None) ->
  run f r rest (acc ++ body) g cont = None ->
  run f (Seq (Plus k) r) (body ++ rest) acc g cont = None.
Proof.
  intros Hne Hall Hstop Hsplit Hfull. destruct body as [|c body]; [discriminate|].
  simpl in Hall. apply andb_true_iff in Hall as [Hc Hall].
  unfold Plus. cbn [run append]. rewrite Hc.
  apply star_greedy_none; [exact Hall | exact Hstop | | now rewrite snoc_app].
  intros b1 b2 -> Ht Hall2. rewrite snoc_app.
  now apply (Hsplit (String c b1) b2).
Qed.

Lemma none_group (name : string) (k : cclass) (r : regex) (body rest acc : string)
      (g : groups) (cont : string -> string -> groups -> option groups) :
  truthy body = true ->
  Spec.all_of (class_match f k) body = true ->
  Spec.stops (class_match f k) rest = true ->
  (forall b1 b2, body = b1 ++ b2 -> truthy b1 = true -> truthy b2 = true ->
                 Spec.all_of (class_match f k) b2 = true ->
                 run f r (b2 ++ rest) (acc ++ b1) ((name, b1) :: g) cont = None) ->
  run f r rest (acc ++ body) ((name, body) :: g) cont = None ->
  run f (Seq (Group name (Plus k)) r) (body ++ rest) acc g cont = None.
Proof.
  intros Hne Hall Hstop Hsplit Hfull. destruct body as [|c body]; [discriminate|].
  simpl in Hall. apply andb_true_iff in Hall as [Hc Hall].
  unfold Plus. cbn [run append]. rewrite Hc.
  apply star_greedy_none; [exact Hall | exact Hstop | | exact Hfull].
  intros b1 b2 -> Ht Hall2.
  exact (Hsplit (String c b1) b2 eq_refl eq_refl Ht Hall2).
Qed.
End NoMatch.

Section BsdLines.
Import PyStr Re.

Lemma one_space_split (b1 b2 : string) :
  " " = b1 ++ b2 -> truthy b1 = true -> truthy b2 = true -> False.
Proof.
  destruct b1 as [|x b1]; [discriminate|]. destruct b2 as [|y b2]; [discriminate|].
  destruct b1; discriminate.
Qed.

(** White space does not begin with a digit. *)
Lemma spaces_not_digits (f : flags) (r : regex) (b rest acc : string) (g : groups)
      (cont : string -> string -> groups -> option groups) :
  truthy b = true ->
  Spec.all_of (class_match f Digit) b = true ->
  run f (Seq (Plus Space) r) (b ++ rest) acc g cont = None.
Proof.
  intros Hne Hall. destruct b as [|d b]; [discriminate|].
  simpl in Hall. apply andb_true_iff in Hall as [Hd _].
  apply none_plus_head. rewrite class_match_digit in Hd.
  rewrite class_match_space. now apply digit_not_space.
Qed.

Ltac one_space :=
  apply (none_plus _ Space _ " ");
  [reflexivity | reflexivity | try reflexivity
   | intros b1 b2 Hb Hb1 Hb2 _; now destruct (one_space_split b1 b2 Hb Hb1 Hb2) |].

(** The pattern of packet counts does not match at a number that is
    followed by " packets transmitted, ", a number and " packets
    received, ": the word "received" does not follow the second number. *)
Lemma bsd_sent_no_match (tx rx rest : string) :
  Spec.number tx = true -> Spec.number rx = true ->
  rmatch (fst Tools._re_packets_unix) (snd Tools._re_packets_unix)
    (tx ++ " packets transmitted, " ++ rx ++ " packets received, " ++ rest) = None.
Proof.
  intros Htx Hrx.
  destruct (number_parts _ Htx) as [Htx1 Htx2].
  destruct (number_parts _ Hrx) as [Hrx1 Hrx2].
  unfold rmatch. simpl fst. simpl snd. cbn [seq fold_right].
  apply none_group; [exact Htx1 | now apply all_digits | reflexivity | |].
  { intros b1 b2 _ _ Hb2 Hall. now apply spaces_not_digits. }
  one_space.
  eapply none_literal; [reflexivity|].
  one_space.
  eapply none_literal; [reflexivity|].
  one_space; [now apply spaces_stop_number|].
  apply none_group; [exact Hrx1 | now apply all_digits | reflexivity | |].
  { intros b1 b2 _ _ Hb2 Hall. now apply spaces_not_digits. }
  one_space.
  apply none_literal_fail. reflexivity.
Qed.

(** Nor at a number that is followed by " packets received, ": the word
    "transmitted," does not follow. *)
Lemma bsd_received_no_match (rx rest : string) :
  Spec.number rx = true ->
  rmatch (fst Tools._re_packets_unix) (snd Tools._re_packets_unix)
    (rx ++ " packets received, " ++ rest) = None.
Proof.
  intro Hrx. destruct (number_parts _ Hrx) as [Hrx1 Hrx2].
  unfold rmatch. simpl fst. simpl snd. cbn [seq fold_right].
  apply none_group; [exact Hrx1 | now apply all_digits | reflexivity | |].
  { intros b1 b2 _ _ Hb2 Hall. now apply spaces_not_digits. }
  one_space.
  eapply none_literal; [reflexivity|].
  one_space.
  apply none_literal_fail. reflexivity.
Qed.

(** The pattern of packet counts begins with a digit. *)
Lemma packets_no_digit (c : ascii) (s : string) :
  isdigit c = false ->
  rmatch (fst Tools._re_packets_unix) (snd Tools._re_packets_unix) (String c s) = None.
Proof.
  intro Hc. unfold rmatch. simpl fst. simpl snd. cbn [seq fold_right].
  apply none_group_head. now rewrite class_match_digit.
Qed.

Lemma search_skip_no_digits (pre tail : string) :
  Spec.all_of (fun c => negb (isdigit c)) pre = true ->
  Tools.re_search Tools._re_packets_unix (pre ++ tail)
  = Tools.re_search Tools._re_packets_unix tail.
Proof.
  intro Hall. unfold Tools.re_search. apply search_skip.
  intros a b -> Hb. rewrite all_of_app in Hall.
  apply andb_true_iff in Hall as [_ Hall].
  destruct b as [|c b]; [congruence|].
  simpl in Hall. apply andb_true_iff in Hall as [Hc _].
  apply negb_true_iff in Hc. now apply packets_no_digit.
Qed.

(** Every end of a number is a number. *)
Lemma number_suffix (a b : string) :
  Spec.number (a ++ b) = true -> b <> "" -> Spec.number b = true.
Proof.
  intros H Hb. apply number_parts in H as [_ Hall].
  rewrite all_of_app in Hall. apply andb_true_iff in Hall as [_ Hall].
  unfold Spec.number. rewrite Hall. now destruct b.
Qed.

(** The summary line of BSD ping has no match of the pattern of packet
    counts in it. *)
Lemma bsd_search (pre tx rx rest : string) :
  Spec.ends_with_digit pre = false ->
  contains "packets" (lower pre) = false ->
  Spec.number tx = true -> Spec.number rx = true ->
  Tools.re_search Tools._re_packets_unix (pre ++ Spec.bsd_counts tx rx ++ rest)
  = Tools.re_search Tools._re_packets_unix rest.
Proof.
  intros Hend Hpk Htx Hrx.
  unfold Spec.bsd_counts. rewrite !append_assoc.
  transitivity (Tools.re_search Tools._re_packets_unix
                  (tx ++ " packets transmitted, " ++ rx ++ " packets received, " ++ rest)).
  { destruct (number_parts _ Htx) as [Hne Hall].
    destruct tx as [|c0 tx']; [discriminate|].
    simpl in Hall. apply andb_true_iff in Hall as [Hc0 _].
    exact (packets_search_skip pre c0 _ Hend Hpk Hc0). }
  transitivity (Tools.re_search Tools._re_packets_unix
                  (" packets transmitted, " ++ rx ++ " packets received, " ++ rest)).
  { unfold Tools.re_search. apply search_skip. intros a b -> Hb.
    apply bsd_sent_no_match; [|exact Hrx]. now apply (number_suffix a b). }
  rewrite search_skip_no_digits by reflexivity.
  transitivity (Tools.re_search Tools._re_packets_unix (" packets received, " ++ rest)).
  { unfold Tools.re_search. apply search_skip. intros a b -> Hb.
    apply bsd_received_no_match. now apply (number_suffix a b). }
  now rewrite search_skip_no_digits by reflexivity.
Qed.
End BsdLines.

(** X15.  [_format_icmp_table] does not recognise the summary line of BSD
    and macOS ping, "[tx] packets transmitted, [rx] packets received, ...":
    the POSIX pattern wants the word "received" directly after the second
    number.  Where the text before that line does not look like a summary
    (it does not end with a digit and does not contain "packets") and the
    text after the counts holds no POSIX summary and the whole text no
    Windows summary, no table is made, whatever the numbers are. *)
Theorem format_icmp_table_bsd_summary
        (env : Env) (host out err pre rest tx rx : string) :
  out ++ PyStr.nl ++ err = pre ++ Spec.bsd_counts tx rx ++ rest ->
  Spec.number tx = true -> Spec.number rx = true ->
  Spec.ends_with_digit pre = false ->
  PyStr.contains "packets" (PyStr.lower pre) = false ->
  Tools.re_search Tools._re_packets_unix rest = None ->
  Tools.re_search Tools._re_packets_win (out ++ PyStr.nl ++ err) = None ->
  Tools._format_icmp_table env host out err = None.
Proof.
  intros Htext Htx Hrx Hend Hpk Hrest Hwin.
  unfold Tools._format_icmp_table. rewrite !or_else_empty. cbv zeta.
  rewrite Hwin, Htext, (bsd_search pre tx rx rest Hend Hpk Htx Hrx), Hrest.
  reflexivity.
Qed.

(** The statistics that ping of macOS prints. *)
Lemma format_icmp_table_bsd_summary_witness :
  Tools._format_icmp_table (Scenario.linux 0 "" "") "example.com"
    (Scenario.statistics_head
       ++ "4 packets transmitted, 4 packets received, 0.0% packet loss" ++ PyStr.nl
       ++ "round-trip min/avg/max/stddev = 10.123/12.456/15.789/2.345 ms" ++ PyStr.nl) ""
  = None.
Proof.
  apply (format_icmp_table_bsd_summary (Scenario.linux 0 "" "") "example.com" _ _
           Scenario.statistics_head
           ("0.0% packet loss" ++ PyStr.nl
              ++ "round-trip min/avg/max/stddev = 10.123/12.456/15.789/2.345 ms"
              ++ PyStr.nl ++ PyStr.nl)
           "4" "4");
    vm_compute; reflexivity.
Defined.

(** ** What a match consists of *)

Section Soundness.
Import PyStr Re.
Variable f : flags.

Lemma eat_sound (p : string) :
  forall s m rest, eat f p s = Some (m, rest) -> s = m ++ rest.
Proof.
  induction p as [|a p IH]; intros s m rest H.
  - simpl in H. now injection H as <- <-.
  - destruct s as [|c s]; simpl in H; [discriminate|].
    destruct (char_match f a c); [|discriminate].
    destruct (eat f p s) as [[m' rest']|] eqn:He; [|discriminate].
    injection H as <- <-. simpl. f_equal. now apply IH.
Qed.

(** A greedy repetition that succeeds has taken characters of the class
    and handed the rest, and what it took, to its continuation. *)
Lemma star_greedy_took (k : cclass) (cont : string -> string -> option groups) (s : string) :
  forall (acc : string) (g : groups),
  star_greedy f k cont s acc = Some g ->
  exists body rest,
    s = body ++ rest
    /\ Spec.all_of (class_match f k) body = true
    /\ cont rest (acc ++ body) = Some g.
Proof.
  induction s as [|c s IH]; intros acc g H; simpl in H.
  - exists "", "". rewrite !append_empty_r. repeat split. exact H.
  - assert (Hstop : exists body rest,
               String c s = body ++ rest
               /\ Spec.all_of (class_match f k) body = true
               /\ cont (String c s) acc = cont rest (acc ++ body)).
    { exists "", (String c s). rewrite !append_empty_r. repeat split. }
    destruct (class_match f k c) eqn:Hc.
    + destruct (star_greedy f k cont s (snoc acc c)) as [g'|] eqn:Hrec.
      * injection H as <-.
        destruct (IH _ _ Hrec) as (body & rest & -> & Hall & Hcont).
        exists (String c body), rest. rewrite snoc_app in Hcont.
        simpl. rewrite Hc. auto.
      * destruct Hstop as (body & rest & Hs & Hall & Heq).
        exists body, rest. rewrite <- Heq. auto.
    + destruct Hstop as (body & rest & Hs & Hall & Heq).
      exists body, rest. rewrite <- Heq. auto.
Qed.

Lemma star_lazy_took (k : cclass) (cont : string -> string -> option groups) (s : string) :
  forall (acc : string) (g : groups),
  star_lazy f k cont s acc = Some g ->
  exists body rest,
    s = body ++ rest
    /\ Spec.all_of (class_match f k) body = true
    /\ cont rest (acc ++ body) = Some g.
Proof.
  induction s as [|c s IH]; intros acc g H; simpl in H.
  - destruct (cont "" acc) as [g'|] eqn:Hc; [|discriminate].
    exists "", "". rewrite !append_empty_r. now rewrite Hc.
  - destruct (cont (String c s) acc) as [g'|] eqn:Hhere.
    + exists "", (String c s). rewrite !append_empty_r. now rewrite Hhere.
    + destruct (class_match f k c) eqn:Hc; [|discriminate].
      destruct (IH _ _ H) as (body & rest & -> & Hall & Hcont).
      exists (String c body), rest. rewrite snoc_app in Hcont.
      simpl. rewrite Hc. auto.
Qed.

(** The matcher is sound: a run that succeeds has split the subject in a
    text that the pattern matches and a rest that the continuation
    accepted. *)
Lemma run_sound (r : regex) :
  forall (s acc : string) (g res : groups)
         (cont : string -> string -> groups -> option groups),
  run f r s acc g cont = Some res ->
  exists m rest g',
    s = m ++ rest
    /\ Spec.matches f r m rest g g'
    /\ cont rest (acc ++ m) g' = Some res.
Proof.
  induction r as [|p|k|r1 IH1 r2 IH2|r1 IH1 r2 IH2|greedy k|name r IH|];
    intros s acc g res cont H; cbn [run] in H.
  - exists "", s, g. rewrite !append_empty_r. repeat split; [constructor | exact H].
  - destruct (eat f p s) as [[m rest]|] eqn:He; [|discriminate].
    pose proof (eat_sound _ _ _ _ He) as ->.
    exists m, rest, g. repeat split; [now constructor | exact H].
  - destruct s as [|c s]; [discriminate|].
    destruct (class_match f k c) eqn:Hc; [|discriminate].
    exists (String c ""), s, g. repeat split; [now constructor | exact H].
  - apply IH1 in H as (m1 & rest1 & g1 & -> & Hm1 & H).
    apply IH2 in H as (m2 & rest & g2 & -> & Hm2 & H).
    exists (m1 ++ m2), rest, g2. rewrite !append_assoc in H |- *.
    repeat split; [|exact H].
    econstructor; eassumption.
  - destruct (run f r1 s acc g cont) as [res'|] eqn:H1.
    + injection H as ->. apply IH1 in H1 as (m & rest & g' & -> & Hm & H1).
      exists m, rest, g'. repeat split; [now apply Spec.matches_alt_l | exact H1].
    + apply IH2 in H as (m & rest & g' & -> & Hm & H).
      exists m, rest, g'. repeat split; [now apply Spec.matches_alt_r | exact H].
  - destruct greedy.
    + apply star_greedy_took in H as (body & rest & -> & Hall & H).
      exists body, rest, g. repeat split; [now constructor | exact H].
    + apply star_lazy_took in H as (body & rest & -> & Hall & H).
      exists body, rest, g. repeat split; [now constructor | exact H].
  - apply IH in H as (m & rest & g' & -> & Hm & H).
    exists m, rest, ((name, m) :: g'). repeat split; [now constructor | exact H].
  - destruct s as [|c s].
    + exists "", "", g. rewrite !append_empty_r. repeat split; [constructor; auto | exact H].
    + destruct c as [[] [] [] [] [] [] [] []]; try discriminate.
      destruct s; [|discriminate].
      exists "", nl, g. rewrite !append_empty_r. repeat split; [constructor; auto | exact H].
Qed.

Lemma rmatch_sound (r : regex) (s : string) (g : groups) :
  rmatch f r s = Some g -> exists m rest, s = m ++ rest /\ Spec.matches f r m rest [] g.
Proof.
  intro H. apply run_sound in H as (m & rest & g' & -> & Hm & H).
  injection H as <-. eauto.
Qed.

Lemma search_sound (r : regex) (s : string) (g : groups) :
  search f r s = Some g ->
  exists pre m rest, s = pre ++ m ++ rest /\ Spec.matches f r m rest [] g.
Proof.
  induction s as [|c s IH]; simpl; intro H.
  - destruct (rmatch f r "") as [g'|] eqn:Hm; [|discriminate].
    injection H as ->. apply rmatch_sound in Hm as (m & rest & Hs & Hm).
    exists "", m, rest. auto.
  - destruct (rmatch f r (String c s)) as [g'|] eqn:Hm.
    + injection H as ->. apply rmatch_sound in Hm as (m & rest & Hs & Hm).
      exists "", m, rest. auto.
    + apply IH in H as (pre & m & rest & -> & Hm').
      exists (String c pre), m, rest. auto.
Qed.
End Soundness.

Section Numeric.
Import PyStr Re.

Ltac invert_matches :=
  repeat match goal with
         | H : Spec.matches _ (Seq _ _) _ _ _ _ |- _ => inversion H; subst; clear H
         | H : Spec.matches _ (Group _ _) _ _ _ _ |- _ => inversion H; subst; clear H
         | H : Spec.matches _ (Lit _) _ _ _ _ |- _ => inversion H; subst; clear H
         | H : Spec.matches _ (Cls _) _ _ _ _ |- _ => inversion H; subst; clear H
         | H : Spec.matches _ (Star _ _) _ _ _ _ |- _ => inversion H; subst; clear H
         | H : Spec.matches _ (Alt _ _) _ _ _ _ |- _ => inversion H; subst; clear H
         | H : Spec.matches _ Empty _ _ _ _ |- _ => inversion H; subst; clear H
         end.

Lemma class_digits (f : flags) (s : string) :
  Spec.all_of (class_match f Digit) s = true -> Spec.all_of isdigit s = true.
Proof. apply all_of_impl. intros c Hc. now rewrite class_match_digit in Hc. Qed.

Lemma class_dotted (f : flags) (c : ascii) :
  class_match f Tools.digits_dots c = true -> isdigit c || Ascii.eqb c "." = true.
Proof.
  destruct f as [[] d]; destruct c as [[] [] [] [] [] [] [] []];
    (reflexivity || discriminate).
Qed.

Lemma class_dot (f : flags) (c : ascii) :
  class_match f (OneOf ".") c = true -> c = "."%char.
Proof.
  destruct f as [[] d]; destruct c as [[] [] [] [] [] [] [] []];
    (reflexivity || discriminate).
Qed.

(** What [k+] matched is a non-empty text of the class. *)
Lemma plus_number (f : flags) (c : ascii) (body : string) :
  class_match f Digit c = true ->
  Spec.all_of (class_match f Digit) body = true ->
  Spec.number (String c "" ++ body) = true.
Proof.
  intros Hc Hall. unfold Spec.number. simpl.
  rewrite class_match_digit in Hc. rewrite Hc. now apply (class_digits f).
Qed.

Lemma plus_dotted (f : flags) (c : ascii) (body : string) :
  class_match f Tools.digits_dots c = true ->
  Spec.all_of (class_match f Tools.digits_dots) body = true ->
  Spec.dotted (String c "" ++ body) = true.
Proof.
  intros Hc Hall. unfold Spec.dotted. simpl.
  rewrite (class_dotted f c Hc).
  revert Hall. apply all_of_impl. apply class_dotted.
Qed.

(** The groups of a POSIX summary. *)
Lemma packets_unix_groups (text : string) (g : groups) :
  Tools.re_search Tools._re_packets_unix text = Some g ->
  Spec.number (group g "tx") = true
  /\ Spec.number (group g "rx") = true
  /\ Spec.percentage (group g "loss").
Proof.
  unfold Tools.re_search. intro H.
  apply search_sound in H as (pre & m & rest & _ & H).
  simpl fst in H. simpl snd in H. unfold seq, Plus, Opt in H. cbn [fold_right] in H.
  invert_matches; cbn [group String.eqb Ascii.eqb Bool.eqb];
    (split; [eapply plus_number; eassumption|]);
    (split; [eapply plus_number; eassumption|]).
  - exists (String c1 "" ++ m27), (String c8 "" ++ m24 ++ "").
    repeat split; [eapply plus_number; eassumption|].
    match goal with H : class_match _ (OneOf ".") _ = true |- _ =>
      apply class_dot in H; subst end.
    simpl. rewrite append_empty_r. eapply class_digits; eassumption.
  - exists ((String c1 "" ++ m27) ++ m24), "".
    repeat split; [simpl; now rewrite !append_empty_r|].
    unfold Spec.number. simpl. rewrite all_of_app.
    match goal with H : class_match _ Digit c1 = true |- _ =>
      rewrite class_match_digit in H; rewrite H end.
    rewrite !(class_digits (Flags true true)) by assumption. reflexivity.
Qed.

(** The groups of a POSIX line of times. *)
Lemma rtt_unix_groups (text : string) (g : groups) :
  Tools.re_search Tools._re_rtt_unix text = Some g ->
  Spec.dotted (group g "min") = true /\ Spec.dotted (group g "avg") = true
  /\ Spec.dotted (group g "max") = true /\ Spec.dotted (group g "mdev") = true.
Proof.
  unfold Tools.re_search. intro H.
  apply search_sound in H as (pre & m & rest & _ & H).
  simpl fst in H. simpl snd in H. unfold seq, Plus in H. cbn [fold_right] in H.
  invert_matches; cbn [group String.eqb Ascii.eqb Bool.eqb];
    repeat split; eapply plus_dotted; eassumption.
Qed.

(** The groups of a Windows summary and of a Windows line of times. *)
Lemma packets_win_groups (text : string) (g : groups) :
  Tools.re_search Tools._re_packets_win text = Some g ->
  Spec.number (group g "tx") = true
  /\ Spec.number (group g "rx") = true
  /\ Spec.number (group g "loss") = true.
Proof.
  unfold Tools.re_search. intro H.
  apply search_sound in H as (pre & m & rest & _ & H).
  simpl fst in H. simpl snd in H. unfold seq, Plus in H. cbn [fold_right] in H.
  invert_matches; cbn [group String.eqb Ascii.eqb Bool.eqb];
    repeat split; eapply plus_number; eassumption.
Qed.

Lemma rtt_win_groups (text : string) (g : groups) :
  Tools.re_search Tools._re_rtt_win text = Some g ->
  Spec.number (group g "min") = true
  /\ Spec.number (group g "avg") = true
  /\ Spec.number (group g "max") = true.
Proof.
  unfold Tools.re_search. intro H.
  apply search_sound in H as (pre & m & rest & _ & H).
  simpl fst in H. simpl snd in H. unfold seq, Plus in H. cbn [fold_right] in H.
  invert_matches; cbn [group String.eqb Ascii.eqb Bool.eqb];
    repeat split; eapply plus_number; eassumption.
Qed.
End Numeric.

(** X16.  The cells of a table of [_format_icmp_table] are numbers or
    dashes, whatever the output was.  In the POSIX table Sent and Received
    are non-empty strings of digits, Loss is digits with or without a
    fraction, and the four times are non-empty strings of digits and dots,
    or all four are "-"; in the Windows table Sent, Received and Loss are
    non-empty strings of digits and the three times are too, or all three
    are "-". *)
Theorem format_icmp_table_numeric (env : Env) (host out err table : string) :
  Tools._format_icmp_table env host out err = Some table ->
  (exists tx rx loss a b c d,
      table = Spec.posix_table host tx rx loss a b c d
      /\ Spec.number tx = true /\ Spec.number rx = true /\ Spec.percentage loss
      /\ ((Spec.dotted a = true /\ Spec.dotted b = true
           /\ Spec.dotted c = true /\ Spec.dotted d = true)
          \/ (a = "-" /\ b = "-" /\ c = "-" /\ d = "-")))
  \/ (exists tx rx loss a b c,
        table = Spec.windows_table host tx rx loss a b c
        /\ Spec.number tx = true /\ Spec.number rx = true /\ Spec.number loss = true
        /\ ((Spec.number a = true /\ Spec.number b = true /\ Spec.number c = true)
            \/ (a = "-" /\ b = "-" /\ c = "-"))).
Proof.
  intro H.
  destruct (Tools.re_search Tools._re_packets_unix (out ++ PyStr.nl ++ err)) as [g|] eqn:Hu.
  - left. destruct (packets_unix_groups _ _ Hu) as (Htx & Hrx & Hloss).
    destruct (Tools.re_search Tools._re_rtt_unix (out ++ PyStr.nl ++ err)) as [r|] eqn:Hr;
      rewrite (format_icmp_table_posix env host out err g _ Hu Hr) in H;
      injection H as <-.
    + destruct (rtt_unix_groups _ _ Hr) as (Ha & Hb & Hc & Hd).
      do 7 eexists. split; [reflexivity|]. auto 10.
    + do 7 eexists. split; [reflexivity|]. auto 10.
  - right.
    destruct (Tools.re_search Tools._re_packets_win (out ++ PyStr.nl ++ err)) as [g|] eqn:Hw.
    + destruct (packets_win_groups _ _ Hw) as (Htx & Hrx & Hloss).
      destruct (Tools.re_search Tools._re_rtt_win (out ++ PyStr.nl ++ err)) as [r|] eqn:Hr;
        rewrite (format_icmp_table_windows env host out err g _ Hu Hw Hr) in H;
        injection H as <-.
      * destruct (rtt_win_groups _ _ Hr) as (Ha & Hb & Hc).
        do 6 eexists. split; [reflexivity|]. auto 10.
      * do 6 eexists. split; [reflexivity|]. auto 10.
    + exfalso. unfold Tools._format_icmp_table in H. rewrite !or_else_empty in H.
      cbv zeta in H. rewrite Hu, Hw in H. discriminate.
Qed.

(** Output whose summary line is followed by no line of times. *)
Lemma format_icmp_table_numeric_witness :
  exists tx rx loss a b c d,
    Spec.posix_table "example.com" "3" "0" "100" "-" "-" "-" "-"
    = Spec.posix_table "example.com" tx rx loss a b c d
    /\ Spec.number tx = true /\ Spec.number rx = true /\ Spec.percentage loss
    /\ ((Spec.dotted a = true /\ Spec.dotted b = true
         /\ Spec.dotted c = true /\ Spec.dotted d = true)
        \/ (a = "-" /\ b = "-" /\ c = "-" /\ d = "-")).
Proof.
  destruct (format_icmp_table_numeric (Scenario.linux 0 "" "") "example.com"
              (Scenario.statistics_head
                 ++ "3 packets transmitted, 0 received, 100% packet loss, time 2003ms")
              "" (Spec.posix_table "example.com" "3" "0" "100" "-" "-" "-" "-"))
    as [Hposix | (tx & rx & loss & a & b & c & Htable & _)].
  - vm_compute. reflexivity.
  - exact Hposix.
  - exfalso. vm_compute in Htable. discriminate.
Defined.
